(** * The TTS gateway servers of opencode-manager

    A shallow embedding of [scripts/chatterbox-server.py] and of
    [scripts/coqui-server.py], with the properties the specification states
    about them and further properties of the handlers.

    Conventions.
    - A Python [str] is a Rocq [string]; one [ascii] stands for one code point,
      so the strings of the model are the Latin-1 strings.
    - A JSON request body is a [gmap string json].
    - The external libraries (torch, torchaudio, chatterbox, TTS) and the
      process environment are the fields of a record [Env]; every function of
      the servers takes the environment it runs in.
    - Module-level globals, the file system and what the libraries were asked
      to do are the fields of a state record threaded through a state and
      exception monad. *)

From Stdlib Require Import String Ascii List ZArith QArith Lia Bool.
From stdpp Require Import base option list strings pretty gmap.

Local Open Scope string_scope.
Local Open Scope list_scope.

(** ** Python strings *)

Module Str.

(** [s.endswith(suf)] *)
Fixpoint endswith (s suf : string) : bool :=
  if String.eqb s suf then true
  else match s with
       | EmptyString => false
       | String _ s' => endswith s' suf
       end.

(** [s.startswith(pre)] *)
Definition startswith (s pre : string) : bool := String.prefix pre s.

(** [s.split(sep)] for a one-character separator: never the empty list. *)
Fixpoint split (sep : ascii) (s : string) : list string :=
  match s with
  | EmptyString => [EmptyString]
  | String c s' =>
      if Ascii.eqb c sep then EmptyString :: split sep s'
      else match split sep s' with
           | [] => [String c EmptyString]
           | w :: ws => String c w :: ws
           end
  end.

(** [sep.join(l)] *)
Fixpoint join (sep : string) (l : list string) : string :=
  match l with
  | [] => EmptyString
  | [x] => x
  | x :: l' => x ++ sep ++ join sep l'
  end.

(** [s.rfind(c)], with [None] for Python's -1. *)
Fixpoint rfind (c : ascii) (s : string) : option nat :=
  match s with
  | EmptyString => None
  | String d s' =>
      match rfind c s' with
      | Some i => Some (S i)
      | None => if Ascii.eqb d c then Some 0 else None
      end
  end.

(** [s[:i]] and [s[i:]] *)
Definition take (i : nat) (s : string) : string := String.substring 0 i s.
Definition drop (i : nat) (s : string) : string :=
  String.substring i (String.length s - i) s.

(** [s.replace(a, b)] for one-character [a] and [b]. *)
Fixpoint replace (a b : ascii) (s : string) : string :=
  match s with
  | EmptyString => EmptyString
  | String c s' => String (if Ascii.eqb c a then b else c) (replace a b s')
  end.

Definition between (lo hi n : N) : bool := (lo <=? n)%N && (n <=? hi)%N.

(** [c.isalnum()] on the code points below 256: the decimal digits, the
    ASCII letters, and in the upper half the letters (all of U+00C0..U+00FF
    but the two operators U+00D7 and U+00F7, and U+00AA, U+00B5, U+00BA),
    the superscript digits U+00B2, U+00B3, U+00B9 and the vulgar fractions
    U+00BC..U+00BE. *)
Definition isalnum (c : ascii) : bool :=
  let n := N_of_ascii c in
  between 48 57 n || between 65 90 n || between 97 122 n
  || (n =? 170)%N || (n =? 178)%N || (n =? 179)%N || (n =? 181)%N
  || (n =? 185)%N || (n =? 186)%N || between 188 190 n
  || between 192 214 n || between 216 246 n || between 248 255 n.

(** [c.lower()] on the code points below 256. *)
Definition lower_char (c : ascii) : ascii :=
  let n := N_of_ascii c in
  if between 65 90 n || between 192 214 n || between 216 222 n
  then ascii_of_N (n + 32) else c.

Fixpoint lower (s : string) : string :=
  match s with
  | EmptyString => EmptyString
  | String c s' => String (lower_char c) (lower s')
  end.

(** ["".join(f(c) for c in s)] for a character-valued [f]. *)
Fixpoint map_chars (f : ascii -> ascii) (s : string) : string :=
  match s with
  | EmptyString => EmptyString
  | String c s' => String (f c) (map_chars f s')
  end.

(** [c in s] for a character [c]. *)
Fixpoint mem (c : ascii) (s : string) : bool :=
  match s with
  | EmptyString => false
  | String d s' => Ascii.eqb c d || mem c s'
  end.

(** [c.upper()] on the ASCII letters. *)
Definition upper_ascii (c : ascii) : ascii :=
  let n := N_of_ascii c in
  if between 97 122 n then ascii_of_N (n - 32) else c.

Definition cased_ascii (c : ascii) : bool :=
  let n := N_of_ascii c in between 65 90 n || between 97 122 n.

(** [s.title()] on ASCII strings: a letter that follows a letter is put in
    lower case, any other letter in upper case.  [cased] tells whether the
    character before was a letter. *)
Fixpoint title_from (cased : bool) (s : string) : string :=
  match s with
  | EmptyString => EmptyString
  | String c s' =>
      String (if cased_ascii c
              then if cased then lower_char c else upper_ascii c
              else c)
             (title_from (cased_ascii c) s')
  end.

Definition title (s : string) : string := title_from false s.

(** A string of [n] copies of [c]. *)
Fixpoint replicate (c : ascii) (n : nat) : string :=
  match n with
  | O => EmptyString
  | S n' => String c (replicate c n')
  end.

End Str.

(** ** pathlib

    A [PurePosixPath]: whether it has the root anchor, and its components.
    Parsing drops empty components and ["."]; [".."] is kept, as pathlib keeps
    it.  (A path with exactly two leading slashes is read as one with a single
    leading slash; both name the same location on the hosts the server runs
    on.) *)

Module Pathlib.

Record PurePath : Type := mkPath { anchored : bool; parts : list string }.

Definition keep_part (x : string) : bool :=
  negb (String.eqb x "") && negb (String.eqb x ".").

(** [Path(s)] *)
Definition Path (s : string) : PurePath :=
  {| anchored := Str.startswith s "/";
     parts := List.filter keep_part (Str.split "/"%char s) |}.

(** [p / s] : an absolute right operand replaces the left one. *)
Definition joinpath (p : PurePath) (s : string) : PurePath :=
  let q := Path s in
  if anchored q then q
  else {| anchored := anchored p; parts := parts p ++ parts q |}.

(** [str(p)] *)
Definition str (p : PurePath) : string :=
  match anchored p, parts p with
  | false, [] => "."
  | false, ps => Str.join "/" ps
  | true, ps => "/" ++ Str.join "/" ps
  end.

(** [p.name] *)
Definition name (p : PurePath) : string := List.last (parts p) "".

(** Where the last dot of a name splits it into stem and suffix: a dot that
    is neither the first nor the last character. *)
Definition suffix_at (n : string) : option nat :=
  match Str.rfind "."%char n with
  | Some i => if (0 <? i)%nat && (i <? String.length n - 1)%nat
              then Some i else None
  | None => None
  end.

(** [p.suffix] *)
Definition suffix (p : PurePath) : string :=
  match suffix_at (name p) with
  | Some i => Str.drop i (name p)
  | None => ""
  end.

(** [p.stem] *)
Definition stem (p : PurePath) : string :=
  match suffix_at (name p) with
  | Some i => Str.take i (name p)
  | None => name p
  end.

End Pathlib.

Import Pathlib.

(** ** Python values

    What [json.loads] gives: [JNull] is [None].  Numbers are rationals; the
    servers only pass them on. *)

#[local] Set Warnings "-register-all".

Inductive json : Type :=
| JNull
| JBool (b : bool)
| JNum (q : Q)
| JStr (s : string)
| JArr (l : list json)
| JObj (l : list (string * json)).

Definition is_nil {A} (l : list A) : bool :=
  match l with [] => true | _ => false end.

(** [bool(v)] *)
Definition truthy (v : json) : bool :=
  match v with
  | JNull => false
  | JBool b => b
  | JNum q => negb (Qeq_bool q 0)
  | JStr s => negb (String.eqb s "")
  | JArr l => negb (is_nil l)
  | JObj l => negb (is_nil l)
  end.

(** [a or b] *)
Definition py_or (a b : json) : json := if truthy a then a else b.

(** [v == s] for a string literal [s] *)
Definition eq_str (v : json) (s : string) : bool :=
  match v with JStr t => String.eqb t s | _ => false end.

(** [d.get(k)] and [d.get(k, dflt)] *)
Definition dict_get (d : gmap string json) (k : string) : json :=
  default JNull (d !! k).
Definition dict_get_or (d : gmap string json) (k : string) (dflt : json) : json :=
  default dflt (d !! k).

(** ** Exceptions and the monad of the handlers *)

Inductive exn : Type :=
| HTTPException (status_code : nat) (detail : string)
| Exception (msg : string).

Inductive outcome (A : Type) : Type :=
| Return (a : A)
| Raise (e : exn).
Arguments Return {A} a.
Arguments Raise {A} e.

(** A computation over the state [S]: it returns or raises, and leaves a
    state. *)
Definition M (S A : Type) : Type := S -> outcome A * S.

#[export] Instance M_ret {S} : MRet (M S) := fun A a s => (Return a, s).

#[export] Instance M_bind {S} : MBind (M S) := fun A B f m s =>
  match m s with
  | (Return a, s') => f a s'
  | (Raise e, s') => (Raise e, s')
  end.

Definition raise {S A} (e : exn) : M S A := fun s => (Raise e, s).
Definition gets {S A} (f : S -> A) : M S A := fun s => (Return (f s), s).
Definition modify {S} (f : S -> S) : M S unit := fun s => (Return tt, f s).

(** [try: body except Exception as e: handler(e)].  [HTTPException] is a
    subclass of [Exception], so the clause catches both. *)
Definition try_except {S A} (body : M S A) (handler : exn -> M S A) : M S A :=
  fun s =>
    match body s with
    | (Return a, s') => (Return a, s')
    | (Raise e, s') => handler e s'
    end.

(** What a library call gives: a value, or the message of the exception it
    raises. *)
Definition result (A : Type) : Type := A + string.

Definition lift_result {S A} (r : result A) : M S A :=
  match r with
  | inl a => mret a
  | inr msg => raise (Exception msg)
  end.

(** The status the framework answers with when a handler ends with the
    given outcome: an [HTTPException] becomes its status code, any other
    exception that leaves the handler becomes 500. *)
Definition status_of {A} (status_ok : A -> nat) (o : outcome A) : nat :=
  match o with
  | Return a => status_ok a
  | Raise (HTTPException c _) => c
  | Raise (Exception _) => 500
  end.

(** ** Audio, files, the file system *)

(** A waveform tensor of shape [channels, frames]. *)
Definition tensor : Type := list (list Q).

Inductive file : Type :=
| Encoded (container : string) (rate : Z) (wave : tensor)
| Raw (bytes : string).

(** A location: the components of an absolute path with no [".."] left. *)
Definition loc : Type := list string.

(** The regular files, in the order in which a directory scan meets them.
    Directories are not nodes of their own: every prefix of a location is a
    directory, and a directory holds regular files and directories of files
    only (no directory carries a file's name, there are no symbolic links).
    The path operations below always answer: what the kernel refuses (a
    name or a path over its limits, a directory the process may not search,
    a directory to be made where a regular file is) is not part of the
    model, and the properties that depend on a path operation answering say
    so in their hypotheses. *)
Definition filesystem : Type := list (loc * file).

Fixpoint walk (back : list string) (ps : list string) : list string :=
  match ps with
  | [] => back
  | p :: ps' =>
      if String.eqb p ".." then walk (tail back) ps' else walk (p :: back) ps'
  end.

(** Where the kernel finds the file a path names, from the working directory
    [cwd]: [".."] steps to the parent, and stays at the root there.  The
    step is taken on the path: for the kernel the directory stepped out of
    has to be there, which it is when the [".."] follows the voice
    directory. *)
Definition locate (cwd : loc) (p : PurePath) : loc :=
  rev (walk (if anchored p then [] else rev cwd) (parts p)).

Definition loc_eqb (a b : loc) : bool := bool_decide (a = b).

Fixpoint fs_lookup (fs : filesystem) (l : loc) : option file :=
  match fs with
  | [] => None
  | (l', f) :: fs' => if loc_eqb l' l then Some f else fs_lookup fs' l
  end.

Definition fs_exists (fs : filesystem) (l : loc) : bool :=
  match fs_lookup fs l with Some _ => true | None => false end.

Fixpoint fs_remove (fs : filesystem) (l : loc) : filesystem :=
  match fs with
  | [] => []
  | (l', f) :: fs' => if loc_eqb l' l then fs_remove fs' l else (l', f) :: fs_remove fs' l
  end.

(** Writing replaces the file in place, or adds it last. *)
Fixpoint fs_write (fs : filesystem) (l : loc) (f : file) : filesystem :=
  match fs with
  | [] => [(l, f)]
  | (l', f') :: fs' =>
      if loc_eqb l' l then (l, f) :: fs_remove fs' l else (l', f') :: fs_write fs' l f
  end.

(** The names of the files directly in [dir], in scan order. *)
Fixpoint fs_scandir (fs : filesystem) (dir : loc) : list string :=
  match fs with
  | [] => []
  | (l, _) :: fs' =>
      match rev l with
      | n :: d => if loc_eqb (rev d) dir then n :: fs_scandir fs' dir
                  else fs_scandir fs' dir
      | [] => fs_scandir fs' dir
      end
  end.

(** [fnmatch] against a pattern of the shape ["*" + ext]. *)
Definition glob_star (ext : string) (n : string) : bool := Str.endswith n ext.

(** ** The environment: the process environment and the external libraries *)

(** A loaded model object: its identity and its [sr] attribute. *)
Record handle : Type := mkHandle { obj_id : nat; sr : Z }.

(** The arguments of one [tts_model.generate(...)] call; [None] is an
    argument the call does not pass. *)
Record gen_call : Type := mkGen {
  g_text : json;
  g_audio_prompt_path : option string;
  g_exaggeration : option json;
  g_cfg_weight : option json }.

Record Env : Type := mkEnv {
  CHATTERBOX_DEVICE : string;
  VOICE_SAMPLES_DIR : string;
  cwd : loc;
  cuda_is_available : bool;
  (** [hasattr(torch.backends, "mps") and torch.backends.mps.is_available()] *)
  mps_is_available : bool;
  (** [ChatterboxTTS.from_pretrained(device=dev)]; the first argument is the
      number of loads attempted before this one. *)
  from_pretrained : nat -> string -> result handle;
  generate : handle -> gen_call -> result tensor;
  (** [ta.save(dst, wav, rate, format=fmt)]: the bytes written. *)
  ta_save : string -> tensor -> Z -> result string;
  (** [ta.load] of a file with the given suffix and bytes. *)
  ta_load : string -> string -> result (tensor * Z);
  (** [ta.transforms.Resample(src, dst)] on one channel. *)
  resample : Z -> Z -> list Q -> list Q;
  (** [w.mean(dim=0)] *)
  mean_dim0 : tensor -> list Q;
  (** [str(v)] of a value that is not a string, and [s.title()] *)
  py_repr : json -> string;
  py_title : string -> string }.

(** [f"{v}"] *)
Definition py_format (E : Env) (v : json) : string :=
  match v with JStr s => s | _ => py_repr E v end.

Definition format_opt (o : option string) : string :=
  match o with Some s => s | None => "None" end.

(** [str(e)] *)
Definition str_exn (e : exn) : string :=
  match e with
  | HTTPException c d => pretty c ++ ": " ++ d
  | Exception msg => msg
  end.

(** ** The Chatterbox server *)

Module Chatterbox.

Inductive fs_op : Type :=
| Mkdir (l : loc)
| Exists (l : loc)
| Unlink (l : loc)
| Glob (dir : loc) (ext : string)
| Save (l : loc).

(** What the server asked of the libraries and of the file system. *)
Inductive event : Type :=
| EvFromPretrained (dev : string)
| EvGenerate (h : handle) (c : gen_call)
| EvEncode (fmt : string)
| EvDecode (suffix : string)
| EvFs (op : fs_op).

Inductive level : Type := INFO | WARNING | ERROR.

(** The globals [model] and [device], the file system, and the history. *)
Record world : Type := mkWorld {
  fs : filesystem;
  model : option handle;
  device : string;
  trace : list event;
  logs : list (level * string) }.

(** The process as the module body leaves it. *)
Definition boot (files : filesystem) : world :=
  {| fs := files; model := None; device := "cpu"; trace := []; logs := [] |}.

Definition set_fs (f : filesystem) (w : world) : world :=
  {| fs := f; model := model w; device := device w;
     trace := trace w; logs := logs w |}.
Definition set_model (m : option handle) (w : world) : world :=
  {| fs := fs w; model := m; device := device w;
     trace := trace w; logs := logs w |}.
Definition set_device (d : string) (w : world) : world :=
  {| fs := fs w; model := model w; device := d;
     trace := trace w; logs := logs w |}.
Definition emit (e : event) : M world unit :=
  modify (fun w => {| fs := fs w; model := model w; device := device w;
                      trace := trace w ++ [e]; logs := logs w |}).
Definition log (lv : level) (msg : string) : M world unit :=
  modify (fun w => {| fs := fs w; model := model w; device := device w;
                      trace := trace w; logs := logs w ++ [(lv, msg)] |}).

Definition is_load (e : event) : bool :=
  match e with EvFromPretrained _ => true | _ => false end.

(** How many times the model load was invoked. *)
Definition loads (w : world) : nat := length (List.filter is_load (trace w)).

Definition is_fs (e : event) : bool :=
  match e with EvFs _ => true | _ => false end.

Definition is_engine (e : event) : bool :=
  match e with EvFromPretrained _ | EvGenerate _ _ => true | _ => false end.

Record StreamingResponse : Type := mkResponse {
  body : string;
  media_type : string;
  headers : list (string * string) }.

(** One entry of the voice listing; [path] is absent for the built-in. *)
Record voice : Type := mkVoice {
  id : string;
  name : string;
  description : string;
  is_custom : bool;
  path : option string }.

Record UploadFile : Type := mkUpload { filename : option string; content : string }.

Section Server.

Variable E : Env.

(** *** File-system calls *)

Definition where_is (p : PurePath) : loc := locate (cwd E) p.

(** [p.mkdir(parents=True, exist_ok=True)], for a directory that is there
    or can be made *)
Definition mkdir (p : PurePath) : M world unit := emit (EvFs (Mkdir (where_is p))).

(** [p.exists()], for a path the kernel answers for *)
Definition exists_ (p : PurePath) : M world bool :=
  _ ← emit (EvFs (Exists (where_is p)));
  gets (fun w => fs_exists (fs w) (where_is p)).

(** [p.unlink()] *)
Definition unlink (p : PurePath) : M world unit :=
  _ ← emit (EvFs (Unlink (where_is p)));
  present ← gets (fun w => fs_exists (fs w) (where_is p));
  if present : bool then modify (fun w => set_fs (fs_remove (fs w) (where_is p)) w)
  else raise (Exception "No such file or directory").

(** [p.glob("*" + ext)], as a list: the regular files of the directory
    whose names match *)
Definition glob (p : PurePath) (ext : string) : M world (list PurePath) :=
  _ ← emit (EvFs (Glob (where_is p) ext));
  gets (fun w =>
    List.map (fun n => mkPath (anchored p) (parts p ++ [n]))
             (List.filter (glob_star ext) (fs_scandir (fs w) (where_is p)))).

(** [ta.save(str(p), wav, rate)] to a [.wav] path *)
Definition save_file (p : PurePath) (wav : tensor) (rate : Z) : M world unit :=
  _ ← emit (EvFs (Save (where_is p)));
  _ ← lift_result (ta_save E "wav" wav rate);
  modify (fun w => set_fs (fs_write (fs w) (where_is p) (Encoded "wav" rate wav)) w).

(** [ta.save(buffer, wav, rate, format=fmt)] to a fresh buffer *)
Definition save_buffer (fmt : string) (wav : tensor) (rate : Z) : M world string :=
  _ ← emit (EvEncode fmt);
  lift_result (ta_save E fmt wav rate).

(** *** Model lifecycle *)

(** The value [get_device] assigns to the global [device]. *)
Definition chosen_device : string :=
  if String.eqb (CHATTERBOX_DEVICE E) "auto" then
    if cuda_is_available E then "cuda"
    else if mps_is_available E then "mps"
    else "cpu"
  else CHATTERBOX_DEVICE E.

Definition get_device : M world string :=
  _ ← modify (set_device chosen_device);
  gets device.

Definition get_model : M world handle :=
  m ← gets model;
  match m with
  | None =>
      dev ← get_device;
      _ ← log INFO ("Loading Chatterbox model on " ++ dev ++ "...");
      n ← gets loads;
      _ ← emit (EvFromPretrained dev);
      h ← lift_result (from_pretrained E n dev);
      _ ← modify (set_model (Some h));
      _ ← log INFO "Chatterbox model loaded successfully";
      mret h
  | Some h => mret h
  end.

Definition startup_event : M world unit :=
  _ ← log INFO "Starting Chatterbox TTS Server...";
  _ ← log INFO ("Voice samples directory: " ++ VOICE_SAMPLES_DIR E);
  _ ← log INFO ("Device preference: " ++ CHATTERBOX_DEVICE E);
  try_except
    (_ ← get_model;
     log INFO "Chatterbox model pre-loaded successfully")
    (fun e => log WARNING ("Could not pre-load model: " ++ str_exn e
                           ++ ". Will load on first request.")).

(** *** Voice store *)

Definition get_voice_samples_path : M world PurePath :=
  let path := Path (VOICE_SAMPLES_DIR E) in
  _ ← mkdir path;
  mret path.

Definition custom_voice (audio_file : PurePath) : voice :=
  {| id := stem audio_file;
     name := py_title E (Str.replace "_" " " (stem audio_file));
     description := "Custom voice from " ++ Pathlib.name audio_file;
     is_custom := true;
     path := Some (str audio_file) |}.

Definition default_voice : voice :=
  {| id := "default";
     name := "Default Voice";
     description := "Built-in default voice (no reference audio)";
     is_custom := false;
     path := None |}.

Definition list_voice_samples : M world (list voice) :=
  voices_path ← get_voice_samples_path;
  let voices := [default_voice] in
  wavs ← glob voices_path ".wav";
  let voices := voices ++ List.map custom_voice wavs in
  mp3s ← glob voices_path ".mp3";
  let voices := voices ++ List.map custom_voice mp3s in
  mret voices.

(** [GET /voices]: the ids, and the entries. *)
Definition list_voices : M world (list string * list voice) :=
  voices ← list_voice_samples;
  mret (List.map id voices, voices).

(** [sanitized]: the character the upload keeps for [c]. *)
Definition safe_char (c : ascii) : ascii :=
  if Str.isalnum c || Str.mem c "_-" then c else "_"%char.

Definition truthy_opt (o : option string) : bool :=
  match o with Some s => negb (String.eqb s "") | None => false end.

Definition upload_voice (audio : UploadFile) (name : string) : M world json :=
  if negb (truthy_opt (filename audio)) then
    raise (HTTPException 400 "No audio file provided")
  else
  let safe_name := Str.lower (Str.map_chars safe_char name) in
  if String.eqb safe_name "" then
    raise (HTTPException 400 "Invalid voice name")
  else
  let suffix := Str.lower (Pathlib.suffix (Path (default "" (filename audio)))) in
  if negb (existsb (String.eqb suffix) [".wav"; ".mp3"; ".ogg"; ".flac"]) then
    raise (HTTPException 400 "Unsupported audio format. Use WAV, MP3, OGG, or FLAC.")
  else
  voices_path ← get_voice_samples_path;
  let output_path := joinpath voices_path (safe_name ++ ".wav") in
  try_except
    ((* the bytes go through a temporary file that is gone again when the
        [finally] clause has run *)
     _ ← emit (EvDecode suffix);
     loaded ← lift_result (ta_load E suffix (content audio));
     let waveform := loaded.1 in
     let sample_rate := loaded.2 in
     let waveform :=
       if negb (sample_rate =? 24000)%Z
       then List.map (resample E sample_rate 24000%Z) waveform
       else waveform in
     let waveform :=
       if (1 <? length waveform)%nat then [mean_dim0 E waveform] else waveform in
     _ ← save_file output_path waveform 24000%Z;
     mret (JObj [("success", JBool true);
                 ("voice_id", JStr safe_name);
                 ("path", JStr (str output_path))]))
    (fun e =>
       _ ← log ERROR ("Failed to upload voice: " ++ str_exn e);
       raise (HTTPException 500 (str_exn e))).

(** The [for ext in ...] loop of [delete_voice]; [None] when it falls
    through. *)
Fixpoint delete_first (voices_path : PurePath) (voice_id : string)
    (exts : list string) : M world (option json) :=
  match exts with
  | [] => mret None
  | ext :: exts' =>
      let voice_file := joinpath voices_path (voice_id ++ ext) in
      present ← exists_ voice_file;
      if present : bool then
        _ ← unlink voice_file;
        mret (Some (JObj [("success", JBool true); ("deleted", JStr voice_id)]))
      else delete_first voices_path voice_id exts'
  end.

Definition delete_voice (voice_id : string) : M world json :=
  if String.eqb voice_id "default" then
    raise (HTTPException 400 "Cannot delete default voice")
  else
  voices_path ← get_voice_samples_path;
  r ← delete_first voices_path voice_id [".wav"; ".mp3"];
  match r with
  | Some j => mret j
  | None => raise (HTTPException 404 "Voice not found")
  end.

(** [len(v)] *)
Definition py_len (v : json) : M world Z :=
  match v with
  | JStr s => mret (Z.of_nat (String.length s))
  | JArr l => mret (Z.of_nat (length l))
  | JObj l => mret (Z.of_nat (length l))
  | _ => raise (Exception "object has no len()")
  end.

(** The [for ext in ...] loop of the two synthesis handlers: the value of
    [audio_prompt_path] after it. *)
Fixpoint find_prompt (voices_path : PurePath) (voice_id : json)
    (exts : list string) : M world (option string) :=
  match exts with
  | [] => mret None
  | ext :: exts' =>
      let voice_file := joinpath voices_path (py_format E voice_id ++ ext) in
      present ← exists_ voice_file;
      if present : bool then mret (Some (str voice_file))
      else find_prompt voices_path voice_id exts'
  end.

Definition call_generate (h : handle) (c : gen_call) : M world tensor :=
  _ ← emit (EvGenerate h c);
  lift_result (generate E h c).

Definition synthesize (request : gmap string json) : M world StreamingResponse :=
  let text := py_or (dict_get request "input") (dict_get request "text") in
  let voice_id := dict_get_or request "voice" (JStr "default") in
  let exaggeration := dict_get_or request "exaggeration" (JNum (1 # 2)) in
  let cfg_weight := dict_get_or request "cfg_weight" (JNum (1 # 2)) in
  if negb (truthy text) then
    raise (HTTPException 400 "No text provided")
  else
  n ← py_len text;
  if (4096 <? n)%Z then
    raise (HTTPException 400 "Text too long (max 4096 characters)")
  else
  try_except
    (tts_model ← get_model;
     audio_prompt_path ←
       (if negb (eq_str voice_id "default") then
          voices_path ← get_voice_samples_path;
          find_prompt voices_path voice_id [".wav"; ".mp3"]
        else mret None);
     _ ← log INFO ("Synthesizing text with voice '" ++ py_format E voice_id
                   ++ "' (prompt: " ++ format_opt audio_prompt_path ++ ")");
     wav ←
       (if truthy_opt audio_prompt_path then
          call_generate tts_model
            {| g_text := text; g_audio_prompt_path := audio_prompt_path;
               g_exaggeration := Some exaggeration;
               g_cfg_weight := Some cfg_weight |}
        else
          call_generate tts_model
            {| g_text := text; g_audio_prompt_path := None;
               g_exaggeration := Some exaggeration;
               g_cfg_weight := Some cfg_weight |});
     buffer ← save_buffer "wav" wav (sr tts_model);
     mret {| body := buffer; media_type := "audio/wav";
             headers := [("Content-Disposition", "inline; filename=speech.wav")] |})
    (fun e =>
       _ ← log ERROR ("Synthesis error: " ++ str_exn e);
       raise (HTTPException 500 (str_exn e))).

Definition openai_compatible_synthesize (request : gmap string json)
    : M world StreamingResponse :=
  let text := dict_get request "input" in
  let voice := dict_get_or request "voice" (JStr "default") in
  let response_format := dict_get_or request "response_format" (JStr "mp3") in
  if negb (truthy text) then
    raise (HTTPException 400 "No input text provided")
  else
  n ← py_len text;
  if (4096 <? n)%Z then
    raise (HTTPException 400 "Text too long (max 4096 characters)")
  else
  try_except
    (tts_model ← get_model;
     audio_prompt_path ←
       (if negb (eq_str voice "default") then
          voices_path ← get_voice_samples_path;
          find_prompt voices_path voice [".wav"; ".mp3"]
        else mret None);
     _ ← log INFO ("OpenAI-compatible synthesis: voice='" ++ py_format E voice
                   ++ "', format='" ++ py_format E response_format ++ "'");
     wav ←
       (if truthy_opt audio_prompt_path then
          call_generate tts_model
            {| g_text := text; g_audio_prompt_path := audio_prompt_path;
               g_exaggeration := None; g_cfg_weight := None |}
        else
          call_generate tts_model
            {| g_text := text; g_audio_prompt_path := None;
               g_exaggeration := None; g_cfg_weight := None |});
     encoded ←
       (if eq_str response_format "mp3" then
          try_except
            (buffer ← save_buffer "mp3" wav (sr tts_model);
             mret (buffer, "audio/mpeg"))
            (fun _ =>
               buffer ← save_buffer "wav" wav (sr tts_model);
               mret (buffer, "audio/wav"))
        else if eq_str response_format "opus" then
          buffer ← save_buffer "ogg" wav (sr tts_model);
          mret (buffer, "audio/ogg")
        else if eq_str response_format "aac" then
          buffer ← save_buffer "wav" wav (sr tts_model);
          mret (buffer, "audio/wav")
        else if eq_str response_format "flac" then
          buffer ← save_buffer "flac" wav (sr tts_model);
          mret (buffer, "audio/flac")
        else
          buffer ← save_buffer "wav" wav (sr tts_model);
          mret (buffer, "audio/wav"));
     mret {| body := encoded.1; media_type := encoded.2; headers := [] |})
    (fun e =>
       _ ← log ERROR ("OpenAI-compatible synthesis error: " ++ str_exn e);
       raise (HTTPException 500 (str_exn e))).

(** *** Health and the OpenAI-compatible listing *)

(** The body of [GET /health]. *)
Record Health : Type := mkHealth {
  h_status : string;
  model_loaded : bool;
  h_device : string;
  cuda_available : bool;
  mps_available : bool }.

Definition health : M world Health :=
  m ← gets model;
  d ← gets device;
  mret {| h_status := "healthy";
          model_loaded := match m with Some _ => true | None => false end;
          h_device := d;
          cuda_available := cuda_is_available E;
          mps_available := mps_is_available E |}.

(** One entry of [GET /v1/audio/voices]: id, name, description.  Every entry
    of [list_voice_samples] has a description, so the default of
    [v.get("description", "")] is never taken. *)
Definition openai_compatible_list_voices
    : M world (list (string * string * string)) :=
  voices ← list_voice_samples;
  mret (List.map (fun v => (id v, name v, description v)) voices).

End Server.

End Chatterbox.

(** ** The Coqui server *)

Module Coqui.

Record Env : Type := mkEnv {
  COQUI_DEVICE : string;
  COQUI_MODEL : string;
  cuda_is_available : bool;
  mps_is_available : bool;
  (** [TTS(model_name=name, progress_bar=True)]; the first argument is the
      number of constructions attempted before this one. *)
  TTS : nat -> string -> result handle;
  (** [m.to(dev)] *)
  to : handle -> string -> result handle;
  (** [m.synthesizer.output_sample_rate], when both attributes exist *)
  output_sample_rate : handle -> option Z }.

Inductive event : Type :=
| EvTTS (model_name : string)
| EvTo (h : handle) (dev : string).

Inductive level : Type := INFO | WARNING | ERROR.

(** The globals [model], [device] and [sample_rate], and the history. *)
Record world : Type := mkWorld {
  model : option handle;
  device : string;
  sample_rate : Z;
  trace : list event;
  logs : list (level * string) }.

Definition boot : world :=
  {| model := None; device := "cpu"; sample_rate := 22050;
     trace := []; logs := [] |}.

Definition set_model (m : option handle) (w : world) : world :=
  {| model := m; device := device w; sample_rate := sample_rate w;
     trace := trace w; logs := logs w |}.
Definition set_device (d : string) (w : world) : world :=
  {| model := model w; device := d; sample_rate := sample_rate w;
     trace := trace w; logs := logs w |}.
Definition set_sample_rate (r : Z) (w : world) : world :=
  {| model := model w; device := device w; sample_rate := r;
     trace := trace w; logs := logs w |}.
Definition emit (e : event) : M world unit :=
  modify (fun w => {| model := model w; device := device w;
                      sample_rate := sample_rate w;
                      trace := trace w ++ [e]; logs := logs w |}).
Definition log (lv : level) (msg : string) : M world unit :=
  modify (fun w => {| model := model w; device := device w;
                      sample_rate := sample_rate w;
                      trace := trace w; logs := logs w ++ [(lv, msg)] |}).

Definition is_load (e : event) : bool :=
  match e with EvTTS _ => true | _ => false end.

(** How many times the model was constructed. *)
Definition loads (w : world) : nat := length (List.filter is_load (trace w)).

Section Server.

Variable E : Env.

(** The value [get_device] assigns to the global [device]: on [auto] an
    available MPS backend is passed over for the CPU. *)
Definition chosen_device : string :=
  if String.eqb (COQUI_DEVICE E) "auto" then
    if cuda_is_available E then "cuda"
    else if mps_is_available E then "cpu"
    else "cpu"
  else COQUI_DEVICE E.

Definition get_device : M world string :=
  _ ← modify (set_device chosen_device);
  gets device.

Definition get_model : M world handle :=
  m ← gets model;
  match m with
  | None =>
      dev ← get_device;
      _ ← log INFO ("Loading Coqui TTS model '" ++ COQUI_MODEL E ++ "' on "
                    ++ dev ++ "...");
      n ← gets loads;
      _ ← emit (EvTTS (COQUI_MODEL E));
      h ← lift_result (TTS E n (COQUI_MODEL E));
      _ ← modify (set_model (Some h));
      h ← (if String.eqb dev "cuda" then
             _ ← emit (EvTo h dev);
             h' ← lift_result (to E h dev);
             _ ← modify (set_model (Some h'));
             mret h'
           else mret h);
      _ ← modify (set_sample_rate (default 22050%Z (output_sample_rate E h)));
      r ← gets sample_rate;
      _ ← log INFO ("Coqui TTS model loaded successfully (sample_rate="
                    ++ pretty r ++ ")");
      mret h
  | Some h => mret h
  end.

End Server.

(** *** The handlers

    The attributes of the TTS object, and numpy and scipy as the handlers
    use them.  The arithmetic on float32 arrays is numpy's: the arrays and
    their scalars are abstract, and the handlers decide only which operation
    runs when. *)
Record Engine : Type := mkEngine {
  (** what [tts_model.tts] returns; a float32 array; one of its elements;
      an int16 array *)
  wave : Type;
  array : Type;
  scalar : Type;
  pcm : Type;
  is_multi_speaker : handle -> bool;
  (** [tts_model.speakers], when the attribute exists *)
  speakers : handle -> option (list string);
  (** [tts_model.is_multi_lingual], when the attribute exists *)
  is_multi_lingual : handle -> option bool;
  (** [tts_model.tts(text=text, speaker=..., language=...)]; [None] is a
      keyword the call does not pass *)
  tts : handle -> json -> option json -> option string -> result wave;
  (** [np.array(wav, dtype=np.float32)] *)
  np_array : wave -> result array;
  (** [a.max()] and [a.min()]: they raise on an empty array *)
  np_max : array -> result scalar;
  np_min : array -> result scalar;
  (** [x > 1.0] and [x < -1.0] *)
  gt_one : scalar -> bool;
  lt_minus_one : scalar -> bool;
  (** [max(abs(a), abs(b))] *)
  peak : scalar -> scalar -> scalar;
  (** [a / x] *)
  np_div : array -> scalar -> array;
  (** [(a * 32767).astype(np.int16)] *)
  to_int16 : array -> pcm;
  (** [wavfile.write(buffer, rate, data)]: the bytes written *)
  wavfile_write : Z -> pcm -> result string;
  (** [str(v)] of a value that is not a string, and [s.title()] *)
  py_repr : json -> string;
  py_title : string -> string }.

(** The body of [GET /health]. *)
Record Health : Type := mkHealth {
  h_status : string;
  model_loaded : bool;
  h_model_name : string;
  h_device : string;
  h_sample_rate : Z;
  cuda_available : bool;
  mps_available : bool }.

(** One entry of the voice listing. *)
Record voice : Type := mkVoice {
  id : string;
  name : string;
  description : string }.

(** The body of [GET /voices]. *)
Record Voices : Type := mkVoices {
  voices : list string;
  voice_details : list voice;
  v_is_multi_speaker : bool }.

Section Handlers.

Variable E : Env.
Variable N : Engine.

(** [f"{v}"] *)
Definition py_format (v : json) : string :=
  match v with JStr s => s | _ => py_repr N v end.

(** [len(v)] *)
Definition py_len (v : json) : M world Z :=
  match v with
  | JStr s => mret (Z.of_nat (String.length s))
  | JArr l => mret (Z.of_nat (length l))
  | JObj l => mret (Z.of_nat (length l))
  | _ => raise (Exception "object has no len()")
  end.

Definition startup_event : M world unit :=
  _ ← log INFO "Starting Coqui TTS Server...";
  _ ← log INFO ("Model: " ++ COQUI_MODEL E);
  _ ← log INFO ("Device preference: " ++ COQUI_DEVICE E);
  try_except
    (_ ← get_model E;
     log INFO "Coqui TTS model pre-loaded successfully")
    (fun e => log WARNING ("Could not pre-load model: " ++ str_exn e
                           ++ ". Will load on first request.")).

Definition health : M world Health :=
  m ← gets model;
  d ← gets device;
  r ← gets sample_rate;
  mret {| h_status := "healthy";
          model_loaded := match m with Some _ => true | None => false end;
          h_model_name := COQUI_MODEL E;
          h_device := d;
          h_sample_rate := r;
          cuda_available := cuda_is_available E;
          mps_available := mps_is_available E |}.

Definition speaker_voice (speaker : string) : voice :=
  {| id := speaker;
     name := py_title N (Str.replace "_" " " speaker);
     description := "Speaker: " ++ speaker |}.

Definition jenny : voice :=
  {| id := "default"; name := "Jenny"; description := "Default Jenny voice" |}.

Definition list_voices : M world Voices :=
  tts_model ← get_model E;
  let listed :=
    match is_multi_speaker N tts_model, speakers N tts_model with
    | true, Some (s :: ss) => List.map speaker_voice (s :: ss)
    | _, _ => [jenny]
    end in
  mret {| voices := List.map id listed;
          voice_details := listed;
          v_is_multi_speaker := is_multi_speaker N tts_model |}.

(** [GET /v1/audio/voices]: id, name and description of every entry. *)
Definition openai_compatible_list_voices
    : M world (list (string * string * string)) :=
  voices_data ← list_voices;
  mret (List.map (fun v => (id v, name v, description v))
                 (voice_details voices_data)).

(** The lines from [np.array] to [astype]: the samples, scaled down by their
    peak when one of them is outside [-1, 1], as 16-bit integers. *)
Definition to_pcm (wav : wave N) : M world (pcm N) :=
  wav_np ← lift_result (np_array N wav);
  hi ← lift_result (np_max N wav_np);
  out_of_range ←
    (if gt_one N hi then mret true
     else lo ← lift_result (np_min N wav_np); mret (lt_minus_one N lo));
  wav_np ←
    (if out_of_range : bool then
       hi ← lift_result (np_max N wav_np);
       lo ← lift_result (np_min N wav_np);
       mret (np_div N wav_np (peak N hi lo))
     else mret wav_np);
  mret (to_int16 N wav_np).

(** The keywords of the [tts] call. *)
Definition speaker_kw (tts_model : handle) (voice_id : json) : option json :=
  if is_multi_speaker N tts_model && negb (eq_str voice_id "default")
  then Some voice_id else None.

Definition language_kw (tts_model : handle) : option string :=
  match is_multi_lingual N tts_model with
  | Some true => Some "en"
  | _ => None
  end.

Definition synthesize (request : gmap string json)
    : M world Chatterbox.StreamingResponse :=
  let text := py_or (dict_get request "input") (dict_get request "text") in
  let voice_id := dict_get_or request "voice" (JStr "default") in
  let speed := dict_get_or request "speed" (JNum 1) in
  if negb (truthy text) then
    raise (HTTPException 400 "No text provided")
  else
  n ← py_len text;
  if (4096 <? n)%Z then
    raise (HTTPException 400 "Text too long (max 4096 characters)")
  else
  try_except
    (tts_model ← get_model E;
     _ ← log INFO ("Synthesizing text with voice '" ++ py_format voice_id
                   ++ "', speed=" ++ py_format speed);
     wav ← lift_result (tts N tts_model text (speaker_kw tts_model voice_id)
                          (language_kw tts_model));
     wav_int16 ← to_pcm wav;
     rate ← gets sample_rate;
     buffer ← lift_result (wavfile_write N rate wav_int16);
     mret {| Chatterbox.body := buffer;
             Chatterbox.media_type := "audio/wav";
             Chatterbox.headers :=
               [("Content-Disposition", "inline; filename=speech.wav")] |})
    (fun e =>
       _ ← log ERROR ("Synthesis error: " ++ str_exn e);
       raise (HTTPException 500 (str_exn e))).

Definition openai_compatible_synthesize (request : gmap string json)
    : M world Chatterbox.StreamingResponse :=
  let text := dict_get request "input" in
  let voice := dict_get_or request "voice" (JStr "default") in
  let speed := dict_get_or request "speed" (JNum 1) in
  let response_format := dict_get_or request "response_format" (JStr "wav") in
  if negb (truthy text) then
    raise (HTTPException 400 "No input text provided")
  else
  n ← py_len text;
  if (4096 <? n)%Z then
    raise (HTTPException 400 "Text too long (max 4096 characters)")
  else
  try_except
    (tts_model ← get_model E;
     _ ← log INFO ("OpenAI-compatible synthesis: voice='" ++ py_format voice
                   ++ "', format='" ++ py_format response_format ++ "'");
     wav ← lift_result (tts N tts_model text (speaker_kw tts_model voice)
                          (language_kw tts_model));
     wav_int16 ← to_pcm wav;
     rate ← gets sample_rate;
     buffer ← lift_result (wavfile_write N rate wav_int16);
     mret {| Chatterbox.body := buffer;
             Chatterbox.media_type := "audio/wav";
             Chatterbox.headers := [] |})
    (fun e =>
       _ ← log ERROR ("OpenAI-compatible synthesis error: " ++ str_exn e);
       raise (HTTPException 500 (str_exn e))).

End Handlers.

End Coqui.

(** ** The event loop

    Every handler is an [async def] coroutine run by the single event loop
    that [uvicorn.run] starts, and a coroutine gives up the loop only at an
    [await].  [get_model] is an ordinary function, and no handler that calls
    it awaits anything: requests that are in flight together have their
    calls run one after another, each to its end, in the order the loop
    takes them. *)

Fixpoint run_loop {S A} (ready : list (M S A)) (s : S) : list (outcome A) * S :=
  match ready with
  | [] => ([], s)
  | task :: rest =>
      let r := task s in
      let rs := run_loop rest r.2 in
      (r.1 :: rs.1, rs.2)
  end.

(** ** Notions used to state the properties *)

Module Props.

Import Chatterbox.

(** The world a load attempt leaves when [from_pretrained] raises. *)
Definition after_failed_load (E : Env) (w : world) : world :=
  {| fs := fs w; model := model w; device := chosen_device E;
     trace := trace w ++ [EvFromPretrained (chosen_device E)];
     logs := logs w ++ [(INFO, "Loading Chatterbox model on "
                               +:+ chosen_device E +:+ "...")] |}.

(** The world a load attempt leaves when [from_pretrained] returns [h]. *)
Definition after_load (E : Env) (h : handle) (w : world) : world :=
  {| fs := fs w; model := Some h; device := chosen_device E;
     trace := trace w ++ [EvFromPretrained (chosen_device E)];
     logs := logs w ++ [(INFO, "Loading Chatterbox model on "
                               +:+ chosen_device E +:+ "...");
                        (INFO, "Chatterbox model loaded successfully")] |}.

(** The events a run added to the history. *)
Definition new_events (w w' : world) : list event :=
  drop (length (trace w)) (trace w').

(** The file-system calls, the engine calls and the [generate] calls among
    some events. *)
Definition fs_ops (evs : list event) : list fs_op :=
  omap (fun e => match e with EvFs op => Some op | _ => None end) evs.

Definition gen_calls (evs : list event) : list gen_call :=
  omap (fun e => match e with EvGenerate _ c => Some c | _ => None end) evs.

Definition engine_events (evs : list event) : list event :=
  List.filter is_engine evs.

(** The voice directory, and the file a voice id names under an extension:
    the id goes into the path as it is. *)
Definition voices_dir (E : Env) : PurePath := Path (VOICE_SAMPLES_DIR E).

Definition candidate (E : Env) (voice_id ext : string) : loc :=
  locate (cwd E) (joinpath (voices_dir E) (voice_id ++ ext)).

Definition candidate_str (E : Env) (voice_id ext : string) : string :=
  str (joinpath (voices_dir E) (voice_id ++ ext)).

(** The two synthesis endpoints. *)
Inductive surface : Type := Native | OpenAI.

Definition handler (E : Env) (s : surface)
    : gmap string json -> M world StreamingResponse :=
  match s with
  | Native => synthesize E
  | OpenAI => openai_compatible_synthesize E
  end.

(** The text an endpoint reads from a request. *)
Definition text_of (s : surface) (request : gmap string json) : json :=
  match s with
  | Native => py_or (dict_get request "input") (dict_get request "text")
  | OpenAI => dict_get request "input"
  end.

Definition voice_of (request : gmap string json) : json :=
  dict_get_or request "voice" (JStr "default").

Definition status (o : outcome StreamingResponse) : nat :=
  status_of (fun _ => 200) o.

(** A [generate] call with the tuning arguments it leaves out filled in from
    the engine's defaults. *)
Definition effective (dflt_exaggeration dflt_cfg_weight : json) (c : gen_call)
    : gen_call :=
  {| g_text := g_text c;
     g_audio_prompt_path := g_audio_prompt_path c;
     g_exaggeration := Some (default dflt_exaggeration (g_exaggeration c));
     g_cfg_weight := Some (default dflt_cfg_weight (g_cfg_weight c)) |}.

(** A [generate] call without its tuning arguments. *)
Definition untuned (c : gen_call) : gen_call :=
  {| g_text := g_text c;
     g_audio_prompt_path := g_audio_prompt_path c;
     g_exaggeration := None;
     g_cfg_weight := None |}.

(** The slug [upload_voice] stores a name under. *)
Definition safe_name (name : string) : string :=
  Str.lower (Str.map_chars safe_char name).




(** The stem of a file name. *)
Definition name_stem (n : string) : string := stem (mkPath false [n]).

(** The names a scan of the voice directory meets, and those among them a
    [glob("*" + ext)] yields. *)
Definition voice_files (E : Env) (w : world) : list string :=
  fs_scandir (fs w) (locate (cwd E) (voices_dir E)).

Definition globbed (E : Env) (w : world) (ext : string) : list string :=
  List.filter (glob_star ext) (voice_files E w).

(** [fs'] is [fs] without the file at [l]. *)
Definition removed (fs : filesystem) (l : loc) (fs' : filesystem) : Prop :=
  forall l', fs_lookup fs' l' = if loc_eqb l l' then None else fs_lookup fs l'.

(** What [delete_voice] returns on success. *)
Definition deleted (voice_id : string) : json :=
  JObj [("success", JBool true); ("deleted", JStr voice_id)].

(** The ids [GET /voices] answers with. *)
Definition listed_ids (E : Env) (w : world) : list string :=
  match (list_voices E w).1 with
  | Return r => r.1
  | Raise _ => []
  end.

(** The world after more events, and after one more log line. *)
Definition records (evs : list event) (w : world) : world :=
  {| fs := fs w; model := model w; device := device w;
     trace := trace w ++ evs; logs := logs w |}.

Definition note (lv : level) (msg : string) (w : world) : world :=
  {| fs := fs w; model := model w; device := device w;
     trace := trace w; logs := logs w ++ [(lv, msg)] |}.

(** *** What a synthesis handler does, phase by phase

    The two handlers are written out in full in the source; the functions
    below name the phases they go through, and [native_run] and [openai_run]
    put them together.  [synthesize_run] and
    [openai_compatible_synthesize_run] prove the handlers equal to them. *)

(** Validation: the exception a text is turned away with, if any. *)
Definition rejects (no_text : string) (text : json) : option exn :=
  if negb (truthy text) then Some (HTTPException 400 no_text)
  else
    let too_long (n : nat) :=
      if (4096 <? Z.of_nat n)%Z
      then Some (HTTPException 400 "Text too long (max 4096 characters)")
      else None in
    match text with
    | JStr s => too_long (String.length s)
    | JArr l => too_long (length l)
    | JObj l => too_long (length l)
    | _ => Some (Exception "object has no len()")
    end.

(** Voice resolution: the reference audio a voice id resolves to against
    the files [files], and the file-system calls made to find it. *)
Definition prompt_of (E : Env) (voice_id : json) (files : filesystem)
    : option string :=
  if eq_str voice_id "default" then None
  else if fs_exists files (candidate E (py_format E voice_id) ".wav")
  then Some (candidate_str E (py_format E voice_id) ".wav")
  else if fs_exists files (candidate E (py_format E voice_id) ".mp3")
  then Some (candidate_str E (py_format E voice_id) ".mp3")
  else None.

Definition resolve_events (E : Env) (voice_id : json) (files : filesystem)
    : list event :=
  if eq_str voice_id "default" then []
  else
    EvFs (Mkdir (locate (cwd E) (voices_dir E)))
    :: EvFs (Exists (candidate E (py_format E voice_id) ".wav"))
    :: (if fs_exists files (candidate E (py_format E voice_id) ".wav") then []
        else [EvFs (Exists (candidate E (py_format E voice_id) ".mp3"))]).

(** The [generate] call: the reference path is passed when it is a
    non-empty string; [tuning] is the pair of exaggeration and cfg weight
    the call passes, if it passes them. *)
Definition gen_args (tuning : option (json * json)) (text : json)
    (audio_prompt_path : option string) : gen_call :=
  {| g_text := text;
     g_audio_prompt_path :=
       if truthy_opt audio_prompt_path then audio_prompt_path else None;
     g_exaggeration := fst <$> tuning;
     g_cfg_weight := snd <$> tuning |}.

(** Model, voice, engine: the part the two handlers have in common. *)
Definition synthesized (E : Env) (logline : option string -> string)
    (tuning : option (json * json)) (text voice_id : json) (w : world)
    : outcome (handle * tensor) * world :=
  match get_model E w with
  | (Raise e, w1) => (Raise e, w1)
  | (Return tts_model, w1) =>
      let p := prompt_of E voice_id (fs w1) in
      let w2 := note INFO (logline p)
                  (records (resolve_events E voice_id (fs w1)) w1) in
      let c := gen_args tuning text p in
      match generate E tts_model c with
      | inl wav => (Return (tts_model, wav), records [EvGenerate tts_model c] w2)
      | inr msg => (Raise (Exception msg), records [EvGenerate tts_model c] w2)
      end
  end.

(** The [except Exception] clause of a handler. *)
Definition failed {A} (what : string) (e : exn) (w : world)
    : outcome A * world :=
  (Raise (HTTPException 500 (str_exn e)),
   note ERROR (what +:+ str_exn e) w).

(** Encoding for the OpenAI-compatible endpoint: the codec asked of
    torchaudio for a [response_format], the content type answered with, and
    whether a failed encode falls back to WAV. *)
Definition encode_plan (response_format : json) : string * string * bool :=
  if eq_str response_format "mp3" then ("mp3", "audio/mpeg", true)
  else if eq_str response_format "opus" then ("ogg", "audio/ogg", false)
  else if eq_str response_format "aac" then ("wav", "audio/wav", false)
  else if eq_str response_format "flac" then ("flac", "audio/flac", false)
  else ("wav", "audio/wav", false).

(** What the encoding block gives, and the encodes it asks for. *)
Definition encoding (E : Env) (response_format : json) (tts_model : handle)
    (wav : tensor) : outcome (string * string) * list event :=
  let plan := encode_plan response_format in
  let codec := plan.1.1 in
  match ta_save E codec wav (sr tts_model) with
  | inl buffer => (Return (buffer, plan.1.2), [EvEncode codec])
  | inr msg =>
      if plan.2 then
        match ta_save E "wav" wav (sr tts_model) with
        | inl buffer =>
            (Return (buffer, "audio/wav"), [EvEncode codec; EvEncode "wav"])
        | inr msg' =>
            (Raise (Exception msg'), [EvEncode codec; EvEncode "wav"])
        end
      else (Raise (Exception msg), [EvEncode codec])
  end.

Definition encoded (E : Env) (response_format : json) (tts_model : handle)
    (wav : tensor) (w : world) : outcome (string * string) * world :=
  let r := encoding E response_format tts_model wav in
  (r.1, records r.2 w).

Definition native_logline (E : Env) (voice_id : json) (p : option string)
    : string :=
  "Synthesizing text with voice '" +:+ py_format E voice_id
  +:+ "' (prompt: " +:+ format_opt p +:+ ")".

Definition openai_logline (E : Env) (voice response_format : json)
    (p : option string) : string :=
  "OpenAI-compatible synthesis: voice='" +:+ py_format E voice
  +:+ "', format='" +:+ py_format E response_format +:+ "'".

Definition native_tuning (request : gmap string json) : json * json :=
  (dict_get_or request "exaggeration" (JNum (1 # 2)),
   dict_get_or request "cfg_weight" (JNum (1 # 2))).

Definition native_run (E : Env) (request : gmap string json) (w : world)
    : outcome StreamingResponse * world :=
  let text := text_of Native request in
  match rejects "No text provided" text with
  | Some e => (Raise e, w)
  | None =>
      match synthesized E (native_logline E (voice_of request))
              (Some (native_tuning request)) text (voice_of request) w with
      | (Raise e, w') => failed "Synthesis error: " e w'
      | (Return (tts_model, wav), w') =>
          match ta_save E "wav" wav (sr tts_model) with
          | inl buffer =>
              (Return {| body := buffer; media_type := "audio/wav";
                         headers := [("Content-Disposition",
                                      "inline; filename=speech.wav")] |},
               records [EvEncode "wav"] w')
          | inr msg =>
              failed "Synthesis error: " (Exception msg)
                (records [EvEncode "wav"] w')
          end
      end
  end.

Definition format_of (request : gmap string json) : json :=
  dict_get_or request "response_format" (JStr "mp3").

Definition openai_run (E : Env) (request : gmap string json) (w : world)
    : outcome StreamingResponse * world :=
  let text := text_of OpenAI request in
  match rejects "No input text provided" text with
  | Some e => (Raise e, w)
  | None =>
      match synthesized E
              (openai_logline E (voice_of request) (format_of request))
              None text (voice_of request) w with
      | (Raise e, w') => failed "OpenAI-compatible synthesis error: " e w'
      | (Return (tts_model, wav), w') =>
          match encoded E (format_of request) tts_model wav w' with
          | (Return r, w'') =>
              (Return {| body := r.1; media_type := r.2; headers := [] |}, w'')
          | (Raise e, w'') =>
              failed "OpenAI-compatible synthesis error: " e w''
          end
      end
  end.

(** The answer of each handler for what synthesis gave. *)
Definition native_answer (E : Env) (o : outcome (handle * tensor))
    : outcome StreamingResponse :=
  match o with
  | Raise e => Raise (HTTPException 500 (str_exn e))
  | Return (tts_model, wav) =>
      match ta_save E "wav" wav (sr tts_model) with
      | inl buffer =>
          Return {| body := buffer; media_type := "audio/wav";
                    headers := [("Content-Disposition",
                                 "inline; filename=speech.wav")] |}
      | inr msg => Raise (HTTPException 500 msg)
      end
  end.

Definition openai_answer (E : Env) (response_format : json)
    (o : outcome (handle * tensor)) : outcome StreamingResponse :=
  match o with
  | Raise e => Raise (HTTPException 500 (str_exn e))
  | Return (tts_model, wav) =>
      match (encoding E response_format tts_model wav).1 with
      | Return r => Return {| body := r.1; media_type := r.2; headers := [] |}
      | Raise e => Raise (HTTPException 500 (str_exn e))
      end
  end.

(** What synthesis gives for a model and a reference. *)
Definition generated (E : Env) (tts_model : handle) (c : gen_call)
    : outcome (handle * tensor) :=
  match generate E tts_model c with
  | inl wav => Return (tts_model, wav)
  | inr msg => Raise (Exception msg)
  end.

(** Two worlds agree on the model, on the store, and on what was asked of
    the file system and of the engine; their logs and the encodes may
    differ. *)
Record agree (w1 w2 : world) : Prop := mkAgree {
  agree_model : model w1 = model w2;
  agree_fs : fs w1 = fs w2;
  agree_fs_ops : fs_ops (trace w1) = fs_ops (trace w2);
  agree_engine : engine_events (trace w1) = engine_events (trace w2) }.

(** An event that is neither a file-system call nor an engine call. *)
Definition quiet (e : event) : bool := negb (is_fs e) && negb (is_engine e).

Definition untuned_event (e : event) : event :=
  match e with
  | EvGenerate h c => EvGenerate h (untuned c)
  | _ => e
  end.

(** *** The voice store, as the upload leaves it *)

(** The suffix [upload_voice] reads off the file name, and the suffixes it
    takes. *)
Definition upload_suffix (audio : UploadFile) : string :=
  Str.lower (Pathlib.suffix (Path (default "" (filename audio)))).

Definition supported (suffix : string) : bool :=
  existsb (String.eqb suffix) [".wav"; ".mp3"; ".ogg"; ".flac"].

(** The waveform [upload_voice] stores for what the decoder gave: resampled
    when the rate is not 24000, mixed down when there is more than one
    channel. *)
Definition stored_wave (E : Env) (loaded : tensor * Z) : tensor :=
  let waveform :=
    if negb (loaded.2 =? 24000)%Z
    then List.map (resample E loaded.2 24000%Z) loaded.1
    else loaded.1 in
  if (1 <? length waveform)%nat then [mean_dim0 E waveform] else waveform.

(** Where [upload_voice] stores a name. *)
Definition upload_target (E : Env) (name : string) : loc :=
  locate (cwd E) (voices_dir E) ++ [safe_name name +:+ ".wav"].

(** What [upload_voice] returns on success. *)
Definition uploaded (E : Env) (name : string) : json :=
  JObj [("success", JBool true);
        ("voice_id", JStr (safe_name name));
        ("path", JStr (candidate_str E (safe_name name) ".wav"))].

(** How often an id is listed. *)
Definition count_id (s : string) (ids : list string) : nat :=
  length (List.filter (String.eqb s) ids).

(** *** The two surfaces, side by side *)

(** The detail of the 400 for a missing text, the tuning a surface passes to
    [generate], its log line, and its answer. *)
Definition no_text (sf : surface) : string :=
  match sf with
  | Native => "No text provided"
  | OpenAI => "No input text provided"
  end.

Definition tuning_of (sf : surface) (request : gmap string json)
    : option (json * json) :=
  match sf with
  | Native => Some (native_tuning request)
  | OpenAI => None
  end.

Definition logline_of (E : Env) (sf : surface) (request : gmap string json)
    : option string -> string :=
  match sf with
  | Native => native_logline E (voice_of request)
  | OpenAI => openai_logline E (voice_of request) (format_of request)
  end.

Definition answer (E : Env) (sf : surface) (request : gmap string json)
    (o : outcome (handle * tensor)) : outcome StreamingResponse :=
  match sf with
  | Native => native_answer E o
  | OpenAI => openai_answer E (format_of request) o
  end.

(** The [generate] call a request leads to on a surface, against the files
    [files]. *)
Definition call_of (E : Env) (sf : surface) (request : gmap string json)
    (files : filesystem) : gen_call :=
  gen_args (tuning_of sf request) (text_of sf request)
    (prompt_of E (voice_of request) files).

(** The common part of a handler on a surface. *)
Definition synthesis (E : Env) (sf : surface) (request : gmap string json)
    (w : world) : outcome (handle * tensor) * world :=
  synthesized E (logline_of E sf request) (tuning_of sf request)
    (text_of sf request) (voice_of request) w.

(** The encodes among some events. *)
Definition encodes (evs : list event) : list string :=
  omap (fun e => match e with EvEncode fmt => Some fmt | _ => None end) evs.

(** *** The Coqui handlers, phase by phase *)

(** The samples scaled down by their peak, as 16-bit integers; and the
    16-bit samples for what the engine gave. *)
Definition coqui_scaled (N : Coqui.Engine) (a : Coqui.array N)
    : result (Coqui.pcm N) :=
  match Coqui.np_max N a with
  | inr msg => inr msg
  | inl hi =>
      match Coqui.np_min N a with
      | inr msg => inr msg
      | inl lo =>
          inl (Coqui.to_int16 N (Coqui.np_div N a (Coqui.peak N hi lo)))
      end
  end.

Definition coqui_pcm (N : Coqui.Engine) (wav : Coqui.wave N)
    : result (Coqui.pcm N) :=
  match Coqui.np_array N wav with
  | inr msg => inr msg
  | inl a =>
      match Coqui.np_max N a with
      | inr msg => inr msg
      | inl hi =>
          if Coqui.gt_one N hi then coqui_scaled N a
          else
            match Coqui.np_min N a with
            | inr msg => inr msg
            | inl lo =>
                if Coqui.lt_minus_one N lo then coqui_scaled N a
                else inl (Coqui.to_int16 N a)
            end
      end
  end.

(** The bytes of an answer: the engine's samples for a text and a voice, in
    a WAV container at [rate]. *)
Definition coqui_rendered (N : Coqui.Engine) (h : handle) (text voice : json)
    (rate : Z) : result string :=
  match Coqui.tts N h text (Coqui.speaker_kw N h voice) (Coqui.language_kw N h)
  with
  | inr msg => inr msg
  | inl wav =>
      match coqui_pcm N wav with
      | inr msg => inr msg
      | inl samples => Coqui.wavfile_write N rate samples
      end
  end.

Definition coqui_note (lv : Coqui.level) (msg : string) (w : Coqui.world)
    : Coqui.world :=
  {| Coqui.model := Coqui.model w; Coqui.device := Coqui.device w;
     Coqui.sample_rate := Coqui.sample_rate w; Coqui.trace := Coqui.trace w;
     Coqui.logs := Coqui.logs w ++ [(lv, msg)] |}.

(** A Coqui synthesis handler: [nt] is the detail for a missing text,
    [logline] its log line, [what] the prefix of its error log, [hdrs] the
    headers of its answer. *)
Definition coqui_run (E : Coqui.Env) (N : Coqui.Engine) (nt logline what : string)
    (hdrs : list (string * string)) (text voice : json) (w : Coqui.world)
    : outcome StreamingResponse * Coqui.world :=
  match rejects nt text with
  | Some e => (Raise e, w)
  | None =>
      match Coqui.get_model E w with
      | (Raise e, w1) =>
          (Raise (HTTPException 500 (str_exn e)),
           coqui_note Coqui.ERROR (what +:+ str_exn e) w1)
      | (Return h, w1) =>
          let w2 := coqui_note Coqui.INFO logline w1 in
          match coqui_rendered N h text voice (Coqui.sample_rate w1) with
          | inl buffer =>
              (Return {| body := buffer; media_type := "audio/wav";
                         headers := hdrs |}, w2)
          | inr msg =>
              (Raise (HTTPException 500 msg),
               coqui_note Coqui.ERROR (what +:+ msg) w2)
          end
      end
  end.

Definition coqui_native_logline (N : Coqui.Engine) (request : gmap string json)
    : string :=
  "Synthesizing text with voice '" +:+ Coqui.py_format N (voice_of request)
  +:+ "', speed=" +:+ Coqui.py_format N (dict_get_or request "speed" (JNum 1)).

Definition coqui_openai_logline (N : Coqui.Engine) (request : gmap string json)
    : string :=
  "OpenAI-compatible synthesis: voice='"
  +:+ Coqui.py_format N (voice_of request) +:+ "', format='"
  +:+ Coqui.py_format N (dict_get_or request "response_format" (JStr "wav"))
  +:+ "'".

(** Two Coqui worlds that differ in their logs at most. *)
Definition coqui_same (w1 w2 : Coqui.world) : Prop :=
  Coqui.model w1 = Coqui.model w2 /\ Coqui.device w1 = Coqui.device w2
  /\ Coqui.sample_rate w1 = Coqui.sample_rate w2
  /\ Coqui.trace w1 = Coqui.trace w2.

(** The moves to a device among some events. *)
Definition coqui_moves (evs : list Coqui.event) : list Coqui.event :=
  List.filter (fun e => match e with Coqui.EvTo _ _ => true | _ => false end) evs.

(** *** When the kernel answers

    The limits of the kernel on names and paths are in bytes; a code point
    of the upper half takes two. *)
Fixpoint utf8_length (s : string) : nat :=
  match s with
  | EmptyString => 0
  | String c s' =>
      (if (N_of_ascii c <? 128)%N then 1 else 2) + utf8_length s'
  end.

(** A path the kernel takes: no component over 255 bytes, the whole under
    4096. *)
Definition path_fits (p : PurePath) : bool :=
  forallb (fun c => (utf8_length c <=? 255)%nat) (parts p)
  && (utf8_length (str p) <? 4096)%nat.

(** [l] is [dir] or a directory on the way to it. *)
Fixpoint leads_to (l dir : loc) : bool :=
  match l, dir with
  | [], _ => true
  | x :: l', y :: dir' => String.eqb x y && leads_to l' dir'
  | _ :: _, [] => false
  end.

(** The voice directory is there or can be made: its path fits, and no
    regular file is where it is or on the way to it. *)
Definition can_make (E : Env) (files : filesystem) : bool :=
  path_fits (voices_dir E)
  && forallb (fun entry => negb (leads_to entry.1
                                   (locate (cwd E) (voices_dir E)))) files.

(** The file an id names under an extension can be probed. *)
Definition can_probe (E : Env) (voice_id ext : string) : bool :=
  path_fits (joinpath (voices_dir E) (voice_id ++ ext)).

(** The voice of a request can be looked up: it is ["default"], or the
    voice directory can be made and both candidates probed. *)
Definition can_resolve (E : Env) (voice_id : json) (files : filesystem) : bool :=
  eq_str voice_id "default"
  || (can_make E files
      && can_probe E (py_format E voice_id) ".wav"
      && can_probe E (py_format E voice_id) ".mp3").

(** *** Concrete environments *)

(** A host with no accelerator, a voice directory [/srv/voices], an engine
    whose one-sample output is the exaggeration it ran with (0.5 when the
    call passes none), and codecs that write the format name. *)
Definition host : Env :=
  {| CHATTERBOX_DEVICE := "auto";
     VOICE_SAMPLES_DIR := "/srv/voices";
     cwd := ["srv"];
     cuda_is_available := false;
     mps_is_available := false;
     from_pretrained := fun n _ => inl (mkHandle n 24000);
     generate := fun _ c =>
       inl [[match g_exaggeration c with Some (JNum q) => q | _ => 1 # 2 end]];
     ta_save := fun fmt _ _ => inl fmt;
     ta_load := fun _ bytes =>
       if String.eqb bytes "stereo-44100"
       then inl ([[1 # 1; 0 # 1]; [0 # 1; 1 # 1]], 44100%Z)
       else inl ([[1 # 1]], 24000%Z);
     resample := fun _ _ ch => ch;
     mean_dim0 := fun w => List.hd [] w;
     py_repr := fun _ => "?";
     py_title := Str.title |}.

(** The same host when the first model load runs out of memory. *)
Definition flaky_host : Env :=
  {| CHATTERBOX_DEVICE := CHATTERBOX_DEVICE host;
     VOICE_SAMPLES_DIR := VOICE_SAMPLES_DIR host;
     cwd := cwd host;
     cuda_is_available := false;
     mps_is_available := false;
     from_pretrained := fun n _ =>
       match n with
       | O => inr "out of memory"
       | S _ => inl (mkHandle n 24000)
       end;
     generate := generate host;
     ta_save := ta_save host;
     ta_load := ta_load host;
     resample := resample host;
     mean_dim0 := mean_dim0 host;
     py_repr := py_repr host;
     py_title := py_title host |}.

(** The same host when no model load ever succeeds. *)
Definition dead_host : Env :=
  {| CHATTERBOX_DEVICE := CHATTERBOX_DEVICE host;
     VOICE_SAMPLES_DIR := VOICE_SAMPLES_DIR host;
     cwd := cwd host;
     cuda_is_available := false;
     mps_is_available := false;
     from_pretrained := fun _ _ => inr "no weights";
     generate := generate host;
     ta_save := ta_save host;
     ta_load := ta_load host;
     resample := resample host;
     mean_dim0 := mean_dim0 host;
     py_repr := py_repr host;
     py_title := py_title host |}.

(** The same host with a torchaudio backend that cannot write FLAC or MP3. *)
Definition wav_only_host : Env :=
  {| CHATTERBOX_DEVICE := CHATTERBOX_DEVICE host;
     VOICE_SAMPLES_DIR := VOICE_SAMPLES_DIR host;
     cwd := cwd host;
     cuda_is_available := false;
     mps_is_available := false;
     from_pretrained := from_pretrained host;
     generate := generate host;
     ta_save := fun fmt _ _ =>
       if String.eqb fmt "wav" then inl "RIFF"
       else inr ("Unsupported format: " +:+ fmt);
     ta_load := ta_load host;
     resample := resample host;
     mean_dim0 := mean_dim0 host;
     py_repr := py_repr host;
     py_title := py_title host |}.

Definition silence : file := Encoded "wav" 24000 [[0 # 1]].

(** A Coqui host with a CUDA device. *)
Definition coqui_host : Coqui.Env :=
  {| Coqui.COQUI_DEVICE := "auto";
     Coqui.COQUI_MODEL := "tts_models/en/jenny/jenny";
     Coqui.cuda_is_available := true;
     Coqui.mps_is_available := false;
     Coqui.TTS := fun n _ => inl (mkHandle n 22050);
     Coqui.to := fun h _ => inl (mkHandle (obj_id h) 48000);
     Coqui.output_sample_rate := fun h => Some (sr h) |}.

(** The handle a successful Coqui load leaves in [model]: the one [to]
    returns on CUDA, the constructed one elsewhere. *)
Definition coqui_loaded (E : Coqui.Env) (h h' : handle) : Prop :=
  if String.eqb (Coqui.chosen_device E) "cuda"
  then Coqui.to E h "cuda" = inl h'
  else h' = h.

(** A numpy over the rationals, a single-speaker engine whose one sample is
    a half for a text of one character and two for a longer one, and a WAV
    writer that writes the rate. *)
Definition q_max (a b : Q) : Q := if Qle_bool a b then b else a.
Definition q_min (a b : Q) : Q := if Qle_bool a b then a else b.
Definition q_abs (a : Q) : Q := if Qle_bool 0 a then a else Qopp a.

Definition coqui_engine : Coqui.Engine :=
  {| Coqui.wave := list Q;
     Coqui.array := list Q;
     Coqui.scalar := Q;
     Coqui.pcm := list Z;
     Coqui.is_multi_speaker := fun _ => false;
     Coqui.speakers := fun _ => None;
     Coqui.is_multi_lingual := fun _ => None;
     Coqui.tts := fun _ text _ _ =>
       match text with
       | JStr (String _ EmptyString) => inl [1 # 2]
       | JStr _ => inl [2 # 1; -1 # 1]
       | _ => inr "text must be a string"
       end;
     Coqui.np_array := fun samples => inl samples;
     Coqui.np_max := fun a =>
       match a with
       | [] => inr "zero-size array to reduction operation maximum"
       | x :: l => inl (fold_right q_max x l)
       end;
     Coqui.np_min := fun a =>
       match a with
       | [] => inr "zero-size array to reduction operation minimum"
       | x :: l => inl (fold_right q_min x l)
       end;
     Coqui.gt_one := fun x => negb (Qle_bool x 1);
     Coqui.lt_minus_one := fun x => negb (Qle_bool (-1 # 1) x);
     Coqui.peak := fun a b => q_max (q_abs a) (q_abs b);
     Coqui.np_div := fun a x => List.map (fun y => Qred (y / x)) a;
     Coqui.to_int16 := fun a =>
       List.map (fun y => let z := Qred (y * (32767 # 1)) in
                          Z.quot (Qnum z) (Zpos (Qden z))) a;
     Coqui.wavfile_write := fun rate _ => inl ("RIFF " +:+ pretty rate);
     Coqui.py_repr := fun _ => "?";
     Coqui.py_title := Str.title |}.

(** The same with a model of two speakers. *)
Definition coqui_vctk : Coqui.Engine :=
  {| Coqui.wave := Coqui.wave coqui_engine;
     Coqui.array := Coqui.array coqui_engine;
     Coqui.scalar := Coqui.scalar coqui_engine;
     Coqui.pcm := Coqui.pcm coqui_engine;
     Coqui.is_multi_speaker := fun _ => true;
     Coqui.speakers := fun _ => Some ["p225"; "p226"];
     Coqui.is_multi_lingual := fun _ => Some false;
     Coqui.tts := Coqui.tts coqui_engine;
     Coqui.np_array := Coqui.np_array coqui_engine;
     Coqui.np_max := Coqui.np_max coqui_engine;
     Coqui.np_min := Coqui.np_min coqui_engine;
     Coqui.gt_one := Coqui.gt_one coqui_engine;
     Coqui.lt_minus_one := Coqui.lt_minus_one coqui_engine;
     Coqui.peak := Coqui.peak coqui_engine;
     Coqui.np_div := Coqui.np_div coqui_engine;
     Coqui.to_int16 := Coqui.to_int16 coqui_engine;
     Coqui.wavfile_write := Coqui.wavfile_write coqui_engine;
     Coqui.py_repr := Coqui.py_repr coqui_engine;
     Coqui.py_title := Coqui.py_title coqui_engine |}.

(** A CUDA host whose device has no memory left for the model, and a host
    configured with the device [cuda:0]. *)
Definition coqui_full_gpu : Coqui.Env :=
  {| Coqui.COQUI_DEVICE := "auto";
     Coqui.COQUI_MODEL := "tts_models/en/jenny/jenny";
     Coqui.cuda_is_available := true;
     Coqui.mps_is_available := false;
     Coqui.TTS := fun n _ => inl (mkHandle n 48000);
     Coqui.to := fun _ _ => inr "CUDA out of memory";
     Coqui.output_sample_rate := fun h => Some (sr h) |}.

Definition coqui_cuda0 : Coqui.Env :=
  {| Coqui.COQUI_DEVICE := "cuda:0";
     Coqui.COQUI_MODEL := "tts_models/en/jenny/jenny";
     Coqui.cuda_is_available := true;
     Coqui.mps_is_available := false;
     Coqui.TTS := fun n _ => inl (mkHandle n 48000);
     Coqui.to := fun h _ => inl h;
     Coqui.output_sample_rate := fun h => Some (sr h) |}.

End Props.

(** * Properties *)

Import Chatterbox Props.

(** ** Running the monad *)

Ltac mrun :=
  unfold mbind, M_bind, gets, modify, mret, M_ret, raise, lift_result,
    try_except in *; cbn in *.

Lemma loads_snoc_load (tr : list event) (dev : string) :
  length (List.filter is_load (tr ++ [EvFromPretrained dev]))
  = S (length (List.filter is_load tr)).
Proof. rewrite List.filter_app, length_app. cbn. lia. Qed.

(** ** Model lifecycle *)

Section Lifecycle.

Variable E : Env.

Lemma get_model_loaded (w : world) (h : handle) :
  model w = Some h -> get_model E w = (Return h, w).
Proof. intros H. unfold get_model. mrun. rewrite H. reflexivity. Qed.

Lemma get_model_loads (w : world) (h : handle) :
  model w = None ->
  from_pretrained E (loads w) (chosen_device E) = inl h ->
  get_model E w = (Return h, after_load E h w).
Proof.
  intros H L. unfold get_model, get_device, emit, log. mrun. rewrite H. cbn.
  change (length (List.filter is_load (trace w))) with (loads w).
  rewrite L. cbn. unfold after_load. rewrite <- app_assoc. reflexivity.
Qed.

Lemma get_model_raises (w : world) (msg : string) :
  model w = None ->
  from_pretrained E (loads w) (chosen_device E) = inr msg ->
  get_model E w = (Raise (Exception msg), after_failed_load E w).
Proof.
  intros H L. unfold get_model, get_device, emit, log. mrun. rewrite H. cbn.
  change (length (List.filter is_load (trace w))) with (loads w).
  rewrite L. reflexivity.
Qed.

Lemma loads_after_failed_load (w : world) :
  loads (after_failed_load E w) = S (loads w).
Proof. apply loads_snoc_load. Qed.

Lemma loads_after_load (w : world) (h : handle) :
  loads (after_load E h w) = S (loads w).
Proof. apply loads_snoc_load. Qed.

(** Once the model is loaded, any number of calls returns it and loads
    nothing. *)
Lemma run_loop_loaded (n : nat) (w : world) (h : handle) :
  model w = Some h ->
  run_loop (replicate n (get_model E)) w = (replicate n (Return h), w).
Proof.
  intros H. induction n as [|n IH]; [reflexivity|].
  cbn [replicate run_loop]. rewrite (get_model_loaded w h H). cbn.
  rewrite IH. reflexivity.
Qed.

(** Whatever the outcome of a load, the call after a failed one invokes
    [from_pretrained] again. *)
Lemma get_model_retries (w : world) :
  model w = None -> loads (get_model E w).2 = S (loads w).
Proof.
  intros H. destruct (from_pretrained E (loads w) (chosen_device E)) as [h|msg] eqn:L.
  - rewrite (get_model_loads w h H L). apply loads_after_load.
  - rewrite (get_model_raises w msg H L). apply loads_after_failed_load.
Qed.

End Lifecycle.

Section CoquiLifecycle.

Variable E : Coqui.Env.

Ltac crun :=
  unfold Coqui.get_model, Coqui.get_device, Coqui.emit, Coqui.log; mrun.

Lemma coqui_get_model_loaded (w : Coqui.world) (h : handle) :
  Coqui.model w = Some h -> Coqui.get_model E w = (Return h, w).
Proof. intros H. crun. rewrite H. reflexivity. Qed.

Lemma coqui_get_model_loads (w : Coqui.world) (h h' : handle) :
  Coqui.model w = None ->
  Coqui.TTS E (Coqui.loads w) (Coqui.COQUI_MODEL E) = inl h ->
  coqui_loaded E h h' ->
  exists w', Coqui.get_model E w = (Return h', w')
    /\ Coqui.model w' = Some h'
    /\ Coqui.loads w' = S (Coqui.loads w)
    /\ Coqui.sample_rate w' = default 22050%Z (Coqui.output_sample_rate E h').
Proof.
  intros H L T. unfold coqui_loaded in T. crun. rewrite H. cbn.
  change (length (List.filter Coqui.is_load (Coqui.trace w))) with (Coqui.loads w).
  rewrite L. cbn.
  destruct (String.eqb (Coqui.chosen_device E) "cuda") eqn:D; cbn.
  - apply String.eqb_eq in D. rewrite D in *. rewrite T. cbn.
    eexists; split; [reflexivity|]. cbn. repeat split.
    unfold Coqui.loads. rewrite !List.filter_app, !length_app. cbn. lia.
  - subst h'. eexists; split; [reflexivity|]. cbn. repeat split.
    unfold Coqui.loads. rewrite !List.filter_app, !length_app. cbn. lia.
Qed.

Lemma coqui_run_loop_loaded (n : nat) (w : Coqui.world) (h : handle) :
  Coqui.model w = Some h ->
  run_loop (replicate n (Coqui.get_model E)) w = (replicate n (Return h), w).
Proof.
  intros H. induction n as [|n IH]; [reflexivity|].
  cbn [replicate run_loop]. rewrite (coqui_get_model_loaded w h H). cbn.
  rewrite IH. reflexivity.
Qed.

End CoquiLifecycle.

(** C1, as the code has it.  Calls to [get_model] made while the model is
    not loaded, by any number of requests in flight together, run one after
    another.  When the load succeeds it is invoked exactly once, by the
    first call the loop runs; every later call finds the model loaded and
    starts no load; all calls return the same handle.  This holds for the
    Chatterbox server and for the Coqui server.  Nothing of it holds for a
    load that raises: see [C1_failed_load_is_repeated]. *)
Theorem C1_single_load :
  (forall (E : Env) (n : nat) (w : world) (h : handle),
     model w = None ->
     from_pretrained E (loads w) (chosen_device E) = inl h ->
     let r := run_loop (replicate (S n) (get_model E)) w in
     r.1 = replicate (S n) (Return h)
     /\ model r.2 = Some h
     /\ loads r.2 = S (loads w))
  /\
  (forall (E : Coqui.Env) (n : nat) (w : Coqui.world) (h h' : handle),
     Coqui.model w = None ->
     Coqui.TTS E (Coqui.loads w) (Coqui.COQUI_MODEL E) = inl h ->
     coqui_loaded E h h' ->
     let r := run_loop (replicate (S n) (Coqui.get_model E)) w in
     r.1 = replicate (S n) (Return h')
     /\ Coqui.model r.2 = Some h'
     /\ Coqui.loads r.2 = S (Coqui.loads w)).
Proof.
  split.
  - intros E n w h H L. cbn [replicate run_loop].
    rewrite (get_model_loads E w h H L). cbn [fst snd].
    rewrite (run_loop_loaded E n (after_load E h w) h eq_refl). cbn [fst snd].
    repeat split. apply loads_after_load.
  - intros E n w h h' H L T. cbn [replicate run_loop].
    destruct (coqui_get_model_loads E w h h' H L T) as (w' & R & Hm & Hl & _).
    rewrite R. cbn [fst snd].
    rewrite (coqui_run_loop_loaded E n w' h' Hm). cbn [fst snd].
    repeat split; assumption.
Qed.

Lemma C1_single_load_witness :
  (let r := run_loop (replicate 3 (get_model host)) (boot []) in
   r.1 = replicate 3 (Return (mkHandle 0 24000))
   /\ model r.2 = Some (mkHandle 0 24000)
   /\ loads r.2 = 1)
  /\
  (let r := run_loop (replicate 3 (Coqui.get_model coqui_host)) Coqui.boot in
   r.1 = replicate 3 (Return (mkHandle 0 48000))
   /\ Coqui.model r.2 = Some (mkHandle 0 48000)
   /\ Coqui.loads r.2 = 1).
Proof.
  split.
  - apply (proj1 C1_single_load host 2 (boot []) (mkHandle 0 24000));
      reflexivity.
  - apply (proj2 C1_single_load coqui_host 2 Coqui.boot
             (mkHandle 0 22050) (mkHandle 0 48000)); reflexivity.
Defined.

(** C1, as stated, fails when the load raises: there is no lock and no
    state for a load that failed, so every call starts the load again.
    Three calls on a host whose first load fails make two loads, and the
    first caller gets the exception while the others get a handle; on a
    host whose loads all fail they make three loads.  On a Coqui host whose
    move to CUDA fails the first caller gets the exception and the others
    the model that was not moved. *)
Lemma C1_failed_load_is_repeated :
  (let r := run_loop (replicate 3 (get_model flaky_host)) (boot []) in
   r.1 = [Raise (Exception "out of memory");
          Return (mkHandle 1 24000); Return (mkHandle 1 24000)]
   /\ loads r.2 = 2)
  /\ (let r := run_loop (replicate 3 (get_model dead_host)) (boot []) in
      r.1 = replicate 3 (Raise (Exception "no weights"))
      /\ loads r.2 = 3 /\ model r.2 = None)
  /\ (let r := run_loop (replicate 3 (Coqui.get_model coqui_full_gpu))
                 Coqui.boot in
      r.1 = [Raise (Exception "CUDA out of memory");
             Return (mkHandle 0 48000); Return (mkHandle 0 48000)]).
Proof. repeat split. Qed.

(** C8. A load that raises leaves the handle unloaded and the store as it
    was, and the caller gets the exception; the next call invokes the load
    again, and returns the model if that load succeeds.  The startup hook
    catches the failure, logs a warning and returns normally with the model
    still unloaded. *)
Theorem C8_failed_load_leaves_unloaded
    (E : Env) (w : world) (msg : string) :
  model w = None ->
  from_pretrained E (loads w) (chosen_device E) = inr msg ->
  get_model E w = (Raise (Exception msg), after_failed_load E w)
  /\ model (after_failed_load E w) = None
  /\ fs (after_failed_load E w) = fs w
  /\ loads (get_model E (after_failed_load E w)).2
     = S (loads (after_failed_load E w))
  /\ (forall h, from_pretrained E (S (loads w)) (chosen_device E) = inl h ->
        (get_model E (after_failed_load E w)).1 = Return h)
  /\ exists w',
       startup_event E w = (Return tt, w')
       /\ model w' = None
       /\ fs w' = fs w
       /\ last (logs w')
          = Some (WARNING, "Could not pre-load model: " +:+ msg
                           +:+ ". Will load on first request.").
Proof.
  intros H L. split; [apply get_model_raises; assumption|].
  split; [exact H|]. split; [reflexivity|].
  split; [apply get_model_retries; exact H|].
  split.
  - intros h L'. rewrite (get_model_loads E (after_failed_load E w) h H); [reflexivity|].
    rewrite loads_after_failed_load. exact L'.
  - unfold startup_event, log. mrun.
    pose proof (get_model_raises E
      {| fs := fs w; model := model w; device := device w; trace := trace w;
         logs := ((logs w ++ [(INFO, "Starting Chatterbox TTS Server...")])
                  ++ [(INFO, "Voice samples directory: " +:+ VOICE_SAMPLES_DIR E)])
                  ++ [(INFO, "Device preference: " +:+ CHATTERBOX_DEVICE E)] |}
      msg H L) as R.
    rewrite R. cbn.
    eexists; split; [reflexivity|]. cbn. repeat split; [exact H|].
    apply last_snoc.
Qed.

Lemma C8_failed_load_leaves_unloaded_witness :
  get_model flaky_host (boot [])
  = (Raise (Exception "out of memory"), after_failed_load flaky_host (boot []))
  /\ (get_model flaky_host (after_failed_load flaky_host (boot []))).1
     = Return (mkHandle 1 24000).
Proof.
  destruct (C8_failed_load_leaves_unloaded flaky_host (boot []) "out of memory"
              eq_refl eq_refl) as (R & _ & _ & _ & Again & _).
  split; [exact R|]. apply Again. reflexivity.
Defined.

(** ** Voice store: listing and deletion *)

Ltac fsrun :=
  unfold get_voice_samples_path, mkdir, exists_, unlink, glob, save_file,
    save_buffer, call_generate, emit, log, where_is in *; mrun.

Lemma name_snoc (a : bool) (ps : list string) (n : string) :
  Pathlib.name (mkPath a (ps ++ [n])) = n.
Proof. unfold Pathlib.name. cbn. apply List.last_last. Qed.

Lemma stem_snoc (a : bool) (ps : list string) (n : string) :
  stem (mkPath a (ps ++ [n])) = name_stem n.
Proof. unfold name_stem, stem. rewrite name_snoc. reflexivity. Qed.

Lemma id_custom_voice (E : Env) (a : bool) (ps : list string) (names : list string) :
  List.map Chatterbox.id (List.map (custom_voice E)
                        (List.map (fun n => mkPath a (ps ++ [n])) names))
  = List.map name_stem names.
Proof.
  induction names as [|n names IH]; [reflexivity|].
  cbn [List.map]. rewrite IH. f_equal. cbn. apply stem_snoc.
Qed.

Lemma loc_eqb_spec (a b : loc) : reflect (a = b) (loc_eqb a b).
Proof. unfold loc_eqb. apply bool_decide_reflect. Qed.

Lemma fs_lookup_remove (fs : filesystem) (l : loc) : removed fs l (fs_remove fs l).
Proof.
  intros l'. induction fs as [|[k f] fs IH]; cbn.
  - destruct (loc_eqb l l'); reflexivity.
  - destruct (loc_eqb_spec k l) as [->|Hk].
    + rewrite IH. destruct (loc_eqb_spec l l'); reflexivity.
    + cbn. rewrite IH.
      destruct (loc_eqb_spec k l') as [->|Hk'], (loc_eqb_spec l l') as [->|Hl];
        congruence.
Qed.




Section Delete.

Variable E : Env.

Lemma delete_voice_default (w : world) :
  delete_voice E "default" w
  = (Raise (HTTPException 400 "Cannot delete default voice"), w).
Proof. reflexivity. Qed.

End Delete.



Example delete_wav_first :
  let w := boot [(["srv"; "voices"; "amy.mp3"], silence);
                 (["srv"; "voices"; "amy.wav"], silence)] in
  (delete_voice host "amy" w).1 = Return (deleted "amy")
  /\ fs (delete_voice host "amy" w).2 = [(["srv"; "voices"; "amy.mp3"], silence)]
  /\ (delete_voice host "bob" w).1 = Raise (HTTPException 404 "Voice not found").
Proof. repeat split. Qed.

(** ** The synthesis handlers, phase by phase *)

Ltac munfold :=
  unfold call_generate, save_buffer, get_voice_samples_path, mkdir, exists_,
    emit, log, where_is, lift_result, try_except, mbind, M_bind, gets, modify,
    mret, M_ret, raise.

Ltac wsimpl :=
  cbn [fst snd fs model device trace logs records note set_model set_device
       set_fs negb].

Lemma records_records (a b : list event) (w : world) :
  records b (records a w) = records (a ++ b) w.
Proof. unfold records. cbn. rewrite app_assoc. reflexivity. Qed.

Section Phases.

Variable E : Env.

(** The voice-resolution block of the two handlers. *)
Lemma resolve_run (voice_id : json) (w : world) :
  (if negb (eq_str voice_id "default") then
     voices_path ← get_voice_samples_path E;
     find_prompt E voices_path voice_id [".wav"; ".mp3"]
   else mret None) w
  = (Return (prompt_of E voice_id (fs w)),
     records (resolve_events E voice_id (fs w)) w).
Proof.
  unfold prompt_of, resolve_events, candidate, candidate_str, voices_dir.
  destruct (eq_str voice_id "default"); cbn [negb].
  - unfold records. rewrite app_nil_r. destruct w; reflexivity.
  - cbn [find_prompt]. munfold. wsimpl.
    destruct (fs_exists (fs w)
                (locate (cwd E)
                   (joinpath (Path (VOICE_SAMPLES_DIR E))
                      (py_format E voice_id +:+ ".wav")))); wsimpl.
    + unfold records. cbn. rewrite <- app_assoc. reflexivity.
    + destruct (fs_exists (fs w) _); unfold records; cbn;
        rewrite <- !app_assoc; reflexivity.
Qed.

Lemma emit_run (e : event) (w : world) : emit e w = (Return tt, records [e] w).
Proof. reflexivity. Qed.

Lemma log_run (lv : level) (msg : string) (w : world) :
  log lv msg w = (Return tt, note lv msg w).
Proof. reflexivity. Qed.

Lemma call_generate_run (h : handle) (c : gen_call) (w : world) :
  call_generate E h c w
  = (match generate E h c with
     | inl wav => Return wav
     | inr msg => Raise (Exception msg)
     end, records [EvGenerate h c] w).
Proof. unfold call_generate. munfold. destruct (generate E h c); reflexivity. Qed.

Lemma save_buffer_run (fmt : string) (wav : tensor) (rate : Z) (w : world) :
  save_buffer E fmt wav rate w
  = (match ta_save E fmt wav rate with
     | inl buffer => Return buffer
     | inr msg => Raise (Exception msg)
     end, records [EvEncode fmt] w).
Proof. unfold save_buffer. munfold. destruct (ta_save E fmt wav rate); reflexivity. Qed.

Lemma bind_run {S A B} (m : M S A) (f : A -> M S B) (s : S) :
  (m ≫= f) s
  = match m s with
    | (Return a, s') => f a s'
    | (Raise e, s') => (Raise e, s')
    end.
Proof. reflexivity. Qed.

Lemma try_run {S A} (body : M S A) (handler : exn -> M S A) (s : S) :
  try_except body handler s
  = match body s with
    | (Return a, s') => (Return a, s')
    | (Raise e, s') => handler e s'
    end.
Proof. reflexivity. Qed.

Lemma ret_run {S A} (a : A) (s : S) : @mret (M S) M_ret A a s = (Return a, s).
Proof. reflexivity. Qed.

Lemma raise_run {S A} (e : exn) (s : S) : @raise S A e s = (Raise e, s).
Proof. reflexivity. Qed.

(** The steps of the [try] body up to the waveform. *)
Ltac run_synthesized h w1 :=
  rewrite try_run, bind_run; unfold synthesized;
  match goal with
  | |- context [get_model ?E ?w] => destruct (get_model E w) as [[h|?e] w1]
  end;
  cbv beta iota zeta;
  [ rewrite bind_run, resolve_run; cbv beta iota;
    rewrite bind_run, log_run; cbv beta iota;
    rewrite bind_run; unfold gen_args;
    cbn [fmap option_fmap option_map fst snd];
    match goal with
    | |- context [truthy_opt ?p] => destruct (truthy_opt p)
    end;
    rewrite call_generate_run;
    match goal with
    | |- context [generate ?E ?h ?c] => destruct (generate E h c)
    end;
    cbv beta iota
  | ].

(** The native handler is its phases. *)
Lemma synthesize_run (request : gmap string json) (w : world) :
  synthesize E request w = native_run E request w.
Proof.
  unfold synthesize, native_run, rejects, text_of, voice_of, native_tuning.
  destruct (truthy (py_or (dict_get request "input") (dict_get request "text")));
    cbn [negb]; [|reflexivity].
  rewrite bind_run.
  destruct (py_or (dict_get request "input") (dict_get request "text")) eqn:T;
    try reflexivity.
  all: cbn [py_len]; rewrite ret_run; cbv beta iota.
  all: match goal with
       | |- context [(4096 <? ?n)%Z] => destruct (4096 <? n)%Z
       end; [reflexivity|].
  all: run_synthesized h w1; try reflexivity.
  all: rewrite bind_run, save_buffer_run;
    destruct (ta_save E "wav" _ (sr h)); reflexivity.
Qed.

(** The encoding block of the OpenAI-compatible handler. *)
Lemma encode_run (response_format : json) (tts_model : handle) (wav : tensor)
    (w : world) :
  (if eq_str response_format "mp3" then
     try_except
       (buffer ← save_buffer E "mp3" wav (sr tts_model);
        mret (buffer, "audio/mpeg"))
       (fun _ =>
          buffer ← save_buffer E "wav" wav (sr tts_model);
          mret (buffer, "audio/wav"))
   else if eq_str response_format "opus" then
     buffer ← save_buffer E "ogg" wav (sr tts_model);
     mret (buffer, "audio/ogg")
   else if eq_str response_format "aac" then
     buffer ← save_buffer E "wav" wav (sr tts_model);
     mret (buffer, "audio/wav")
   else if eq_str response_format "flac" then
     buffer ← save_buffer E "flac" wav (sr tts_model);
     mret (buffer, "audio/flac")
   else
     buffer ← save_buffer E "wav" wav (sr tts_model);
     mret (buffer, "audio/wav")) w
  = encoded E response_format tts_model wav w.
Proof.
  unfold encoded, encoding, encode_plan.
  destruct (eq_str response_format "mp3").
  - rewrite try_run, bind_run, save_buffer_run. cbn [fst snd].
    destruct (ta_save E "mp3" wav (sr tts_model)); [reflexivity|].
    cbv beta iota. rewrite bind_run, save_buffer_run.
    destruct (ta_save E "wav" wav (sr tts_model)); rewrite records_records;
      reflexivity.
  - destruct (eq_str response_format "opus");
      [|destruct (eq_str response_format "aac");
        [|destruct (eq_str response_format "flac")]].
    all: rewrite bind_run, save_buffer_run; cbn [fst snd].
    all: match goal with
         | |- context [ta_save ?E ?c ?x ?r] => destruct (ta_save E c x r)
         end; reflexivity.
Qed.

(** The OpenAI-compatible handler is its phases. *)
Lemma openai_compatible_synthesize_run (request : gmap string json) (w : world) :
  openai_compatible_synthesize E request w = openai_run E request w.
Proof.
  unfold openai_compatible_synthesize, openai_run, rejects, text_of, voice_of,
    format_of, openai_logline.
  destruct (truthy (dict_get request "input")); cbn [negb]; [|reflexivity].
  rewrite bind_run.
  destruct (dict_get request "input") eqn:T; try reflexivity.
  all: cbn [py_len]; rewrite ret_run; cbv beta iota.
  all: match goal with
       | |- context [(4096 <? ?n)%Z] => destruct (4096 <? n)%Z
       end; [reflexivity|].
  all: run_synthesized h w1; try reflexivity.
  all: rewrite bind_run, encode_run.
  all: match goal with
       | |- context [encoded ?E ?f ?h ?x ?w] =>
           destruct (encoded E f h x w) as [[[? ?]|?] ?]
       end; reflexivity.
Qed.

End Phases.

(** ** What the phases leave behind *)

Lemma fs_ops_app (a b : list event) : fs_ops (a ++ b) = fs_ops a ++ fs_ops b.
Proof. apply omap_app. Qed.

Lemma gen_calls_app (a b : list event) :
  gen_calls (a ++ b) = gen_calls a ++ gen_calls b.
Proof. apply omap_app. Qed.

Lemma engine_events_app (a b : list event) :
  engine_events (a ++ b) = engine_events a ++ engine_events b.
Proof. apply List.filter_app. Qed.

Lemma gen_calls_engine (evs : list event) :
  gen_calls (engine_events evs) = gen_calls evs.
Proof.
  induction evs as [|e evs IH]; [reflexivity|].
  destruct e; cbn; try exact IH. f_equal. exact IH.
Qed.

Lemma fs_ops_quiet (evs : list event) :
  forallb quiet evs = true -> fs_ops evs = [].
Proof.
  induction evs as [|e evs IH]; [reflexivity|]. cbn [forallb].
  intros H. apply andb_true_iff in H as [He H].
  destruct e; cbn in *; try discriminate; auto.
Qed.

Lemma engine_events_quiet (evs : list event) :
  forallb quiet evs = true -> engine_events evs = [].
Proof.
  induction evs as [|e evs IH]; [reflexivity|]. cbn [forallb].
  intros H. apply andb_true_iff in H as [He H].
  destruct e; cbn in *; try discriminate; auto.
Qed.

Section Agree.

Lemma agree_refl (w : world) : agree w w.
Proof. split; reflexivity. Qed.

Lemma agree_sym (w1 w2 : world) : agree w1 w2 -> agree w2 w1.
Proof. intros []; split; symmetry; assumption. Qed.

Lemma agree_trans (w1 w2 w3 : world) : agree w1 w2 -> agree w2 w3 -> agree w1 w3.
Proof. intros [] []; split; etransitivity; eassumption. Qed.

Lemma agree_note (lv : level) (msg : string) (w : world) : agree w (note lv msg w).
Proof. split; reflexivity. Qed.

Lemma agree_quiet (evs : list event) (w : world) :
  forallb quiet evs = true -> agree w (records evs w).
Proof.
  intros Q. split; cbn; try reflexivity.
  - rewrite fs_ops_app, (fs_ops_quiet evs Q), app_nil_r. reflexivity.
  - rewrite engine_events_app, (engine_events_quiet evs Q), app_nil_r.
    reflexivity.
Qed.

(** The same events on both sides keep two worlds in agreement. *)
Lemma agree_records (evs : list event) (w1 w2 : world) :
  agree w1 w2 -> agree (records evs w1) (records evs w2).
Proof.
  intros []. split; cbn; try assumption.
  - rewrite !fs_ops_app. congruence.
  - rewrite !engine_events_app. congruence.
Qed.

End Agree.

Section Leftovers.

Variable E : Env.

Lemma failed_agree {A} (what : string) (e : exn) (w : world) :
  agree w (@failed A what e w).2.
Proof. apply agree_note. Qed.

Lemma encoded_agree (response_format : json) (h : handle) (wav : tensor)
    (w : world) :
  agree w (encoded E response_format h wav w).2.
Proof.
  unfold encoded. cbv zeta. cbn [snd]. apply agree_quiet. unfold encoding.
  destruct (ta_save E _ wav (sr h)); [reflexivity|].
  destruct (encode_plan response_format).2; [|reflexivity].
  destruct (ta_save E "wav" wav (sr h)); reflexivity.
Qed.

(** What [get_model] leaves: the store and the file-system and [generate]
    history as they were. *)
Lemma get_model_leaves (w : world) :
  fs (get_model E w).2 = fs w
  /\ fs_ops (trace (get_model E w).2) = fs_ops (trace w)
  /\ gen_calls (trace (get_model E w).2) = gen_calls (trace w).
Proof.
  destruct (model w) as [h|] eqn:M.
  - rewrite (get_model_loaded E w h M). repeat split.
  - destruct (from_pretrained E (loads w) (chosen_device E)) as [h|msg] eqn:L.
    + rewrite (get_model_loads E w h M L). cbn.
      rewrite fs_ops_app, gen_calls_app, !app_nil_r. repeat split.
    + rewrite (get_model_raises E w msg M L). cbn.
      rewrite fs_ops_app, gen_calls_app, !app_nil_r. repeat split.
Qed.

(** The world [synthesized] leaves does not depend on what [generate]
    answers. *)
Lemma synthesized_world (logline : option string -> string)
    (tuning : option (json * json)) (text voice_id : json) (w : world) :
  (synthesized E logline tuning text voice_id w).2
  = match get_model E w with
    | (Return h, w1) =>
        let p := prompt_of E voice_id (fs w1) in
        records [EvGenerate h (gen_args tuning text p)]
          (note INFO (logline p)
             (records (resolve_events E voice_id (fs w1)) w1))
    | (Raise _, w1) => w1
    end.
Proof.
  unfold synthesized. destruct (get_model E w) as [[h|e] w1]; [|reflexivity].
  cbv zeta. destruct (generate E h _); reflexivity.
Qed.

(** The native handler leaves the world [synthesized] left, up to logs and
    encodes; a rejected request leaves the world as it was. *)
Lemma native_run_agree (request : gmap string json) (w : world) :
  match rejects "No text provided" (text_of Native request) with
  | Some e => native_run E request w = (Raise e, w)
  | None =>
      agree (synthesized E (native_logline E (voice_of request))
               (Some (native_tuning request)) (text_of Native request)
               (voice_of request) w).2
            (native_run E request w).2
  end.
Proof.
  unfold native_run.
  destruct (rejects "No text provided" (text_of Native request)); [reflexivity|].
  destruct (synthesized E _ _ _ _ w) as [[[h wav]|e] w']; cbn [snd].
  - destruct (ta_save E "wav" wav (sr h)).
    + apply agree_quiet. reflexivity.
    + eapply agree_trans; [apply (agree_quiet [EvEncode "wav"]); reflexivity|].
      apply failed_agree.
  - apply failed_agree.
Qed.

Lemma openai_run_agree (request : gmap string json) (w : world) :
  match rejects "No input text provided" (text_of OpenAI request) with
  | Some e => openai_run E request w = (Raise e, w)
  | None =>
      agree (synthesized E
               (openai_logline E (voice_of request) (format_of request))
               None (text_of OpenAI request) (voice_of request) w).2
            (openai_run E request w).2
  end.
Proof.
  unfold openai_run.
  destruct (rejects "No input text provided" (text_of OpenAI request));
    [reflexivity|].
  destruct (synthesized E _ _ _ _ w) as [[[h wav]|e] w']; cbn [snd].
  - pose proof (encoded_agree (format_of request) h wav w') as Ag.
    destruct (encoded E (format_of request) h wav w') as [[r|e] w''];
      cbn [snd] in *; [exact Ag|].
    eapply agree_trans; [exact Ag|]. apply failed_agree.
  - apply failed_agree.
Qed.

End Leftovers.

(** ** Strings, paths and the file system *)

Lemma append_cons (c : ascii) (a b : string) :
  String c a +:+ b = String c (a +:+ b).
Proof. reflexivity. Qed.

Lemma length_append (a b : string) :
  String.length (a ++ b) = String.length a + String.length b.
Proof. induction a as [|c a IH]; [reflexivity|]. rewrite append_cons. cbn.
  rewrite IH. reflexivity.
Qed.

Lemma append_nil_r (a : string) : a +:+ "" = a.
Proof. induction a as [|c a IH]; [reflexivity|]. rewrite append_cons. cbn.
  rewrite IH. reflexivity.
Qed.

Lemma mem_append (c : ascii) (a b : string) :
  Str.mem c (a ++ b) = Str.mem c a || Str.mem c b.
Proof.
  induction a as [|d a IH]; [reflexivity|]. rewrite append_cons. cbn.
  rewrite IH. apply orb_assoc.
Qed.

Lemma endswith_append (a b : string) : Str.endswith (a ++ b) b = true.
Proof.
  induction a as [|c a IH].
  - change ("" +:+ b) with b. destruct b; cbn; [reflexivity|].
    rewrite Ascii.eqb_refl, String.eqb_refl. reflexivity.
  - rewrite append_cons. cbn [Str.endswith]. rewrite IH.
    destruct (String.eqb _ _); reflexivity.
Qed.

(** A name without a separator is one component. *)
Lemma split_plain (x : string) :
  Str.mem "/" x = false -> Str.split "/" x = [x].
Proof.
  induction x as [|c x IH]; [reflexivity|]. cbn [Str.mem Str.split].
  intros H. apply orb_false_iff in H as [Hc Hx].
  rewrite Ascii.eqb_sym, Hc, (IH Hx). reflexivity.
Qed.

Lemma startswith_plain (x : string) :
  Str.mem "/" x = false -> Str.startswith x "/" = false.
Proof.
  destruct x as [|c x]; [reflexivity|]. cbn [Str.mem]. intros H.
  apply orb_false_iff in H as [Hc _]. unfold Str.startswith.
  cbv [String.prefix].
  destruct (ascii_dec "/" c) as [<-|]; [|reflexivity].
  rewrite Ascii.eqb_refl in Hc. discriminate.
Qed.

Lemma Path_plain (x : string) :
  Str.mem "/" x = false -> keep_part x = true -> Path x = mkPath false [x].
Proof.
  intros H K. unfold Path. rewrite (startswith_plain x H), (split_plain x H).
  cbn. rewrite K. reflexivity.
Qed.

Lemma joinpath_plain (p : PurePath) (x : string) :
  Str.mem "/" x = false -> keep_part x = true ->
  joinpath p x = mkPath (anchored p) (parts p ++ [x]).
Proof. intros H K. unfold joinpath. rewrite (Path_plain x H K). reflexivity. Qed.

Lemma walk_app (back ps qs : list string) :
  walk back (ps ++ qs) = walk (walk back ps) qs.
Proof.
  revert back. induction ps as [|p ps IH]; intros back; [reflexivity|].
  cbn. destruct (String.eqb p ".."); apply IH.
Qed.

(** One more component that is not [".."] is one step down. *)
Lemma locate_snoc (cwd : loc) (a : bool) (ps : list string) (x : string) :
  String.eqb x ".." = false ->
  locate cwd (mkPath a (ps ++ [x])) = locate cwd (mkPath a ps) ++ [x].
Proof.
  intros H. unfold locate. cbn [anchored parts]. rewrite walk_app. cbn.
  rewrite H. reflexivity.
Qed.

(** A name with an extension of three letters is a component of its own. *)
Lemma keep_part_ext (x ext : string) :
  3 <= String.length ext -> keep_part (x ++ ext) = true.
Proof.
  intros L. unfold keep_part.
  destruct (String.eqb_spec (x ++ ext) "") as [e|_];
    [apply (f_equal String.length) in e; rewrite length_append in e; cbn in e; lia|].
  destruct (String.eqb_spec (x ++ ext) ".") as [e|_];
    [apply (f_equal String.length) in e; rewrite length_append in e; cbn in e; lia|].
  reflexivity.
Qed.

Lemma not_dotdot_ext (x ext : string) :
  3 <= String.length ext -> String.eqb (x ++ ext) ".." = false.
Proof.
  intros L. destruct (String.eqb_spec (x ++ ext) "..") as [e|_]; [|reflexivity].
  apply (f_equal String.length) in e. rewrite length_append in e. cbn in e. lia.
Qed.

(** The file a plain name with an extension names lies directly in the
    voice directory. *)
Lemma candidate_plain (E : Env) (x ext : string) :
  Str.mem "/" x = false -> Str.mem "/" ext = false ->
  3 <= String.length ext ->
  candidate E x ext = locate (cwd E) (voices_dir E) ++ [x +:+ ext]
  /\ candidate_str E x ext
     = str (mkPath (anchored (voices_dir E))
              (parts (voices_dir E) ++ [x +:+ ext])).
Proof.
  intros Hx He L. unfold candidate, candidate_str.
  rewrite joinpath_plain;
    [|rewrite mem_append, Hx, He; reflexivity|apply keep_part_ext; exact L].
  split; [|reflexivity].
  rewrite locate_snoc; [|apply not_dotdot_ext; exact L].
  destruct (voices_dir E); reflexivity.
Qed.

Lemma fs_lookup_write (fs : filesystem) (l : loc) (f : file) :
  fs_lookup (fs_write fs l f) l = Some f
  /\ forall l', l' <> l -> fs_lookup (fs_write fs l f) l' = fs_lookup fs l'.
Proof.
  induction fs as [|[k g] fs [IH1 IH2]]; cbn.
  - destruct (loc_eqb_spec l l); [|congruence]. split; [reflexivity|].
    intros l' Hl. destruct (loc_eqb_spec l l'); congruence.
  - destruct (loc_eqb_spec k l) as [->|Hk]; cbn.
    + destruct (loc_eqb_spec l l); [|congruence]. split; [reflexivity|].
      intros l' Hl. destruct (loc_eqb_spec l l') as [->|_]; [congruence|].
      rewrite (fs_lookup_remove fs l l').
      destruct (loc_eqb_spec l l'); congruence.
    + destruct (loc_eqb_spec k l); [congruence|]. split; [exact IH1|].
      intros l' Hl. rewrite (IH2 l' Hl). reflexivity.
Qed.

Lemma fs_exists_remove (fs : filesystem) (l : loc) :
  fs_exists (fs_remove fs l) l = false
  /\ forall l', l' <> l -> fs_exists (fs_remove fs l) l' = fs_exists fs l'.
Proof.
  unfold fs_exists. split.
  - rewrite (fs_lookup_remove fs l l). destruct (loc_eqb_spec l l); congruence.
  - intros l' Hl. rewrite (fs_lookup_remove fs l l').
    destruct (loc_eqb_spec l l'); congruence.
Qed.

(** A file written directly into a directory is met by a scan of it. *)
Lemma fs_scandir_write (fs : filesystem) (dir : loc) (n : string) (f : file) :
  In n (fs_scandir (fs_write fs (dir ++ [n]) f) dir).
Proof.
  assert (Here : forall rest,
             In n (fs_scandir ((dir ++ [n], f) :: rest) dir)).
  { intros rest. cbn. rewrite rev_unit, rev_involutive.
    destruct (loc_eqb_spec dir dir); [left; reflexivity|congruence]. }
  induction fs as [|[k g] fs IH]; [apply Here|]. cbn [fs_write].
  destruct (loc_eqb k (dir ++ [n])); [apply Here|].
  cbn [fs_scandir]. destruct (rev k) as [|m d]; [exact IH|].
  destruct (loc_eqb (rev d) dir); [right|]; exact IH.
Qed.

(** ** The upload *)

Lemma safe_char_plain (c : ascii) :
  Ascii.eqb "/" (Str.lower_char (safe_char c)) = false
  /\ Ascii.eqb "." (Str.lower_char (safe_char c)) = false.
Proof. destruct c as [[] [] [] [] [] [] [] []]; split; reflexivity. Qed.

(** A sanitized name has no separator and no dot, and is as long as the
    name. *)
Lemma safe_name_plain (name : string) :
  Str.mem "/" (safe_name name) = false /\ Str.mem "." (safe_name name) = false.
Proof.
  unfold safe_name. induction name as [|c name [IH1 IH2]]; [split; reflexivity|].
  cbn [Str.lower Str.map_chars Str.mem]. rewrite IH1, IH2.
  destruct (safe_char_plain c) as [-> ->]. split; reflexivity.
Qed.

Lemma safe_name_length (name : string) :
  String.length (safe_name name) = String.length name.
Proof.
  unfold safe_name. induction name as [|c name IH]; [reflexivity|].
  cbn [Str.lower Str.map_chars String.length]. rewrite IH. reflexivity.
Qed.

Lemma safe_name_empty (name : string) :
  String.eqb (safe_name name) "" = String.eqb name "".
Proof.
  pose proof (safe_name_length name) as L.
  destruct name; [reflexivity|]. destruct (safe_name _); [discriminate|reflexivity].
Qed.

Lemma upload_target_candidate (E : Env) (name : string) :
  candidate E (safe_name name) ".wav" = upload_target E name.
Proof.
  apply candidate_plain; [apply safe_name_plain|reflexivity|cbn; lia].
Qed.

Lemma rfind_ext (x : string) :
  Str.rfind "." (x +:+ ".wav") = Some (String.length x).
Proof.
  induction x as [|c x IH]; [reflexivity|].
  rewrite append_cons. cbn [Str.rfind String.length]. rewrite IH. reflexivity.
Qed.

Lemma take_append (x y : string) : Str.take (String.length x) (x +:+ y) = x.
Proof.
  unfold Str.take. induction x as [|c x IH].
  - destruct y; reflexivity.
  - rewrite append_cons. cbn. rewrite IH. reflexivity.
Qed.

(** The stem of [<x>.wav] is [x]. *)
Lemma name_stem_wav (x : string) : x <> "" -> name_stem (x +:+ ".wav") = x.
Proof.
  intros Hx. unfold name_stem, stem, suffix_at. cbn [Pathlib.name parts List.last].
  rewrite rfind_ext, length_append.
  destruct x as [|c x]; [congruence|].
  repeat match goal with
         | |- context [(?a <? ?b)%nat] =>
             destruct (Nat.ltb_spec a b); [|cbn in *; lia]
         end.
  cbn [andb]. apply (take_append (String c x)).
Qed.

(** What an upload that passes the checks does. *)
Lemma upload_voice_run (E : Env) (audio : UploadFile) (name : string) (w : world) :
  truthy_opt (filename audio) = true ->
  String.eqb name "" = false ->
  supported (upload_suffix audio) = true ->
  upload_voice E audio name w
  = let w1 := records [EvFs (Mkdir (locate (cwd E) (voices_dir E)));
                       EvDecode (upload_suffix audio)] w in
    match ta_load E (upload_suffix audio) (content audio) with
    | inr msg => failed "Failed to upload voice: " (Exception msg) w1
    | inl loaded =>
        let w2 := records [EvFs (Save (upload_target E name))] w1 in
        match ta_save E "wav" (stored_wave E loaded) 24000 with
        | inr msg => failed "Failed to upload voice: " (Exception msg) w2
        | inl _ =>
            (Return (uploaded E name),
             set_fs (fs_write (fs w) (upload_target E name)
                       (Encoded "wav" 24000 (stored_wave E loaded))) w2)
        end
    end.
Proof.
  intros F Nm S. unfold upload_voice.
  rewrite F. cbn [negb].
  change (Str.lower (Str.map_chars safe_char name)) with (safe_name name).
  rewrite safe_name_empty, Nm.
  change (Str.lower (Pathlib.suffix (Path (default "" (filename audio)))))
    with (upload_suffix audio).
  change (existsb (String.eqb (upload_suffix audio)) [".wav"; ".mp3"; ".ogg"; ".flac"])
    with (supported (upload_suffix audio)).
  rewrite S. cbn [negb].
  rewrite bind_run. unfold get_voice_samples_path at 1.
  rewrite bind_run. unfold mkdir. rewrite emit_run. cbv beta iota.
  rewrite ret_run. cbv beta iota.
  rewrite try_run, bind_run, emit_run. cbv beta iota.
  rewrite bind_run. unfold save_file, where_is.
  change (locate (cwd E) (joinpath (Path (VOICE_SAMPLES_DIR E)) (safe_name name +:+ ".wav")))
    with (candidate E (safe_name name) ".wav").
  rewrite upload_target_candidate.
  unfold failed.
  destruct (ta_load E (upload_suffix audio) (content audio)) as [loaded|msg].
  - cbn [lift_result]. rewrite ret_run. cbv beta iota zeta.
    rewrite !bind_run, emit_run. cbv beta iota. rewrite bind_run.
    unfold stored_wave.
    destruct (ta_save E "wav" _ 24000) as [bytes|msg];
      cbn [lift_result]; rewrite ?ret_run, ?raise_run; cbv beta iota;
      rewrite ?bind_run, ?log_run; cbv beta iota;
      rewrite !records_records; reflexivity.
  - cbn [lift_result]. rewrite raise_run. cbv beta iota zeta.
    rewrite bind_run, log_run. cbv beta iota.
    rewrite !records_records. reflexivity.
Qed.

(** ** Candidate files of an arbitrary id *)

Lemma split_nonempty (s : string) : Str.split "/" s <> [].
Proof.
  destruct s as [|c s]; [discriminate|]. cbn.
  destruct (Ascii.eqb c "/"); [discriminate|].
  destruct (Str.split "/" s); discriminate.
Qed.

(** Appending an extension changes the last component only. *)
Lemma split_append_plain (a b : string) :
  Str.mem "/" b = false ->
  Str.split "/" (a +:+ b)
  = removelast (Str.split "/" a) ++ [List.last (Str.split "/" a) "" +:+ b].
Proof.
  intros Hb. induction a as [|c a IH]; [apply (split_plain b Hb)|].
  rewrite append_cons. cbn [Str.split]. rewrite IH.
  pose proof (split_nonempty a) as NE.
  destruct (Ascii.eqb c "/").
  - destruct (Str.split "/" a) as [|w ws]; [congruence|]. reflexivity.
  - destruct (Str.split "/" a) as [|w ws]; [congruence|].
    destruct ws as [|w' ws]; reflexivity.
Qed.

Lemma prefix_nil (s : string) : String.prefix "" s = true.
Proof. destruct s; reflexivity. Qed.

Lemma prefix_cons (a b : ascii) (s t : string) :
  String.prefix (String a s) (String b t)
  = if ascii_dec a b then String.prefix s t else false.
Proof. reflexivity. Qed.

Lemma startswith_append (a b : string) :
  Str.startswith b "/" = false ->
  Str.startswith (a +:+ b) "/" = Str.startswith a "/".
Proof.
  intros Hb. destruct a as [|c a]; [exact Hb|]. rewrite append_cons.
  unfold Str.startswith. rewrite !prefix_cons, !prefix_nil. reflexivity.
Qed.

Lemma append_inj (x a b : string) : x +:+ a = x +:+ b -> a = b.
Proof.
  induction x as [|c x IH]; [trivial|]. rewrite !append_cons.
  intros H. injection H as H. exact (IH H).
Qed.

(** Whatever the id, its two candidates are two files of one directory: a
    directory and a name the id fixes, and the extension after the name. *)
Lemma candidate_split (E : Env) (voice_id : string) :
  exists (base : loc) (x : string),
    candidate E voice_id ".wav" = base ++ [x +:+ ".wav"]
    /\ candidate E voice_id ".mp3" = base ++ [x +:+ ".mp3"].
Proof.
  unfold candidate, joinpath, Path.
  rewrite !split_append_plain, !startswith_append by reflexivity.
  rewrite !List.filter_app. cbn [List.filter].
  rewrite !keep_part_ext by (cbn; lia).
  set (x := List.last (Str.split "/" voice_id) "").
  set (pre := List.filter keep_part (removelast (Str.split "/" voice_id))).
  cbn [anchored parts].
  destruct (Str.startswith voice_id "/").
  - exists (locate (cwd E) (mkPath true pre)), x.
    split; apply locate_snoc, not_dotdot_ext; cbn; lia.
  - exists (locate (cwd E) (mkPath (anchored (voices_dir E))
                              (parts (voices_dir E) ++ pre))), x.
    rewrite !app_assoc.
    split; apply locate_snoc, not_dotdot_ext; cbn; lia.
Qed.

Lemma candidates_differ (E : Env) (voice_id : string) :
  candidate E voice_id ".wav" <> candidate E voice_id ".mp3".
Proof.
  destruct (candidate_split E voice_id) as (base & x & -> & ->).
  intros H. apply app_inj_tail in H as [_ H]. apply append_inj in H.
  discriminate.
Qed.

(** ** Listing and deleting, step by step *)

Lemma listed_ids_run (E : Env) (w : world) :
  listed_ids E w
  = "default" :: List.map name_stem (globbed E w ".wav")
              ++ List.map name_stem (globbed E w ".mp3").
Proof.
  unfold listed_ids, list_voices, list_voice_samples. fsrun.
  f_equal. rewrite List.map_app, !id_custom_voice. reflexivity.
Qed.

Lemma delete_voice_cases (E : Env) (voice_id : string) (w : world) :
  String.eqb voice_id "default" = false ->
  let wav := candidate E voice_id ".wav" in
  let mp3 := candidate E voice_id ".mp3" in
  let r := delete_voice E voice_id w in
  if fs_exists (fs w) wav then
    r.1 = Return (deleted voice_id) /\ fs r.2 = fs_remove (fs w) wav
  else if fs_exists (fs w) mp3 then
    r.1 = Return (deleted voice_id) /\ fs r.2 = fs_remove (fs w) mp3
  else
    r.1 = Raise (HTTPException 404 "Voice not found") /\ fs r.2 = fs w.
Proof.
  intros D. cbn zeta. unfold delete_voice. rewrite D.
  unfold candidate, voices_dir. cbn [delete_first]. fsrun.
  destruct (fs_exists (fs w) _) eqn:W at 1.
  - rewrite W. cbn. rewrite W. cbn. split; reflexivity.
  - rewrite W. cbn.
    destruct (fs_exists (fs w) _) eqn:P at 1.
    + rewrite P. cbn. rewrite P. cbn. split; reflexivity.
    + rewrite P. cbn. split; reflexivity.
Qed.

Lemma count_id_in (s : string) (ids : list string) :
  In s ids -> 1 <= count_id s ids.
Proof.
  unfold count_id. induction ids as [|i ids IH]; [intros []|].
  intros [->|H]; cbn.
  - rewrite String.eqb_refl. cbn. lia.
  - destruct (String.eqb s i); cbn; [lia|auto].
Qed.

(** ** Health, listings, uploads and deletions *)

Lemma list_voice_samples_returns (E : Env) (w : world) :
  exists (entries : list voice) (w' : world),
    list_voice_samples E w = (Return entries, w')
    /\ fs w' = fs w /\ model w' = model w /\ loads w' = loads w.
Proof.
  unfold list_voice_samples. fsrun. eexists; eexists.
  split; [reflexivity|]. split; [reflexivity|]. split; [reflexivity|].
  unfold loads. cbn. rewrite !List.filter_app. cbn. rewrite !app_nil_r.
  reflexivity.
Qed.

(** X1. [GET /health] reads the globals and changes nothing.  Before any
    load attempt it reports the model as not loaded and the device as
    ["cpu"], whatever device is configured; after [startup_event], which
    never raises, it reports the device the load chose, and the model as
    loaded exactly when [from_pretrained] returned. *)
Theorem health_after_startup (E : Env) (files : filesystem) :
  let up := startup_event E (boot files) in
  let report (loaded : bool) (dev : string) :=
    {| h_status := "healthy"; model_loaded := loaded; h_device := dev;
       cuda_available := cuda_is_available E;
       mps_available := mps_is_available E |} in
  health E (boot files) = (Return (report false "cpu"), boot files)
  /\ up.1 = Return tt
  /\ health E up.2
     = (Return (report (match from_pretrained E 0 (chosen_device E) with
                        | inl _ => true
                        | inr _ => false
                        end) (chosen_device E)), up.2).
Proof.
  cbn zeta. split; [reflexivity|].
  unfold startup_event, health, get_model, get_device, emit, log. mrun.
  destruct (from_pretrained E 0 (chosen_device E)); cbn; split; reflexivity.
Qed.

(** X2. [GET /voices] and [GET /v1/audio/voices] list the same entries in
    the same order: the ids of the first are the ids of its details and the
    ids of the second; both leave the same world, with the store and the
    model as they were, and neither loads the model. *)
Theorem voice_listings_agree (E : Env) (w : world) :
  exists (entries : list voice) (w' : world),
    list_voices E w = (Return (List.map Chatterbox.id entries, entries), w')
    /\ openai_compatible_list_voices E w
       = (Return (List.map (fun v => (Chatterbox.id v, Chatterbox.name v,
                                      description v)) entries), w')
    /\ List.map (fun e => e.1.1) (List.map (fun v => (Chatterbox.id v,
                                   Chatterbox.name v, description v)) entries)
       = listed_ids E w
    /\ fs w' = fs w /\ model w' = model w /\ loads w' = loads w.
Proof.
  destruct (list_voice_samples_returns E w) as (entries & w' & R & Hfs & Hm & Hl).
  exists entries, w'.
  unfold listed_ids, list_voices, openai_compatible_list_voices.
  rewrite !bind_run, R. cbv beta iota. rewrite !ret_run. cbn [fst].
  split; [reflexivity|]. split; [reflexivity|].
  split; [rewrite List.map_map; reflexivity|]. auto.
Qed.

(** X3. The checks of [upload_voice], in the order the code makes them: an
    upload without a file name, then an empty name, then a file name whose
    lower-cased suffix is not one of the four taken, are turned away with
    400 and the world as it was (the voice directory is not even created).
    Sanitizing maps every character to a character, so only the empty name
    is an invalid voice name.  Past the checks the answer is the success
    body or a 500. *)
Theorem upload_voice_checks (E : Env) (audio : UploadFile) (name : string)
    (w : world) :
  let r := upload_voice E audio name w in
  if negb (truthy_opt (filename audio)) then
    r = (Raise (HTTPException 400 "No audio file provided"), w)
  else if String.eqb name "" then
    r = (Raise (HTTPException 400 "Invalid voice name"), w)
  else if negb (supported (upload_suffix audio)) then
    r = (Raise (HTTPException 400
                  "Unsupported audio format. Use WAV, MP3, OGG, or FLAC."), w)
  else
    r.1 = Return (uploaded E name)
    \/ exists msg, r.1 = Raise (HTTPException 500 msg).
Proof.
  cbn zeta.
  destruct (truthy_opt (filename audio)) eqn:F; cbn [negb].
  2:{ unfold upload_voice. rewrite F. reflexivity. }
  destruct (String.eqb name "") eqn:Nm.
  { unfold upload_voice. rewrite F. cbn [negb].
    change (Str.lower (Str.map_chars safe_char name)) with (safe_name name).
    rewrite safe_name_empty, Nm. reflexivity. }
  destruct (supported (upload_suffix audio)) eqn:S; cbn [negb].
  2:{ unfold upload_voice. rewrite F. cbn [negb].
      change (Str.lower (Str.map_chars safe_char name)) with (safe_name name).
      rewrite safe_name_empty, Nm.
      change (existsb _ _) with (supported (upload_suffix audio)).
      rewrite S. reflexivity. }
  rewrite (upload_voice_run E audio name w F Nm S). cbv zeta.
  destruct (ta_load E _ _) as [loaded|msg]; [|right; eexists; reflexivity].
  destruct (ta_save E "wav" _ 24000); [left|right; eexists]; reflexivity.
Qed.

(** What the world of a successful upload holds. *)
Lemma upload_voice_stores (E : Env) (audio : UploadFile) (name : string)
    (w : world) (j : json) :
  (upload_voice E audio name w).1 = Return j ->
  j = uploaded E name
  /\ String.eqb name "" = false
  /\ exists loaded,
       ta_load E (upload_suffix audio) (content audio) = inl loaded
       /\ fs (upload_voice E audio name w).2
          = fs_write (fs w) (upload_target E name)
              (Encoded "wav" 24000 (stored_wave E loaded)).
Proof.
  pose proof (upload_voice_checks E audio name w) as C. cbn zeta in C.
  destruct (truthy_opt (filename audio)) eqn:F; cbn [negb] in C;
    [|rewrite C; discriminate].
  destruct (String.eqb name "") eqn:Nm; [rewrite C; discriminate|].
  destruct (supported (upload_suffix audio)) eqn:S; cbn [negb] in C;
    [|rewrite C; discriminate].
  clear C. rewrite (upload_voice_run E audio name w F Nm S). cbv zeta.
  destruct (ta_load E _ _) as [loaded|msg]; [|discriminate].
  destruct (ta_save E "wav" _ 24000); [|discriminate].
  cbn. intros [= <-]. split; [reflexivity|]. split; [reflexivity|].
  exists loaded. split; reflexivity.
Qed.

Lemma stored_wave_mono (E : Env) (loaded : tensor * Z) :
  length (stored_wave E loaded) <= 1
  /\ (loaded.1 <> [] -> length (stored_wave E loaded) = 1).
Proof.
  unfold stored_wave. cbv zeta.
  set (wf := if negb (loaded.2 =? 24000)%Z then _ else _).
  assert (L : length wf = length loaded.1).
  { subst wf. destruct (negb _); [apply length_map|reflexivity]. }
  destruct (Nat.ltb_spec 1 (length wf)); cbn [length]; split; try lia.
  intros NE. destruct loaded.1; [congruence|]. cbn in L. lia.
Qed.

Lemma upload_listed_tail (E : Env) (audio : UploadFile) (name : string)
    (w : world) (j : json) :
  (upload_voice E audio name w).1 = Return j ->
  let w' := (upload_voice E audio name w).2 in
  In (safe_name name) (List.map name_stem (globbed E w' ".wav"))
  /\ exists f, fs_lookup (fs w') (upload_target E name) = Some f.
Proof.
  intros H. cbv zeta. destruct (upload_voice_stores E audio name w j H)
    as (_ & Nm & loaded & _ & Hfs).
  split.
  - apply in_map_iff. exists (safe_name name +:+ ".wav"). split.
    + apply name_stem_wav. intros e. rewrite <- safe_name_empty, e in Nm.
      discriminate.
    + unfold globbed, voice_files. apply filter_In. split.
      * rewrite Hfs. apply fs_scandir_write.
      * apply endswith_append.
  - rewrite Hfs. eexists. apply fs_lookup_write.
Qed.

(** X4. Upload, then list: after an upload that succeeded, the sanitized
    name is one of the ids [GET /voices] lists, and it is the [voice_id] the
    upload answered with. *)
Theorem upload_then_listed (E : Env) (audio : UploadFile) (name : string)
    (w : world) (j : json) :
  (upload_voice E audio name w).1 = Return j ->
  j = uploaded E name
  /\ In (safe_name name) (listed_ids E (upload_voice E audio name w).2).
Proof.
  intros H. split; [apply (upload_voice_stores E audio name w j H)|].
  rewrite listed_ids_run. right. apply in_or_app. left.
  apply (upload_listed_tail E audio name w j H).
Qed.

Lemma upload_then_listed_witness :
  let audio := {| filename := Some "me.WAV"; content := "stereo-44100" |} in
  (upload_voice host audio "My Voice!" (boot [])).1
  = Return (uploaded host "My Voice!")
  /\ uploaded host "My Voice!" = uploaded host "My Voice!"
  /\ In "my_voice_" (listed_ids host (upload_voice host audio "My Voice!" (boot [])).2).
Proof.
  split; [reflexivity|].
  exact (upload_then_listed host {| filename := Some "me.WAV";
                                     content := "stereo-44100" |}
           "My Voice!" (boot []) (uploaded host "My Voice!") eq_refl).
Defined.

(** X5. Upload, then resolve: an upload that succeeded wrote one file,
    [<sanitized name>.wav] directly in the voice directory, and no other
    file changed.  The file is a WAV at 24000 Hz with at most one channel
    (exactly one when the decoder gave any), whatever the rate and the
    channels of the upload; and a synthesis request naming the sanitized
    name resolves to that file, unless the name is ["default"]. *)
Theorem upload_then_resolved (E : Env) (audio : UploadFile) (name : string)
    (w : world) (j : json) :
  (upload_voice E audio name w).1 = Return j ->
  let w' := (upload_voice E audio name w).2 in
  exists (loaded : tensor * Z) (wave : tensor),
    ta_load E (upload_suffix audio) (content audio) = inl loaded
    /\ fs_lookup (fs w') (upload_target E name) = Some (Encoded "wav" 24000 wave)
    /\ length wave <= 1
    /\ (loaded.1 <> [] -> length wave = 1)
    /\ (forall l, l <> upload_target E name ->
                  fs_lookup (fs w') l = fs_lookup (fs w) l)
    /\ (safe_name name <> "default" ->
        prompt_of E (JStr (safe_name name)) (fs w')
        = Some (candidate_str E (safe_name name) ".wav")).
Proof.
  intros H. cbv zeta.
  destruct (upload_voice_stores E audio name w j H)
    as (_ & Nm & loaded & L & Hfs).
  exists loaded, (stored_wave E loaded). rewrite Hfs.
  destruct (fs_lookup_write (fs w) (upload_target E name)
              (Encoded "wav" 24000 (stored_wave E loaded))) as [W1 W2].
  destruct (stored_wave_mono E loaded) as [M1 M2].
  repeat split; auto.
  intros ND. unfold prompt_of. cbn [eq_str py_format].
  destruct (String.eqb_spec (safe_name name) "default"); [congruence|].
  rewrite upload_target_candidate. unfold fs_exists. rewrite W1. reflexivity.
Qed.

Lemma upload_then_resolved_witness :
  let audio := {| filename := Some "me.WAV"; content := "stereo-44100" |} in
  let w' := (upload_voice host audio "My Voice!" (boot [])).2 in
  fs w' = [(["srv"; "voices"; "my_voice_.wav"],
            Encoded "wav" 24000 [[1 # 1; 0 # 1]])]
  /\ exists (loaded : tensor * Z) (wave : tensor),
      ta_load host (upload_suffix audio) (content audio) = inl loaded
      /\ fs_lookup (fs w') (upload_target host "My Voice!")
         = Some (Encoded "wav" 24000 wave)
      /\ length wave <= 1
      /\ (loaded.1 <> [] -> length wave = 1)
      /\ (forall l, l <> upload_target host "My Voice!" ->
                    fs_lookup (fs w') l = fs_lookup (fs (boot [])) l)
      /\ (safe_name "My Voice!" <> "default" ->
          prompt_of host (JStr (safe_name "My Voice!")) (fs w')
          = Some (candidate_str host (safe_name "My Voice!") ".wav")).
Proof.
  split; [reflexivity|].
  exact (upload_then_resolved host {| filename := Some "me.WAV";
                                       content := "stereo-44100" |}
           "My Voice!" (boot []) (uploaded host "My Voice!") eq_refl).
Defined.

(** A leading [./] names the same file. *)
Lemma candidate_dot (E : Env) (x ext : string) :
  Str.mem "/" x = false -> Str.mem "/" ext = false ->
  3 <= String.length ext ->
  candidate E ("./" +:+ x) ext = candidate E x ext
  /\ candidate_str E ("./" +:+ x) ext = candidate_str E x ext.
Proof.
  intros Hx He L.
  assert (P : Path (("./" +:+ x) +:+ ext) = Path (x +:+ ext)).
  { rewrite (Path_plain (x +:+ ext));
      [|rewrite mem_append, Hx, He; reflexivity|apply keep_part_ext; exact L].
    unfold Path. change (("./" +:+ x) +:+ ext)
      with (String "." (String "/" (x +:+ ext))).
    cbn [Str.split]. cbn [Ascii.eqb Bool.eqb].
    rewrite split_plain by (rewrite mem_append, Hx, He; reflexivity).
    cbn [List.filter]. rewrite keep_part_ext by exact L. reflexivity. }
  unfold candidate, candidate_str, joinpath. rewrite P. split; reflexivity.
Qed.

(** X6. A name that sanitizes to ["default"] (such as ["Default"]) is taken
    by [upload_voice] and stored as [default.wav].  Under the id
    ["default"], which the upload answers with and the listing then shows
    at least twice, the file can not be deleted ([delete_voice] turns the id
    away with 400) and is not used as a reference.  The checks are on the
    id as written: under another spelling of the same path, such as
    ["./default"], [delete_voice] removes the file and the synthesis
    handlers resolve to it. *)
Theorem upload_as_default (E : Env) (audio : UploadFile) (name : string)
    (w : world) (j : json) :
  safe_name name = "default" ->
  (upload_voice E audio name w).1 = Return j ->
  let w' := (upload_voice E audio name w).2 in
  fs_exists (fs w') (candidate E "default" ".wav") = true
  /\ delete_voice E "default" w'
     = (Raise (HTTPException 400 "Cannot delete default voice"), w')
  /\ prompt_of E (JStr "default") (fs w') = None
  /\ 2 <= count_id "default" (listed_ids E w')
  /\ (delete_voice E "./default" w').1 = Return (deleted "./default")
  /\ fs_exists (fs (delete_voice E "./default" w').2)
       (candidate E "default" ".wav") = false
  /\ prompt_of E (JStr "./default") (fs w')
     = Some (candidate_str E "default" ".wav").
Proof.
  intros D H. cbv zeta.
  destruct (upload_listed_tail E audio name w j H) as [In1 [f Look]].
  rewrite D in In1.
  assert (X : fs_exists (fs (upload_voice E audio name w).2)
                (candidate E "default" ".wav") = true).
  { rewrite <- D. rewrite upload_target_candidate. unfold fs_exists.
    rewrite Look. reflexivity. }
  destruct (candidate_dot E "default" ".wav" eq_refl eq_refl) as [Cl Cs];
    [cbn; lia|].
  change ("./" +:+ "default") with "./default" in Cl, Cs.
  pose proof (delete_voice_cases E "./default"
                (upload_voice E audio name w).2 eq_refl) as Del.
  cbv zeta in Del. rewrite Cl, X in Del. destruct Del as [R F].
  split; [exact X|]. split; [reflexivity|]. split; [reflexivity|]. split.
  { rewrite listed_ids_run.
    pose proof (count_id_in "default" _
                  (in_or_app _ (List.map name_stem
                                  (globbed E (upload_voice E audio name w).2
                                     ".mp3")) _ (or_introl In1))) as C.
    unfold count_id in *. cbn [List.filter String.eqb]. cbn. cbn in C. lia. }
  split; [exact R|]. split.
  { rewrite F. apply fs_exists_remove. }
  unfold prompt_of. cbn [eq_str py_format].
  replace (String.eqb "./default" "default") with false by reflexivity.
  rewrite Cl, X, Cs. reflexivity.
Qed.

Lemma upload_as_default_witness :
  let audio := {| filename := Some "voice.mp3"; content := "mono" |} in
  let w' := (upload_voice host audio "Default" (boot [])).2 in
  listed_ids host w' = ["default"; "default"]
  /\ fs (delete_voice host "./default" w').2 = []
  /\ fs_exists (fs w') (candidate host "default" ".wav") = true
  /\ delete_voice host "default" w'
     = (Raise (HTTPException 400 "Cannot delete default voice"), w')
  /\ prompt_of host (JStr "default") (fs w') = None
  /\ 2 <= count_id "default" (listed_ids host w')
  /\ (delete_voice host "./default" w').1 = Return (deleted "./default")
  /\ fs_exists (fs (delete_voice host "./default" w').2)
       (candidate host "default" ".wav") = false
  /\ prompt_of host (JStr "./default") (fs w')
     = Some (candidate_str host "default" ".wav").
Proof.
  split; [reflexivity|]. split; [reflexivity|].
  exact (upload_as_default host {| filename := Some "voice.mp3";
                                    content := "mono" |}
           "Default" (boot []) (uploaded host "Default") eq_refl eq_refl).
Defined.

Lemma removelast_rev {A} (l : list A) : removelast (rev l) = rev (tail l).
Proof. destruct l as [|a l]; [reflexivity|]. cbn. apply removelast_last. Qed.

(** The file an id of the shape [../<name>] names lies in the parent of the
    voice directory. *)
Lemma candidate_parent (E : Env) (n ext : string) :
  Str.mem "/" n = false -> Str.mem "/" ext = false ->
  3 <= String.length ext ->
  candidate E ("../" +:+ n) ext
  = removelast (locate (cwd E) (voices_dir E)) ++ [n +:+ ext]
  /\ candidate_str E ("../" +:+ n) ext
     = str (mkPath (anchored (voices_dir E))
              (parts (voices_dir E) ++ [".."; n +:+ ext])).
Proof.
  intros Hn He L.
  assert (P : Path (("../" +:+ n) +:+ ext) = mkPath false [".."; n +:+ ext]).
  { unfold Path. change (("../" +:+ n) +:+ ext)
      with (String "." (String "." (String "/" (n +:+ ext)))).
    cbn [Str.split]. cbn [Ascii.eqb Bool.eqb].
    rewrite split_plain by (rewrite mem_append, Hn, He; reflexivity).
    cbn [List.filter]. rewrite keep_part_ext by exact L. reflexivity. }
  unfold candidate, candidate_str, joinpath. rewrite P. cbn [anchored parts].
  split; [|reflexivity].
  unfold locate. cbn [anchored parts]. rewrite walk_app. cbn [walk].
  change (String.eqb ".." "..") with true. cbv iota.
  rewrite not_dotdot_ext by exact L. cbn [rev].
  rewrite removelast_rev. reflexivity.
Qed.

(** X7. [delete_voice] removes one file per call.  When an id without a
    path separator has both [<id>.wav] and [<id>.mp3] in the voice
    directory, the first call removes the WAV and leaves the MP3, so the id
    is still there; the second call removes the MP3; the third finds nothing
    and answers 404. *)
Theorem delete_one_file_per_call (E : Env) (voice_id : string) (w : world) :
  Str.mem "/" voice_id = false ->
  voice_id <> "default" ->
  fs_exists (fs w) (candidate E voice_id ".wav") = true ->
  fs_exists (fs w) (candidate E voice_id ".mp3") = true ->
  let r1 := delete_voice E voice_id w in
  let r2 := delete_voice E voice_id r1.2 in
  let r3 := delete_voice E voice_id r2.2 in
  r1.1 = Return (deleted voice_id)
  /\ fs_exists (fs r1.2) (candidate E voice_id ".wav") = false
  /\ fs_exists (fs r1.2) (candidate E voice_id ".mp3") = true
  /\ r2.1 = Return (deleted voice_id)
  /\ fs_exists (fs r2.2) (candidate E voice_id ".mp3") = false
  /\ r3.1 = Raise (HTTPException 404 "Voice not found")
  /\ fs r3.2 = fs r2.2.
Proof.
  intros _ D W P. cbv zeta.
  assert (D' : String.eqb voice_id "default" = false)
    by (destruct (String.eqb_spec voice_id "default"); congruence).
  pose proof (candidates_differ E voice_id) as Ne.
  pose proof (delete_voice_cases E voice_id w D') as C1. cbv zeta in C1.
  rewrite W in C1. destruct C1 as [R1 F1].
  destruct (fs_exists_remove (fs w) (candidate E voice_id ".wav")) as [G1 K1].
  assert (W1 : fs_exists (fs (delete_voice E voice_id w).2)
                 (candidate E voice_id ".wav") = false) by (rewrite F1; exact G1).
  assert (P1 : fs_exists (fs (delete_voice E voice_id w).2)
                 (candidate E voice_id ".mp3") = true).
  { rewrite F1, K1; [exact P|congruence]. }
  pose proof (delete_voice_cases E voice_id (delete_voice E voice_id w).2 D')
    as C2. cbv zeta in C2. rewrite W1, P1 in C2. destruct C2 as [R2 F2].
  destruct (fs_exists_remove (fs (delete_voice E voice_id w).2)
              (candidate E voice_id ".mp3")) as [G2 K2].
  set (w2 := (delete_voice E voice_id (delete_voice E voice_id w).2).2) in *.
  assert (P2 : fs_exists (fs w2) (candidate E voice_id ".mp3") = false)
    by (rewrite F2; exact G2).
  assert (W2 : fs_exists (fs w2) (candidate E voice_id ".wav") = false).
  { rewrite F2, K2; [exact W1|exact Ne]. }
  pose proof (delete_voice_cases E voice_id w2 D') as C3. cbv zeta in C3.
  rewrite W2, P2 in C3. destruct C3 as [R3 F3].
  repeat split; assumption.
Qed.

Lemma delete_one_file_per_call_witness :
  let w := boot [(["srv"; "voices"; "amy.mp3"], silence);
                 (["srv"; "voices"; "amy.wav"], silence)] in
  let r1 := delete_voice host "amy" w in
  let r2 := delete_voice host "amy" r1.2 in
  let r3 := delete_voice host "amy" r2.2 in
  fs r1.2 = [(["srv"; "voices"; "amy.mp3"], silence)]
  /\ fs r2.2 = []
  /\ r1.1 = Return (deleted "amy")
  /\ fs_exists (fs r1.2) (candidate host "amy" ".wav") = false
  /\ fs_exists (fs r1.2) (candidate host "amy" ".mp3") = true
  /\ r2.1 = Return (deleted "amy")
  /\ fs_exists (fs r2.2) (candidate host "amy" ".mp3") = false
  /\ r3.1 = Raise (HTTPException 404 "Voice not found")
  /\ fs r3.2 = fs r2.2.
Proof.
  split; [reflexivity|]. split; [reflexivity|].
  apply (delete_one_file_per_call host "amy"
           (boot [(["srv"; "voices"; "amy.mp3"], silence);
                  (["srv"; "voices"; "amy.wav"], silence)]));
    [reflexivity|discriminate|reflexivity|reflexivity].
Defined.

(** X8. [delete_voice] puts the id into the path as it is.  For an id
    [../<name>] the file it looks for and removes is [<name>.wav] in the
    parent of the voice directory: a file outside the voice directory
    (unless that directory is the root) is deleted, and every other file
    stays. *)
Theorem delete_voice_reaches_parent (E : Env) (n : string) (w : world) :
  Str.mem "/" n = false ->
  let dir := locate (cwd E) (voices_dir E) in
  let outside := removelast dir ++ [n +:+ ".wav"] in
  fs_exists (fs w) outside = true ->
  let r := delete_voice E ("../" +:+ n) w in
  r.1 = Return (deleted ("../" +:+ n))
  /\ fs_exists (fs r.2) outside = false
  /\ (forall l, l <> outside -> fs_lookup (fs r.2) l = fs_lookup (fs w) l)
  /\ (dir <> [] -> forall m, outside <> dir ++ [m]).
Proof.
  intros Hn dir outside X r.
  assert (C : candidate E ("../" +:+ n) ".wav" = outside)
    by (apply candidate_parent; [exact Hn|reflexivity|cbn; lia]).
  pose proof (delete_voice_cases E ("../" +:+ n) w eq_refl) as D.
  cbv zeta in D. rewrite C, X in D. destruct D as [R F].
  split; [exact R|]. subst r. rewrite F.
  split; [apply fs_exists_remove|]. split.
  - intros l Hl. rewrite (fs_lookup_remove (fs w) outside l).
    destruct (loc_eqb_spec outside l); congruence.
  - intros NE m e. apply (f_equal (@length string)) in e.
    subst outside. rewrite !length_app in e. cbn in e.
    pose proof (f_equal (@length string) (app_removelast_last "" NE)) as L.
    rewrite length_app in L. cbn in L. lia.
Qed.

Lemma delete_voice_reaches_parent_witness :
  let w := boot [(["srv"; "secrets.wav"], silence);
                 (["srv"; "voices"; "amy.wav"], silence)] in
  let r := delete_voice host "../secrets" w in
  fs r.2 = [(["srv"; "voices"; "amy.wav"], silence)]
  /\ r.1 = Return (deleted "../secrets")
  /\ fs_exists (fs r.2) ["srv"; "secrets.wav"] = false
  /\ (forall l, l <> ["srv"; "secrets.wav"] ->
                fs_lookup (fs r.2) l = fs_lookup (fs w) l)
  /\ (["srv"; "voices"] <> [] -> forall m, ["srv"; "secrets.wav"]
                                          <> ["srv"; "voices"] ++ [m]).
Proof.
  split; [reflexivity|].
  exact (delete_voice_reaches_parent host "secrets"
           (boot [(["srv"; "secrets.wav"], silence);
                  (["srv"; "voices"; "amy.wav"], silence)])
           eq_refl eq_refl).
Defined.

(** ** The handlers through their phases *)

Lemma synthesized_outcome (E : Env) (logline : option string -> string)
    (tuning : option (json * json)) (text voice_id : json) (w : world) :
  (synthesized E logline tuning text voice_id w).1
  = match get_model E w with
    | (Return h, _) =>
        generated E h (gen_args tuning text (prompt_of E voice_id (fs w)))
    | (Raise e, _) => Raise e
    end.
Proof.
  unfold synthesized, generated.
  pose proof (get_model_leaves E w) as [F _].
  destruct (get_model E w) as [[h|e] w1]; [|reflexivity].
  cbn [snd] in F. cbv zeta. rewrite F.
  destruct (generate E h _); reflexivity.
Qed.

(** A handler turns the request away, or answers for what the common part
    gave and leaves the world of the common part, up to logs and encodes. *)
Lemma handler_view (E : Env) (sf : surface) (request : gmap string json)
    (w : world) :
  match rejects (no_text sf) (text_of sf request) with
  | Some e => handler E sf request w = (Raise e, w)
  | None =>
      (handler E sf request w).1 = answer E sf request (synthesis E sf request w).1
      /\ agree (synthesis E sf request w).2 (handler E sf request w).2
  end.
Proof.
  destruct sf; unfold handler, synthesis, answer, no_text, tuning_of, logline_of.
  - rewrite synthesize_run.
    pose proof (native_run_agree E request w) as A.
    destruct (rejects "No text provided" (text_of Native request)) eqn:R;
      [exact A|]. split; [|exact A].
    unfold native_run, native_answer. rewrite R.
    destruct (synthesized E _ _ _ _ w) as [[[h wav]|e] w']; [|reflexivity].
    cbn [fst]. destruct (ta_save E "wav" wav (sr h)); reflexivity.
  - rewrite openai_compatible_synthesize_run.
    pose proof (openai_run_agree E request w) as A.
    destruct (rejects "No input text provided" (text_of OpenAI request)) eqn:R;
      [exact A|]. split; [|exact A].
    unfold openai_run, openai_answer. rewrite R.
    destruct (synthesized E _ _ _ _ w) as [[[h wav]|e] w']; [|reflexivity].
    cbn [fst]. unfold encoded. cbv zeta.
    destruct (encoding E (format_of request) h wav).1; reflexivity.
Qed.

(** What validation turns away, and what it lets through. *)
Lemma rejects_falsy (nt : string) (text : json) :
  truthy text = false -> rejects nt text = Some (HTTPException 400 nt).
Proof. intros T. unfold rejects. rewrite T. reflexivity. Qed.

Lemma rejects_str (nt s : string) :
  s <> "" ->
  rejects nt (JStr s)
  = if (4096 <? Z.of_nat (String.length s))%Z
    then Some (HTTPException 400 "Text too long (max 4096 characters)")
    else None.
Proof.
  intros Hs. unfold rejects. cbn [truthy].
  destruct (String.eqb_spec s ""); [congruence|]. reflexivity.
Qed.

Lemma status_answer (E : Env) (sf : surface) (request : gmap string json)
    (o : outcome (handle * tensor)) :
  status (answer E sf request o) = 200 \/ status (answer E sf request o) = 500.
Proof.
  destruct sf, o as [[h wav]|e]; cbn; auto.
  - destruct (ta_save E "wav" wav (sr h)); auto.
  - destruct (encoding E (format_of request) h wav).1; auto.
Qed.

Lemma loads_engine (w1 w2 : world) :
  engine_events (trace w1) = engine_events (trace w2) -> loads w1 = loads w2.
Proof.
  unfold loads, engine_events. intros H.
  assert (F : forall evs, List.filter is_load evs
                          = List.filter is_load (List.filter is_engine evs)).
  { induction evs as [|e evs IH]; [reflexivity|].
    destruct e; cbn; rewrite <- ?IH; reflexivity. }
  rewrite (F (trace w1)), (F (trace w2)), H. reflexivity.
Qed.

Lemma resolve_events_fs (E : Env) (voice_id : json) (files : filesystem) :
  engine_events (resolve_events E voice_id files) = []
  /\ gen_calls (resolve_events E voice_id files) = []
  /\ List.filter is_load (resolve_events E voice_id files) = [].
Proof.
  unfold resolve_events. destruct (eq_str voice_id "default"); [auto|].
  destruct (fs_exists files _); auto.
Qed.

(** The common part with the model loaded. *)
Lemma synthesis_loaded (E : Env) (sf : surface) (request : gmap string json)
    (w : world) (h : handle) :
  model w = Some h ->
  synthesis E sf request w
  = (generated E h (call_of E sf request (fs w)),
     records [EvGenerate h (call_of E sf request (fs w))]
       (note INFO (logline_of E sf request
                     (prompt_of E (voice_of request) (fs w)))
          (records (resolve_events E (voice_of request) (fs w)) w))).
Proof.
  intros M. unfold synthesis, synthesized, generated, call_of.
  rewrite (get_model_loaded E w h M). cbv zeta.
  destruct (generate E h _); reflexivity.
Qed.

(** The common part when the load fails. *)
Lemma synthesis_load_fails (E : Env) (sf : surface) (request : gmap string json)
    (w : world) (msg : string) :
  model w = None ->
  from_pretrained E (loads w) (chosen_device E) = inr msg ->
  synthesis E sf request w = (Raise (Exception msg), after_failed_load E w).
Proof.
  intros M L. unfold synthesis, synthesized.
  rewrite (get_model_raises E w msg M L). reflexivity.
Qed.

Lemma loads_records (evs : list event) (w : world) :
  loads (records evs w) = loads w + length (List.filter is_load evs).
Proof. unfold loads. cbn. rewrite List.filter_app, length_app. reflexivity. Qed.

Lemma loads_note (lv : level) (msg : string) (w : world) :
  loads (note lv msg w) = loads w.
Proof. reflexivity. Qed.

Lemma get_model_returns (E : Env) (w w1 : world) (h : handle) :
  get_model E w = (Return h, w1) ->
  model w1 = Some h /\ fs w1 = fs w
  /\ fs_ops (trace w1) = fs_ops (trace w)
  /\ gen_calls (trace w1) = gen_calls (trace w)
  /\ loads w1 = match model w with Some _ => loads w | None => S (loads w) end.
Proof.
  intros G. pose proof (get_model_leaves E w) as (F & O & C).
  rewrite G in F, O, C. cbn [snd] in *. repeat split; try assumption.
  - destruct (model w) as [h0|] eqn:M.
    + rewrite (get_model_loaded E w h0 M) in G. injection G as <- <-. exact M.
    + destruct (from_pretrained E (loads w) (chosen_device E)) as [h1|msg] eqn:L.
      * rewrite (get_model_loads E w h1 M L) in G. injection G as <- <-.
        reflexivity.
      * rewrite (get_model_raises E w msg M L) in G. discriminate.
  - destruct (model w) as [h0|] eqn:M.
    + rewrite (get_model_loaded E w h0 M) in G. injection G as _ <-.
      reflexivity.
    + pose proof (get_model_retries E w M) as R. rewrite G in R. exact R.
Qed.

(** A request that passes validation, when the model is there or loads:
    what the handler asks of the engine and of the file system, and what it
    answers. *)
Lemma handler_served (E : Env) (sf : surface) (request : gmap string json)
    (w w1 : world) (h : handle) :
  rejects (no_text sf) (text_of sf request) = None ->
  get_model E w = (Return h, w1) ->
  let r := handler E sf request w in
  let c := call_of E sf request (fs w) in
  r.1 = answer E sf request (generated E h c)
  /\ engine_events (trace r.2) = engine_events (trace w1) ++ [EvGenerate h c]
  /\ gen_calls (trace r.2) = gen_calls (trace w) ++ [c]
  /\ fs_ops (trace r.2)
     = fs_ops (trace w) ++ fs_ops (resolve_events E (voice_of request) (fs w))
  /\ model r.2 = Some h /\ fs r.2 = fs w
  /\ loads r.2 = match model w with Some _ => loads w | None => S (loads w) end.
Proof.
  intros R G. cbv zeta.
  pose proof (handler_view E sf request w) as V. rewrite R in V.
  destruct V as [O A].
  destruct (get_model_returns E w w1 h G) as (M1 & F1 & O1 & C1 & L1).
  assert (W : (synthesis E sf request w).2
              = records [EvGenerate h (call_of E sf request (fs w))]
                  (note INFO (logline_of E sf request
                                (prompt_of E (voice_of request) (fs w)))
                     (records (resolve_events E (voice_of request) (fs w)) w1))).
  { unfold synthesis. rewrite synthesized_world, G. cbv zeta. rewrite F1.
    reflexivity. }
  split.
  { rewrite O. unfold synthesis. rewrite synthesized_outcome, G. reflexivity. }
  destruct A as [Am Af Ao Ae]. rewrite W in Am, Af, Ao, Ae.
  destruct (resolve_events_fs E (voice_of request) (fs w)) as (Re & Rc & Rl).
  split.
  { rewrite <- Ae. cbn. rewrite !engine_events_app, Re, app_nil_r. reflexivity. }
  split.
  { rewrite <- gen_calls_engine, <- Ae, gen_calls_engine. cbn.
    rewrite !gen_calls_app, Rc, C1, app_nil_r. reflexivity. }
  split.
  { rewrite <- Ao. cbn. rewrite !fs_ops_app, O1. cbn. rewrite app_nil_r.
    reflexivity. }
  split; [rewrite <- Am; exact M1|]. split; [rewrite <- Af; exact F1|].
  rewrite <- L1. symmetry.
  rewrite <- (loads_engine _ _ Ae), loads_records, loads_note, loads_records, Rl.
  cbn. lia.
Qed.

(** A request that passes validation, when the model does not load. *)
Lemma handler_unserved (E : Env) (sf : surface) (request : gmap string json)
    (w w1 : world) (e : exn) :
  rejects (no_text sf) (text_of sf request) = None ->
  get_model E w = (Raise e, w1) ->
  let r := handler E sf request w in
  r.1 = Raise (HTTPException 500 (str_exn e)) /\ agree w1 r.2.
Proof.
  intros R G. cbv zeta.
  pose proof (handler_view E sf request w) as V. rewrite R in V.
  unfold synthesis, synthesized in V. rewrite G in V.
  destruct V as [O A]. split; [|exact A].
  rewrite O. destruct sf; reflexivity.
Qed.

(** ** The synthesis handlers *)

(** X9. Both synthesis handlers check the text before anything else.  A
    missing or empty text is turned away with 400 and the detail of the
    surface, a string of more than 4096 characters with 400 and the detail
    of the bound; in both cases the world is as it was: no load, no voice
    lookup, no engine call.  A non-empty string of at most 4096 characters
    passes: the answer is not a 400, and a model that is not loaded is
    loaded for it. *)
Theorem synthesis_validation (E : Env) (sf : surface)
    (request : gmap string json) (w : world) :
  (truthy (text_of sf request) = false ->
   handler E sf request w = (Raise (HTTPException 400 (no_text sf)), w))
  /\ (forall s, text_of sf request = JStr s -> 4096 < String.length s ->
      handler E sf request w
      = (Raise (HTTPException 400 "Text too long (max 4096 characters)"), w))
  /\ (forall s, text_of sf request = JStr s -> s <> "" ->
      String.length s <= 4096 ->
      status (handler E sf request w).1 <> 400
      /\ (model w = None -> loads (handler E sf request w).2 = S (loads w))).
Proof.
  pose proof (handler_view E sf request w) as V.
  split; [|split].
  - intros T. rewrite (rejects_falsy _ _ T) in V. exact V.
  - intros s Hs L. rewrite Hs in V.
    rewrite rejects_str in V by (intros ->; cbn in L; lia).
    destruct (Z.ltb_spec 4096 (Z.of_nat (String.length s))); [exact V|lia].
  - intros s Hs Ne L. assert (R : rejects (no_text sf) (text_of sf request) = None).
    { rewrite Hs, rejects_str by exact Ne.
      destruct (Z.ltb_spec 4096 (Z.of_nat (String.length s))); [lia|reflexivity]. }
    rewrite R in V. destruct V as [O A]. split.
    + rewrite O. destruct (status_answer E sf request (synthesis E sf request w).1)
        as [-> | ->]; discriminate.
    + intros M. destruct (get_model E w) as [[h|e] w1] eqn:G.
      * destruct (handler_served E sf request w w1 h R G)
          as (_ & _ & _ & _ & _ & _ & Lo). rewrite M in Lo. exact Lo.
      * destruct (handler_unserved E sf request w w1 e R G) as [_ [_ _ _ Ae]].
        rewrite <- (loads_engine _ _ Ae).
        pose proof (get_model_retries E w M) as Rt. rewrite G in Rt. exact Rt.
Qed.

Lemma synthesis_validation_witness :
  handler host OpenAI {[ "input" := JStr (Str.replicate "a" 4097) ]} (boot [])
  = (Raise (HTTPException 400 "Text too long (max 4096 characters)"), boot [])
  /\ handler host Native {[ "voice" := JStr "amy" ]} (boot [])
     = (Raise (HTTPException 400 "No text provided"), boot [])
  /\ status (handler host Native
               {[ "text" := JStr (Str.replicate "a" 4096) ]} (boot [])).1 <> 400.
Proof.
  split; [|split].
  - apply (proj1 (proj2 (synthesis_validation host OpenAI
                           {[ "input" := JStr (Str.replicate "a" 4097) ]}
                           (boot []))) (Str.replicate "a" 4097));
      [reflexivity|apply Nat.ltb_lt; vm_compute; reflexivity].
  - apply (proj1 (synthesis_validation host Native
                    {[ "voice" := JStr "amy" ]} (boot []))).
    reflexivity.
  - apply (proj2 (proj2 (synthesis_validation host Native
                           {[ "text" := JStr (Str.replicate "a" 4096) ]}
                           (boot []))) (Str.replicate "a" 4096));
      [reflexivity|discriminate|apply Nat.leb_le; vm_compute; reflexivity].
Defined.

(** X10. A text that is not a string.  A number (other than zero) or [true]
    passes the emptiness check and then has no length: the exception leaves
    the handler, outside its [try], so the answer is a 500 and not a 400,
    with the world as it was.  A non-empty list is measured by its number of
    elements and handed to the engine as it is. *)
Theorem synthesis_text_not_a_string (E : Env) (sf : surface)
    (request : gmap string json) (w : world) :
  (forall q, text_of sf request = JNum q -> Qeq_bool q 0 = false ->
   exists msg, handler E sf request w = (Raise (Exception msg), w)
               /\ status (handler E sf request w).1 = 500)
  /\ (text_of sf request = JBool true ->
      exists msg, handler E sf request w = (Raise (Exception msg), w)
                  /\ status (handler E sf request w).1 = 500)
  /\ (forall l h, text_of sf request = JArr l -> l <> [] ->
      length l <= 4096 -> model w = Some h ->
      gen_calls (trace (handler E sf request w).2)
      = gen_calls (trace w) ++ [call_of E sf request (fs w)]
      /\ g_text (call_of E sf request (fs w)) = JArr l).
Proof.
  pose proof (handler_view E sf request w) as V.
  split; [|split].
  - intros q Hq Z. rewrite Hq in V. unfold rejects in V. cbn [truthy] in V.
    rewrite Z in V. cbn [negb] in V. eexists. rewrite V. split; reflexivity.
  - intros Hb. rewrite Hb in V. cbn in V. eexists. rewrite V.
    split; reflexivity.
  - intros l h Hl Ne L M.
    assert (R : rejects (no_text sf) (text_of sf request) = None).
    { rewrite Hl. unfold rejects. destruct l; [congruence|]. cbn [truthy is_nil negb].
      destruct (Z.ltb_spec 4096 (Z.of_nat (length (j :: l)))); [lia|reflexivity]. }
    destruct (handler_served E sf request w w h R (get_model_loaded E w h M))
      as (_ & _ & C & _).
    split; [exact C|]. unfold call_of, gen_args. cbn. exact Hl.
Qed.

Lemma synthesis_text_not_a_string_witness :
  (exists msg, handler host OpenAI {[ "input" := JNum (5 # 1) ]} (boot [])
               = (Raise (Exception msg), boot [])
               /\ status (handler host OpenAI {[ "input" := JNum (5 # 1) ]}
                            (boot [])).1 = 500)
  /\ g_text (call_of host Native {[ "text" := JArr [JStr "a"; JNum 1] ]} [])
     = JArr [JStr "a"; JNum 1].
Proof.
  split.
  - apply (proj1 (synthesis_text_not_a_string host OpenAI
                    {[ "input" := JNum (5 # 1) ]} (boot [])) (5 # 1));
      reflexivity.
  - apply (proj2 (proj2 (synthesis_text_not_a_string host Native
                           {[ "text" := JArr [JStr "a"; JNum 1] ]}
                           (set_model (Some (mkHandle 0 24000)) (boot []))))
             [JStr "a"; JNum 1] (mkHandle 0 24000));
      [reflexivity|discriminate|cbn; lia|reflexivity].
Defined.

(** X11. What a handler reads of a request.  The OpenAI-compatible handler
    depends on [input], [voice] and [response_format] only: [model] and
    [speed] are read and never used, so two requests that agree on the three
    fields get the same answer and leave the same world.  The native handler
    depends on [input], [text], [voice], [exaggeration] and [cfg_weight]
    only. *)
Theorem synthesis_reads_only_its_fields (E : Env)
    (request request' : gmap string json) (w : world) :
  (request !! "input" = request' !! "input" ->
   request !! "voice" = request' !! "voice" ->
   request !! "response_format" = request' !! "response_format" ->
   openai_compatible_synthesize E request w
   = openai_compatible_synthesize E request' w)
  /\ (request !! "input" = request' !! "input" ->
      request !! "text" = request' !! "text" ->
      request !! "voice" = request' !! "voice" ->
      request !! "exaggeration" = request' !! "exaggeration" ->
      request !! "cfg_weight" = request' !! "cfg_weight" ->
      synthesize E request w = synthesize E request' w).
Proof.
  split.
  - intros I V F. unfold openai_compatible_synthesize, dict_get, dict_get_or.
    rewrite I, V, F. reflexivity.
  - intros I T V X C. unfold synthesize, dict_get, dict_get_or.
    rewrite I, T, V, X, C. reflexivity.
Qed.

Lemma synthesis_reads_only_its_fields_witness :
  openai_compatible_synthesize host
    {[ "input" := JStr "hi"; "speed" := JNum (2 # 1); "model" := JStr "tts-1" ]}
    (boot [])
  = openai_compatible_synthesize host {[ "input" := JStr "hi" ]} (boot [])
  /\ synthesize host {[ "text" := JStr "hi"; "speed" := JNum (2 # 1) ]} (boot [])
     = synthesize host {[ "text" := JStr "hi" ]} (boot []).
Proof.
  split.
  - apply (proj1 (synthesis_reads_only_its_fields host
                    {[ "input" := JStr "hi"; "speed" := JNum (2 # 1);
                       "model" := JStr "tts-1" ]}
                    {[ "input" := JStr "hi" ]} (boot []))); reflexivity.
  - apply (proj2 (synthesis_reads_only_its_fields host
                    {[ "text" := JStr "hi"; "speed" := JNum (2 # 1) ]}
                    {[ "text" := JStr "hi" ]} (boot []))); reflexivity.
Defined.

Lemma rejects_detail (nt nt' : string) (text : json) :
  rejects nt text = None <-> rejects nt' text = None.
Proof.
  unfold rejects. destruct (truthy text); cbn [negb]; [|split; discriminate].
  destruct text; try (split; discriminate); reflexivity.
Qed.

(** X12. How the OpenAI-compatible handler encodes what the engine gave.
    For [mp3] it tries MP3 and, when that encode raises, WAV; [aac] is
    encoded as WAV without trying AAC, as is every format it does not know;
    for [opus] (encoded as OGG) and [flac] there is no second try: an
    encoder that raises makes the request a 500 with the encoder's
    message. *)
Theorem openai_encoding (E : Env) (request : gmap string json) (w : world)
    (h : handle) (s : string) (wav : tensor) :
  model w = Some h ->
  text_of OpenAI request = JStr s -> s <> "" -> String.length s <= 4096 ->
  generate E h (call_of E OpenAI request (fs w)) = inl wav ->
  let r := (openai_compatible_synthesize E request w).1 in
  let save fmt := ta_save E fmt wav (sr h) in
  let ok body mt :=
    Return {| body := body; media_type := mt; headers := [] |} in
  let once fmt mt :=
    match save fmt with
    | inl b => ok b mt
    | inr msg => Raise (HTTPException 500 msg)
    end in
  if eq_str (format_of request) "mp3" then
    r = match save "mp3" with
        | inl b => ok b "audio/mpeg"
        | inr _ => once "wav" "audio/wav"
        end
  else if eq_str (format_of request) "opus" then r = once "ogg" "audio/ogg"
  else if eq_str (format_of request) "aac" then r = once "wav" "audio/wav"
  else if eq_str (format_of request) "flac" then r = once "flac" "audio/flac"
  else r = once "wav" "audio/wav".
Proof.
  intros M Hs Ne L G. cbv zeta.
  assert (R : rejects (no_text OpenAI) (text_of OpenAI request) = None).
  { rewrite Hs, rejects_str by exact Ne.
    destruct (Z.ltb_spec 4096 (Z.of_nat (String.length s))); [lia|reflexivity]. }
  destruct (handler_served E OpenAI request w w h R (get_model_loaded E w h M))
    as (O & _). cbn [handler] in O. rewrite O.
  unfold answer, openai_answer, generated. rewrite G.
  unfold encoding, encode_plan.
  destruct (eq_str (format_of request) "mp3"); cbn [fst snd].
  { destruct (ta_save E "mp3" wav (sr h)); [reflexivity|].
    destruct (ta_save E "wav" wav (sr h)); reflexivity. }
  destruct (eq_str (format_of request) "opus"); cbn [fst snd].
  { destruct (ta_save E "ogg" wav (sr h)); reflexivity. }
  destruct (eq_str (format_of request) "aac"); cbn [fst snd].
  { destruct (ta_save E "wav" wav (sr h)); reflexivity. }
  destruct (eq_str (format_of request) "flac"); cbn [fst snd].
  { destruct (ta_save E "flac" wav (sr h)); reflexivity. }
  destruct (ta_save E "wav" wav (sr h)); reflexivity.
Qed.

Lemma openai_encoding_witness :
  let w := set_model (Some (mkHandle 0 24000)) (boot []) in
  (openai_compatible_synthesize wav_only_host
     {[ "input" := JStr "hi"; "response_format" := JStr "flac" ]} w).1
  = Raise (HTTPException 500 "Unsupported format: flac")
  /\ (openai_compatible_synthesize wav_only_host {[ "input" := JStr "hi" ]} w).1
     = Return {| body := "RIFF"; media_type := "audio/wav"; headers := [] |}.
Proof.
  split.
  - exact (openai_encoding wav_only_host
             {[ "input" := JStr "hi"; "response_format" := JStr "flac" ]}
             (set_model (Some (mkHandle 0 24000)) (boot []))
             (mkHandle 0 24000) "hi" [[1 # 2]] eq_refl eq_refl
             ltac:(discriminate) ltac:(cbn; lia) eq_refl).
  - exact (openai_encoding wav_only_host {[ "input" := JStr "hi" ]}
             (set_model (Some (mkHandle 0 24000)) (boot []))
             (mkHandle 0 24000) "hi" [[1 # 2]] eq_refl eq_refl
             ltac:(discriminate) ltac:(cbn; lia) eq_refl).
Defined.





(** X14. The two surfaces, for one text and one voice in one state.  They
    turn away the same texts, leave the same model and the same store,
    resolve the voice with the same file-system calls and load the model as
    often; they call [generate] as often, with the same text and the same
    reference.  They differ in the tuning: the native handler passes
    [exaggeration] and [cfg_weight] of the request (0.5 where the request
    has none), the OpenAI-compatible handler passes neither and leaves them
    to the engine. *)
Theorem surfaces_differ_in_tuning (E : Env)
    (native openai : gmap string json) (w : world) :
  text_of Native native = text_of OpenAI openai ->
  voice_of native = voice_of openai ->
  let rn := handler E Native native w in
  let ro := handler E OpenAI openai w in
  (status rn.1 = 400 <-> status ro.1 = 400)
  /\ model rn.2 = model ro.2 /\ fs rn.2 = fs ro.2
  /\ fs_ops (trace rn.2) = fs_ops (trace ro.2)
  /\ loads rn.2 = loads ro.2
  /\ List.map untuned (gen_calls (trace rn.2))
     = List.map untuned (gen_calls (trace ro.2))
  /\ (gen_calls (trace rn.2) = gen_calls (trace w)
      /\ gen_calls (trace ro.2) = gen_calls (trace w)
      \/ exists cn co,
           gen_calls (trace rn.2) = gen_calls (trace w) ++ [cn]
           /\ gen_calls (trace ro.2) = gen_calls (trace w) ++ [co]
           /\ g_exaggeration cn
              = Some (dict_get_or native "exaggeration" (JNum (1 # 2)))
           /\ g_cfg_weight cn
              = Some (dict_get_or native "cfg_weight" (JNum (1 # 2)))
           /\ g_exaggeration co = None /\ g_cfg_weight co = None).
Proof.
  intros T V. cbv zeta.
  pose proof (handler_view E Native native w) as Vn.
  pose proof (handler_view E OpenAI openai w) as Vo.
  pose proof (rejects_detail (no_text Native) (no_text OpenAI)
                (text_of OpenAI openai)) as RD.
  rewrite T in Vn.
  destruct (rejects (no_text Native) (text_of OpenAI openai)) as [en|] eqn:Rn.
  { destruct (rejects (no_text OpenAI) (text_of OpenAI openai)) as [eo|] eqn:Ro;
      [|destruct RD as [_ RD]; specialize (RD eq_refl); discriminate].
    rewrite Vn, Vo. cbn [fst snd].
    split; [|repeat split; auto].
    unfold rejects in Rn, Ro.
    destruct (truthy (text_of OpenAI openai)); cbn [negb] in *.
    - destruct (text_of OpenAI openai); try (injection Rn as <-; injection Ro as <-; reflexivity).
      all: match type of Rn with
           | context [(4096 <? ?n)%Z] => destruct (4096 <? n)%Z
           end; try discriminate;
        injection Rn as <-; injection Ro as <-; reflexivity.
    - injection Rn as <-; injection Ro as <-. reflexivity. }
  assert (Ro : rejects (no_text OpenAI) (text_of OpenAI openai) = None)
    by (apply RD; reflexivity).
  rewrite Ro in Vo. clear RD.
  assert (Rn' : rejects (no_text Native) (text_of Native native) = None)
    by (rewrite T; exact Rn).
  destruct Vn as [On _], Vo as [Oo _].
  destruct (get_model E w) as [[h|e] w1] eqn:G.
  - destruct (handler_served E Native native w w1 h Rn' G)
      as (_ & _ & Cn & Fn & Mn & Sn & Ln).
    destruct (handler_served E OpenAI openai w w1 h Ro G)
      as (_ & _ & Co & Fo & Mo & So & Lo).
    split.
    { rewrite On, Oo.
      destruct (status_answer E Native native (synthesis E Native native w).1)
        as [-> | ->],
        (status_answer E OpenAI openai (synthesis E OpenAI openai w).1)
        as [-> | ->]; split; discriminate. }
    rewrite Mn, Mo, Sn, So, Fn, Fo, Ln, Lo, Cn, Co, V.
    repeat split; try reflexivity.
    + rewrite !List.map_app. f_equal. unfold call_of. rewrite T, ?V.
      reflexivity.
    + right. eexists; eexists. split; [reflexivity|]. split; [reflexivity|].
      repeat split.
  - destruct (handler_unserved E Native native w w1 e Rn' G)
      as [On' [Amn Afn Aon Aen]].
    destruct (handler_unserved E OpenAI openai w w1 e Ro G)
      as [Oo' [Amo Afo Aoo Aeo]].
    pose proof (get_model_leaves E w) as (_ & _ & C). rewrite G in C.
    cbn [snd] in C.
    assert (Gn : gen_calls (trace (handler E Native native w).2)
                 = gen_calls (trace w))
      by (rewrite <- gen_calls_engine, <- Aen, gen_calls_engine; exact C).
    assert (Go : gen_calls (trace (handler E OpenAI openai w).2)
                 = gen_calls (trace w))
      by (rewrite <- gen_calls_engine, <- Aeo, gen_calls_engine; exact C).
    rewrite On', Oo', Gn, Go.
    split; [split; discriminate|].
    repeat split; try congruence.
    + rewrite <- (loads_engine _ _ Aen), <- (loads_engine _ _ Aeo). reflexivity.
    + left. split; reflexivity.
Qed.

Lemma surfaces_differ_in_tuning_witness :
  let w := boot [] in
  let native := {[ "text" := JStr "hi"; "exaggeration" := JNum (9 # 10) ]} in
  let openai := {[ "input" := JStr "hi"; "exaggeration" := JNum (9 # 10) ]} in
  gen_calls (trace (handler host Native native w).2)
  = [{| g_text := JStr "hi"; g_audio_prompt_path := None;
        g_exaggeration := Some (JNum (9 # 10));
        g_cfg_weight := Some (JNum (1 # 2)) |}]
  /\ gen_calls (trace (handler host OpenAI openai w).2)
     = [{| g_text := JStr "hi"; g_audio_prompt_path := None;
           g_exaggeration := None; g_cfg_weight := None |}]
  /\ List.map untuned (gen_calls (trace (handler host Native native w).2))
     = List.map untuned (gen_calls (trace (handler host OpenAI openai w).2)).
Proof.
  split; [reflexivity|]. split; [reflexivity|].
  apply (surfaces_differ_in_tuning host
           ({[ "text" := JStr "hi"; "exaggeration" := JNum (9 # 10) ]}
            : gmap string json)
           ({[ "input" := JStr "hi"; "exaggeration" := JNum (9 # 10) ]}
            : gmap string json)
           (boot [])); vm_compute; reflexivity.
Defined.

(** X15. A synthesis request is what loads a model that is not loaded.
    When that load raises, the request is answered with a 500 whose detail
    is the message of the load, the engine is not called and no voice is
    looked up, the model stays unloaded, and the next request starts the
    load again. *)
Theorem synthesis_load_failure (E : Env) (sf : surface)
    (request next : gmap string json) (w : world) (s msg : string) :
  text_of sf request = JStr s -> s <> "" -> String.length s <= 4096 ->
  rejects (no_text sf) (text_of sf next) = None ->
  model w = None ->
  from_pretrained E (loads w) (chosen_device E) = inr msg ->
  let r := handler E sf request w in
  r.1 = Raise (HTTPException 500 msg)
  /\ model r.2 = None /\ fs r.2 = fs w
  /\ loads r.2 = S (loads w)
  /\ gen_calls (trace r.2) = gen_calls (trace w)
  /\ fs_ops (trace r.2) = fs_ops (trace w)
  /\ loads (handler E sf next r.2).2 = S (S (loads w)).
Proof.
  intros Hs Ne L Rn M F. cbv zeta.
  assert (R : rejects (no_text sf) (text_of sf request) = None).
  { rewrite Hs, rejects_str by exact Ne.
    destruct (Z.ltb_spec 4096 (Z.of_nat (String.length s))); [lia|reflexivity]. }
  destruct (handler_unserved E sf request w _ _ R (get_model_raises E w msg M F))
    as [O [Am Af Ao Ae]].
  unfold after_failed_load in Am, Af, Ao. cbn [model fs trace] in Am, Af, Ao.
  assert (Lo : loads (handler E sf request w).2 = S (loads w)).
  { rewrite <- (loads_engine (after_failed_load E w) _ Ae).
    apply loads_after_failed_load. }
  split; [exact O|]. split; [rewrite <- Am; exact M|].
  split; [symmetry; exact Af|].
  split; [exact Lo|]. split.
  { rewrite <- gen_calls_engine, <- Ae, gen_calls_engine.
    unfold after_failed_load. cbn [trace]. rewrite gen_calls_app. cbn.
    apply app_nil_r. }
  split.
  { rewrite <- Ao, fs_ops_app. cbn. apply app_nil_r. }
  set (w' := (handler E sf request w).2) in *.
  assert (M' : model w' = None) by congruence.
  destruct (get_model E w') as [[h|e] w1] eqn:G.
  - destruct (handler_served E sf next w' w1 h Rn G)
      as (_ & _ & _ & _ & _ & _ & Ln). rewrite M' in Ln.
    rewrite Ln, Lo. reflexivity.
  - destruct (handler_unserved E sf next w' w1 e Rn G) as [_ [_ _ _ Ae']].
    rewrite <- (loads_engine _ _ Ae').
    pose proof (get_model_retries E w' M') as Rt. rewrite G in Rt.
    cbn [snd] in Rt. rewrite Rt, Lo. reflexivity.
Qed.

Lemma synthesis_load_failure_witness :
  let request := {[ "input" := JStr "hi" ]} in
  let r := handler flaky_host OpenAI request (boot []) in
  (handler flaky_host OpenAI request r.2).1
  = Return {| body := "mp3"; media_type := "audio/mpeg"; headers := [] |}
  /\ r.1 = Raise (HTTPException 500 "out of memory")
  /\ model r.2 = None /\ fs r.2 = fs (boot [])
  /\ loads r.2 = 1
  /\ gen_calls (trace r.2) = gen_calls (trace (boot []))
  /\ fs_ops (trace r.2) = fs_ops (trace (boot []))
  /\ loads (handler flaky_host OpenAI request r.2).2 = 2.
Proof.
  split; [reflexivity|].
  exact (synthesis_load_failure flaky_host OpenAI {[ "input" := JStr "hi" ]}
           {[ "input" := JStr "hi" ]} (boot []) "hi" "out of memory"
           eq_refl ltac:(discriminate) ltac:(cbn; lia) eq_refl eq_refl eq_refl).
Defined.

Lemma join_dotdot (ps : list string) (x : string) :
  String.eqb (Str.join "/" (ps ++ [".."; x])) "" = false.
Proof.
  induction ps as [|p ps IH]; [reflexivity|].
  cbn [app Str.join]. destruct (ps ++ [".."; x]) as [|q qs] eqn:Q.
  { destruct ps; discriminate. }
  destruct p; reflexivity.
Qed.

Lemma str_dotdot (a : bool) (ps : list string) (x : string) :
  String.eqb (str (mkPath a (ps ++ [".."; x]))) "" = false.
Proof.
  unfold str. cbn [anchored parts]. destruct a; [reflexivity|].
  pose proof (join_dotdot ps x) as J.
  destruct (ps ++ [".."; x]); [reflexivity|exact J].
Qed.

(** X16. The synthesis handlers put the voice into the path as it is, too.
    For a voice [../<name>] with a file [<name>.wav] in the parent of the
    voice directory, the engine is called with that file as its reference:
    the path handed over is [<voice directory>/../<name>.wav]. *)
Theorem reference_outside_voice_dir (E : Env) (sf : surface)
    (request : gmap string json) (w : world) (h : handle) (s n : string) :
  model w = Some h ->
  text_of sf request = JStr s -> s <> "" -> String.length s <= 4096 ->
  voice_of request = JStr ("../" +:+ n) ->
  Str.mem "/" n = false ->
  fs_exists (fs w)
    (removelast (locate (cwd E) (voices_dir E)) ++ [n +:+ ".wav"]) = true ->
  exists c,
    gen_calls (trace (handler E sf request w).2) = gen_calls (trace w) ++ [c]
    /\ g_audio_prompt_path c
       = Some (str (mkPath (anchored (voices_dir E))
                      (parts (voices_dir E) ++ [".."; n +:+ ".wav"]))).
Proof.
  intros M Hs Ne L V Hn X.
  assert (R : rejects (no_text sf) (text_of sf request) = None).
  { rewrite Hs, rejects_str by exact Ne.
    destruct (Z.ltb_spec 4096 (Z.of_nat (String.length s))); [lia|reflexivity]. }
  destruct (handler_served E sf request w w h R (get_model_loaded E w h M))
    as (_ & _ & C & _).
  eexists. split; [exact C|].
  destruct (candidate_parent E n ".wav" Hn eq_refl) as [Cl Cs]; [cbn; lia|].
  unfold call_of, gen_args, prompt_of. rewrite V. cbn [eq_str py_format].
  replace (String.eqb ("../" +:+ n) "default") with false by reflexivity.
  rewrite Cl, X, Cs. cbn [g_audio_prompt_path truthy_opt].
  rewrite str_dotdot. reflexivity.
Qed.

Lemma reference_outside_voice_dir_witness :
  let w := set_model (Some (mkHandle 0 24000))
             (boot [(["srv"; "secrets.wav"], silence)]) in
  let request := {[ "input" := JStr "hi"; "voice" := JStr "../secrets" ]} in
  gen_calls (trace (handler host OpenAI request w).2)
  = [{| g_text := JStr "hi";
        g_audio_prompt_path := Some "/srv/voices/../secrets.wav";
        g_exaggeration := None; g_cfg_weight := None |}]
  /\ exists c,
      gen_calls (trace (handler host OpenAI request w).2)
      = gen_calls (trace w) ++ [c]
      /\ g_audio_prompt_path c
         = Some (str (mkPath (anchored (voices_dir host))
                        (parts (voices_dir host) ++ [".."; "secrets.wav"]))).
Proof.
  split; [reflexivity|].
  exact (reference_outside_voice_dir host OpenAI
           {[ "input" := JStr "hi"; "voice" := JStr "../secrets" ]}
           (set_model (Some (mkHandle 0 24000))
              (boot [(["srv"; "secrets.wav"], silence)]))
           (mkHandle 0 24000) "hi" "secrets" eq_refl eq_refl
           ltac:(discriminate) ltac:(cbn; lia) eq_refl eq_refl eq_refl).
Defined.

(** ** The Coqui server *)

Section CoquiPhases.

Variable E : Coqui.Env.
Variable N : Coqui.Engine.

Lemma coqui_log_run (lv : Coqui.level) (msg : string) (w : Coqui.world) :
  Coqui.log lv msg w = (Return tt, coqui_note lv msg w).
Proof. reflexivity. Qed.

Lemma lift_run {S A} (r : result A) (s : S) :
  lift_result r s
  = (match r with inl a => Return a | inr msg => Raise (Exception msg) end, s).
Proof. destruct r; reflexivity. Qed.

Lemma to_pcm_run (wav : Coqui.wave N) (w : Coqui.world) :
  Coqui.to_pcm N wav w
  = (match coqui_pcm N wav with
     | inl samples => Return samples
     | inr msg => Raise (Exception msg)
     end, w).
Proof.
  unfold Coqui.to_pcm, coqui_pcm, coqui_scaled, lift_result, mbind, M_bind,
    mret, M_ret, raise.
  destruct (Coqui.np_array N wav) as [a|msg]; [|reflexivity].
  destruct (Coqui.np_max N a) as [hi|msg]; [|reflexivity].
  destruct (Coqui.gt_one N hi), (Coqui.np_min N a) as [lo|msg];
    try reflexivity.
  destruct (Coqui.lt_minus_one N lo); reflexivity.
Qed.

(** The [try] body of a Coqui handler after the model is there. *)
Ltac coqui_body :=
  rewrite try_run, bind_run; unfold coqui_run;
  match goal with
  | |- context [Coqui.get_model ?E ?w] =>
      destruct (Coqui.get_model E w) as [[h|e] w1]
  end;
  cbv beta iota zeta;
  [ rewrite bind_run, coqui_log_run; cbv beta iota;
    rewrite bind_run, lift_run; unfold coqui_rendered;
    match goal with
    | |- context [Coqui.tts ?N ?h ?t ?s ?l] => destruct (Coqui.tts N h t s l)
    end; cbv beta iota; [|reflexivity];
    rewrite bind_run, to_pcm_run;
    match goal with
    | |- context [coqui_pcm ?N ?x] => destruct (coqui_pcm N x)
    end; cbv beta iota; [|reflexivity];
    rewrite bind_run; unfold gets at 1; cbv beta iota;
    rewrite bind_run, lift_run;
    cbn [coqui_note Coqui.sample_rate];
    match goal with
    | |- context [Coqui.wavfile_write ?N ?r ?p] =>
        destruct (Coqui.wavfile_write N r p)
    end; reflexivity
  | reflexivity ].

Lemma coqui_synthesize_run (request : gmap string json) (w : Coqui.world) :
  Coqui.synthesize E N request w
  = coqui_run E N "No text provided" (coqui_native_logline N request)
      "Synthesis error: "
      [("Content-Disposition", "inline; filename=speech.wav")]
      (text_of Native request) (voice_of request) w.
Proof.
  unfold Coqui.synthesize, coqui_run, rejects, text_of, voice_of,
    coqui_native_logline.
  destruct (truthy (py_or (dict_get request "input") (dict_get request "text")));
    cbn [negb]; [|reflexivity].
  rewrite bind_run.
  destruct (py_or (dict_get request "input") (dict_get request "text")) eqn:T;
    try reflexivity.
  all: cbn [Coqui.py_len]; rewrite ret_run; cbv beta iota.
  all: match goal with
       | |- context [(4096 <? ?n)%Z] => destruct (4096 <? n)%Z
       end; [reflexivity|].
  all: coqui_body.
Qed.

Lemma coqui_openai_run (request : gmap string json) (w : Coqui.world) :
  Coqui.openai_compatible_synthesize E N request w
  = coqui_run E N "No input text provided" (coqui_openai_logline N request)
      "OpenAI-compatible synthesis error: " []
      (text_of OpenAI request) (voice_of request) w.
Proof.
  unfold Coqui.openai_compatible_synthesize, coqui_run, rejects, text_of,
    voice_of, coqui_openai_logline.
  destruct (truthy (dict_get request "input")); cbn [negb]; [|reflexivity].
  rewrite bind_run.
  destruct (dict_get request "input") eqn:T; try reflexivity.
  all: cbn [Coqui.py_len]; rewrite ret_run; cbv beta iota.
  all: match goal with
       | |- context [(4096 <? ?n)%Z] => destruct (4096 <? n)%Z
       end; [reflexivity|].
  all: coqui_body.
Qed.

End CoquiPhases.

Ltac coqui_unfold :=
  unfold Coqui.get_model, Coqui.get_device, Coqui.emit, Coqui.log; mrun.

Lemma coqui_failed_move (E : Coqui.Env) (w : Coqui.world) (h : handle)
    (msg : string) :
  Coqui.model w = None ->
  Coqui.TTS E (Coqui.loads w) (Coqui.COQUI_MODEL E) = inl h ->
  Coqui.chosen_device E = "cuda" ->
  Coqui.to E h "cuda" = inr msg ->
  exists w1, Coqui.get_model E w = (Raise (Exception msg), w1)
             /\ Coqui.model w1 = Some h
             /\ Coqui.sample_rate w1 = Coqui.sample_rate w
             /\ Coqui.loads w1 = S (Coqui.loads w).
Proof.
  intros M L D T. coqui_unfold. rewrite M. cbn.
  change (length (List.filter Coqui.is_load (Coqui.trace w)))
    with (Coqui.loads w).
  rewrite L. cbn. rewrite D. cbn. rewrite T. cbn.
  eexists. split; [reflexivity|]. cbn. repeat split.
  unfold Coqui.loads. rewrite !List.filter_app, !length_app. cbn. lia.
Qed.

(** X17. A Coqui load whose move to CUDA raises.  [model] is assigned
    before the move, so the exception reaches the caller while the model
    stays set, on the device it was built on; the sample rate is not read
    off the model.  The next call finds the model and returns it: the move
    is not tried again. *)
Theorem coqui_failed_move_keeps_model (E : Coqui.Env) (w : Coqui.world)
    (h : handle) (msg : string) :
  Coqui.model w = None ->
  Coqui.TTS E (Coqui.loads w) (Coqui.COQUI_MODEL E) = inl h ->
  Coqui.chosen_device E = "cuda" ->
  Coqui.to E h "cuda" = inr msg ->
  let r := Coqui.get_model E w in
  r.1 = Raise (Exception msg)
  /\ Coqui.model r.2 = Some h
  /\ Coqui.sample_rate r.2 = Coqui.sample_rate w
  /\ Coqui.loads r.2 = S (Coqui.loads w)
  /\ Coqui.get_model E r.2 = (Return h, r.2).
Proof.
  intros M L D T. cbv zeta.
  destruct (coqui_failed_move E w h msg M L D T) as (w1 & -> & M1 & S1 & L1).
  cbn [fst snd]. repeat split; try assumption.
  apply coqui_get_model_loaded. exact M1.
Qed.

Lemma coqui_failed_move_keeps_model_witness :
  let r := Coqui.get_model coqui_full_gpu Coqui.boot in
  r.1 = Raise (Exception "CUDA out of memory")
  /\ Coqui.model r.2 = Some (mkHandle 0 48000)
  /\ Coqui.sample_rate r.2 = Coqui.sample_rate Coqui.boot
  /\ Coqui.loads r.2 = 1
  /\ Coqui.get_model coqui_full_gpu r.2 = (Return (mkHandle 0 48000), r.2).
Proof.
  exact (coqui_failed_move_keeps_model coqui_full_gpu Coqui.boot
           (mkHandle 0 48000) "CUDA out of memory"
           eq_refl eq_refl eq_refl eq_refl).
Defined.

(** X18. The Coqui model is moved only when the chosen device is exactly
    ["cuda"].  On [auto] the choice is ["cuda"] or ["cpu"], never ["mps"];
    a configured device other than [auto] is taken as it is, and unless it
    is ["cuda"] (so for ["cuda:0"] or ["mps"]) the model is built and left
    where it is, while the global [device] names the configured one. *)
Theorem coqui_only_cuda_is_moved (E : Coqui.Env) (w : Coqui.world) (h : handle) :
  (Coqui.COQUI_DEVICE E = "auto" ->
   Coqui.chosen_device E
   = if Coqui.cuda_is_available E then "cuda" else "cpu")
  /\ (Coqui.COQUI_DEVICE E <> "auto" -> Coqui.COQUI_DEVICE E <> "cuda" ->
      Coqui.model w = None ->
      Coqui.TTS E (Coqui.loads w) (Coqui.COQUI_MODEL E) = inl h ->
      let r := Coqui.get_model E w in
      r.1 = Return h
      /\ Coqui.trace r.2 = Coqui.trace w ++ [Coqui.EvTTS (Coqui.COQUI_MODEL E)]
      /\ coqui_moves (Coqui.trace r.2) = coqui_moves (Coqui.trace w)
      /\ Coqui.device r.2 = Coqui.COQUI_DEVICE E
      /\ Coqui.model r.2 = Some h).
Proof.
  split.
  - intros A. unfold Coqui.chosen_device. rewrite A. cbn.
    destruct (Coqui.cuda_is_available E), (Coqui.mps_is_available E);
      reflexivity.
  - intros A C M L. cbv zeta.
    assert (D : Coqui.chosen_device E = Coqui.COQUI_DEVICE E).
    { unfold Coqui.chosen_device.
      destruct (String.eqb_spec (Coqui.COQUI_DEVICE E) "auto"); congruence. }
    coqui_unfold. rewrite M. cbn.
    change (length (List.filter Coqui.is_load (Coqui.trace w)))
      with (Coqui.loads w).
    rewrite L. cbn. rewrite D.
    destruct (String.eqb_spec (Coqui.COQUI_DEVICE E) "cuda"); [congruence|].
    cbn. repeat split. unfold coqui_moves. rewrite List.filter_app. cbn.
    apply app_nil_r.
Qed.

Lemma coqui_only_cuda_is_moved_witness :
  let r := Coqui.get_model coqui_cuda0 Coqui.boot in
  r.1 = Return (mkHandle 0 48000)
  /\ Coqui.trace r.2
     = Coqui.trace Coqui.boot ++ [Coqui.EvTTS (Coqui.COQUI_MODEL coqui_cuda0)]
  /\ coqui_moves (Coqui.trace r.2) = coqui_moves (Coqui.trace Coqui.boot)
  /\ Coqui.device r.2 = Coqui.COQUI_DEVICE coqui_cuda0
  /\ Coqui.model r.2 = Some (mkHandle 0 48000).
Proof.
  apply (proj2 (coqui_only_cuda_is_moved coqui_cuda0 Coqui.boot
                  (mkHandle 0 48000)));
    [discriminate|discriminate|reflexivity|reflexivity].
Defined.

(** X19. The Coqui [startup_event] never raises, whatever the load does.
    Afterwards [GET /health], which changes nothing, reports the chosen
    device, and the model as loaded exactly when its construction returned:
    also when the move to CUDA raised and the startup logged that the model
    could not be pre-loaded. *)
Theorem coqui_health_after_startup (E : Coqui.Env) :
  let up := Coqui.startup_event E Coqui.boot in
  up.1 = Return tt
  /\ (Coqui.health E up.2).2 = up.2
  /\ exists report,
       (Coqui.health E up.2).1 = Return report
       /\ Coqui.h_status report = "healthy"
       /\ Coqui.h_device report = Coqui.chosen_device E
       /\ Coqui.model_loaded report
          = match Coqui.TTS E 0 (Coqui.COQUI_MODEL E) with
            | inl _ => true
            | inr _ => false
            end.
Proof.
  cbv zeta. unfold Coqui.startup_event, Coqui.health. coqui_unfold.
  destruct (Coqui.TTS E 0 (Coqui.COQUI_MODEL E)) as [h|msg]; cbn.
  - destruct (String.eqb (Coqui.chosen_device E) "cuda"); cbn.
    + destruct (Coqui.to E h (Coqui.chosen_device E)); cbn;
        (split; [reflexivity|]); (split; [reflexivity|]);
        eexists; (split; [reflexivity|]); repeat split.
    + split; [reflexivity|]. split; [reflexivity|].
      eexists. split; [reflexivity|]. repeat split.
  - split; [reflexivity|]. split; [reflexivity|].
    eexists. split; [reflexivity|]. repeat split.
Qed.

Lemma rejects_truthy (nt nt' : string) (text : json) :
  truthy text = true -> rejects nt text = rejects nt' text.
Proof. intros T. unfold rejects. rewrite T. reflexivity. Qed.

(** X20. Validation in the Coqui handlers is the one of the Chatterbox
    handlers: a missing or empty text, or a string of more than 4096
    characters, is turned away with 400 and the world as it was, before the
    model is looked at; a non-empty string of at most 4096 characters is
    never answered with 400. *)
Theorem coqui_validation (E : Coqui.Env) (N : Coqui.Engine)
    (request : gmap string json) (w : Coqui.world) :
  (truthy (text_of Native request) = false ->
   Coqui.synthesize E N request w
   = (Raise (HTTPException 400 "No text provided"), w))
  /\ (truthy (text_of OpenAI request) = false ->
      Coqui.openai_compatible_synthesize E N request w
      = (Raise (HTTPException 400 "No input text provided"), w))
  /\ (forall s, 4096 < String.length s ->
      (text_of Native request = JStr s ->
       Coqui.synthesize E N request w
       = (Raise (HTTPException 400 "Text too long (max 4096 characters)"), w))
      /\ (text_of OpenAI request = JStr s ->
          Coqui.openai_compatible_synthesize E N request w
          = (Raise (HTTPException 400 "Text too long (max 4096 characters)"),
             w)))
  /\ (forall s, s <> "" -> String.length s <= 4096 ->
      (text_of Native request = JStr s ->
       status (Coqui.synthesize E N request w).1 <> 400)
      /\ (text_of OpenAI request = JStr s ->
          status (Coqui.openai_compatible_synthesize E N request w).1 <> 400)).
Proof.
  rewrite coqui_synthesize_run, coqui_openai_run. unfold coqui_run.
  split; [|split; [|split]].
  - intros T. rewrite (rejects_falsy _ _ T). reflexivity.
  - intros T. rewrite (rejects_falsy _ _ T). reflexivity.
  - intros s L. split; intros ->;
      (rewrite rejects_str by (intros ->; cbn in L; lia));
      (destruct (Z.ltb_spec 4096 (Z.of_nat (String.length s))); [reflexivity|lia]).
  - intros s Ne L. split; intros ->; rewrite rejects_str by exact Ne;
      (destruct (Z.ltb_spec 4096 (Z.of_nat (String.length s))); [lia|]);
      (destruct (Coqui.get_model E w) as [[h|e] w1]; [|discriminate]);
      cbv zeta; destruct (coqui_rendered N h _ _ _); discriminate.
Qed.

Lemma coqui_validation_witness :
  Coqui.openai_compatible_synthesize coqui_host coqui_engine
    {[ "text" := JStr "hi" ]} Coqui.boot
  = (Raise (HTTPException 400 "No input text provided"), Coqui.boot)
  /\ Coqui.synthesize coqui_host coqui_engine
       {[ "input" := JStr (Str.replicate "a" 4097) ]} Coqui.boot
     = (Raise (HTTPException 400 "Text too long (max 4096 characters)"),
        Coqui.boot)
  /\ status (Coqui.synthesize coqui_host coqui_engine
               {[ "text" := JStr (Str.replicate "a" 4096) ]} Coqui.boot).1
     <> 400.
Proof.
  pose proof (coqui_validation coqui_host coqui_engine) as V.
  split; [|split].
  - apply (proj1 (proj2 (V {[ "text" := JStr "hi" ]} Coqui.boot))).
    reflexivity.
  - refine (proj1 (proj1 (proj2 (proj2 (V {[ "input" :=
                                             JStr (Str.replicate "a" 4097) ]}
                                          Coqui.boot)))
                     (Str.replicate "a" 4097) _) _);
      [apply Nat.ltb_lt; vm_compute; reflexivity|vm_compute; reflexivity].
  - refine (proj1 (proj2 (proj2 (proj2 (V {[ "text" :=
                                             JStr (Str.replicate "a" 4096) ]}
                                          Coqui.boot)))
                     (Str.replicate "a" 4096) _ _) _);
      [discriminate|apply Nat.leb_le; vm_compute; reflexivity
      |vm_compute; reflexivity].
Defined.

(** Two runs of a Coqui handler on one text and one voice. *)
Lemma coqui_run_agree (E : Coqui.Env) (N : Coqui.Engine)
    (nt nt' l l' what what' : string) (hdrs hdrs' : list (string * string))
    (text voice : json) (w : Coqui.world) :
  truthy text = true ->
  let r := coqui_run E N nt l what hdrs text voice w in
  let r' := coqui_run E N nt' l' what' hdrs' text voice w in
  coqui_same r.2 r'.2
  /\ match r.1, r'.1 with
     | Return a, Return b =>
         body a = body b /\ media_type a = "audio/wav"
         /\ media_type b = "audio/wav"
         /\ headers a = hdrs /\ headers b = hdrs'
     | Raise e, Raise e' => e = e'
     | _, _ => False
     end.
Proof.
  intros T. cbv zeta. unfold coqui_run. rewrite (rejects_truthy nt nt' text T).
  destruct (rejects nt' text); [repeat split|].
  destruct (Coqui.get_model E w) as [[h|e] w1]; [|repeat split].
  cbv zeta. destruct (coqui_rendered N h text voice _); repeat split.
Qed.

(** X21. The two Coqui surfaces do the same.  For one text under [input]
    and one voice, [POST /synthesize] and [POST /v1/audio/speech] leave the
    same model, device, sample rate and history, and answer alike: the same
    WAV bytes as [audio/wav], or the same error.  Only the headers differ
    (the native answer has a [Content-Disposition]) and the log lines. *)
Theorem coqui_surfaces_agree (E : Coqui.Env) (N : Coqui.Engine)
    (native openai : gmap string json) (w : Coqui.world) :
  dict_get native "input" = dict_get openai "input" ->
  truthy (dict_get openai "input") = true ->
  voice_of native = voice_of openai ->
  let rn := Coqui.synthesize E N native w in
  let ro := Coqui.openai_compatible_synthesize E N openai w in
  coqui_same rn.2 ro.2
  /\ match rn.1, ro.1 with
     | Return a, Return b =>
         body a = body b /\ media_type a = "audio/wav"
         /\ media_type b = "audio/wav"
         /\ headers a = [("Content-Disposition", "inline; filename=speech.wav")]
         /\ headers b = []
     | Raise e, Raise e' => e = e'
     | _, _ => False
     end.
Proof.
  intros I T V. cbv zeta. rewrite coqui_synthesize_run, coqui_openai_run.
  assert (Tx : text_of Native native = text_of OpenAI openai).
  { unfold text_of, py_or. rewrite I, T. reflexivity. }
  rewrite Tx, V. apply coqui_run_agree. exact T.
Qed.

Lemma coqui_surfaces_agree_witness :
  let w := Coqui.boot in
  let request := {[ "input" := JStr "hello" ]} in
  (Coqui.synthesize coqui_host coqui_engine request w).1
  = Return {| body := "RIFF 48000"; media_type := "audio/wav";
              headers := [("Content-Disposition",
                           "inline; filename=speech.wav")] |}
  /\ coqui_same (Coqui.synthesize coqui_host coqui_engine request w).2
       (Coqui.openai_compatible_synthesize coqui_host coqui_engine request w).2.
Proof.
  split; [vm_compute; reflexivity|].
  apply (coqui_surfaces_agree coqui_host coqui_engine
           ({[ "input" := JStr "hello" ]} : gmap string json)
           ({[ "input" := JStr "hello" ]} : gmap string json) Coqui.boot);
    reflexivity.
Defined.

(** X22. What a Coqui answer depends on.  [speed] and [response_format]
    are read and go into the log only: the OpenAI-compatible answer is a WAV
    whatever format is asked for, and two requests with the same [input]
    and the same voice get the same answer.  With a model of one speaker the
    voice does not matter either. *)
Theorem coqui_answer_depends_on (E : Coqui.Env) (N : Coqui.Engine)
    (request request' : gmap string json) (w : Coqui.world) :
  (forall r, (Coqui.openai_compatible_synthesize E N request w).1 = Return r ->
             media_type r = "audio/wav" /\ headers r = [])
  /\ (request !! "input" = request' !! "input" ->
      request !! "voice" = request' !! "voice" ->
      (Coqui.openai_compatible_synthesize E N request w).1
      = (Coqui.openai_compatible_synthesize E N request' w).1
      /\ coqui_same (Coqui.openai_compatible_synthesize E N request w).2
           (Coqui.openai_compatible_synthesize E N request' w).2)
  /\ (forall h, Coqui.model w = Some h -> Coqui.is_multi_speaker N h = false ->
      request !! "input" = request' !! "input" ->
      (Coqui.openai_compatible_synthesize E N request w).1
      = (Coqui.openai_compatible_synthesize E N request' w).1).
Proof.
  rewrite !coqui_openai_run. unfold coqui_run.
  split; [|split].
  - intros r. destruct (rejects _ _); [discriminate|].
    destruct (Coqui.get_model E w) as [[h|e] w1]; [|discriminate].
    cbv zeta. destruct (coqui_rendered N h _ _ _); [|discriminate].
    intros [= <-]. split; reflexivity.
  - intros I V.
    assert (Tx : text_of OpenAI request = text_of OpenAI request')
      by (unfold text_of, dict_get; rewrite I; reflexivity).
    assert (Vx : voice_of request = voice_of request')
      by (unfold voice_of, dict_get_or; rewrite V; reflexivity).
    rewrite Tx, Vx. destruct (rejects _ _); [repeat split|].
    destruct (Coqui.get_model E w) as [[h|e] w1]; [|repeat split].
    cbv zeta. destruct (coqui_rendered N h _ _ _); repeat split.
  - intros h M S I.
    assert (Tx : text_of OpenAI request = text_of OpenAI request')
      by (unfold text_of, dict_get; rewrite I; reflexivity).
    rewrite Tx. destruct (rejects _ _); [reflexivity|].
    rewrite (coqui_get_model_loaded E w h M). cbv zeta.
    unfold coqui_rendered, Coqui.speaker_kw. rewrite S. cbn [andb].
    destruct (Coqui.tts N h _ None _); [|reflexivity].
    destruct (coqui_pcm N _); [|reflexivity].
    destruct (Coqui.wavfile_write N _ _); reflexivity.
Qed.

Lemma coqui_answer_depends_on_witness :
  (Coqui.openai_compatible_synthesize coqui_host coqui_engine
     {[ "input" := JStr "hello"; "response_format" := JStr "mp3";
        "speed" := JNum (2 # 1) ]} Coqui.boot).1
  = Return {| body := "RIFF 48000"; media_type := "audio/wav"; headers := [] |}
  /\ (Coqui.openai_compatible_synthesize coqui_host coqui_engine
        {[ "input" := JStr "hello"; "response_format" := JStr "mp3";
           "speed" := JNum (2 # 1) ]} Coqui.boot).1
     = (Coqui.openai_compatible_synthesize coqui_host coqui_engine
          {[ "input" := JStr "hello" ]} Coqui.boot).1.
Proof.
  split; [vm_compute; reflexivity|].
  apply (proj1 (proj2 (coqui_answer_depends_on coqui_host coqui_engine
                         ({[ "input" := JStr "hello";
                             "response_format" := JStr "mp3";
                             "speed" := JNum (2 # 1) ]} : gmap string json)
                         ({[ "input" := JStr "hello" ]} : gmap string json)
                         Coqui.boot))); reflexivity.
Defined.

Lemma id_speaker_voice (N : Coqui.Engine) (l : list string) :
  List.map Coqui.id (List.map (Coqui.speaker_voice N) l) = l.
Proof. rewrite List.map_map. cbn. apply List.map_id. Qed.

(** What the listing gives with the model there or loading. *)
Lemma coqui_list_voices_run (E : Coqui.Env) (N : Coqui.Engine)
    (w w1 : Coqui.world) (h : handle) :
  Coqui.get_model E w = (Return h, w1) ->
  let ids := match Coqui.is_multi_speaker N h, Coqui.speakers N h with
             | true, Some (s :: ss) => s :: ss
             | _, _ => ["default"]
             end in
  exists details,
    Coqui.list_voices E N w
    = (Return {| Coqui.voices := ids; Coqui.voice_details := details;
                 Coqui.v_is_multi_speaker := Coqui.is_multi_speaker N h |}, w1)
    /\ List.map Coqui.id details = ids
    /\ List.map Coqui.name details
       = match Coqui.is_multi_speaker N h, Coqui.speakers N h with
         | true, Some (s :: ss) =>
             List.map (fun speaker =>
                         Coqui.py_title N (Str.replace "_" " " speaker))
                      (s :: ss)
         | _, _ => ["Jenny"]
         end
    /\ Coqui.openai_compatible_list_voices E N w
       = (Return (List.map (fun v => (Coqui.id v, Coqui.name v,
                                       Coqui.description v)) details), w1).
Proof.
  intros G. cbv zeta.
  unfold Coqui.openai_compatible_list_voices, Coqui.list_voices.
  rewrite !bind_run, G. cbv beta iota. rewrite !ret_run. cbv beta iota.
  exists (match Coqui.is_multi_speaker N h, Coqui.speakers N h with
          | true, Some (s :: ss) => List.map (Coqui.speaker_voice N) (s :: ss)
          | _, _ => [Coqui.jenny]
          end).
  destruct (Coqui.is_multi_speaker N h), (Coqui.speakers N h) as [[|s ss]|];
    try (repeat split; reflexivity).
  rewrite id_speaker_voice, List.map_map. repeat split.
Qed.

(** X23. The Coqui voice listing needs the model.  With the model loaded
    it changes nothing; with the model not loaded it starts the load, and
    when the load succeeds it leaves the model loaded.  Either way it lists
    the speakers of a multi-speaker model that has any, each under its own
    name as id and its title-cased name, and otherwise the single entry
    [default], named Jenny: a multi-speaker model is listed without a
    [default] entry.  [GET /v1/audio/voices] lists the same entries.  A load
    that raises makes both listings raise: nothing catches the exception. *)
Theorem coqui_list_voices (E : Coqui.Env) (N : Coqui.Engine) (w : Coqui.world) :
  let ids h := match Coqui.is_multi_speaker N h, Coqui.speakers N h with
               | true, Some (s :: ss) => s :: ss
               | _, _ => ["default"]
               end in
  let names h := match Coqui.is_multi_speaker N h, Coqui.speakers N h with
                 | true, Some (s :: ss) =>
                     List.map (fun speaker =>
                                 Coqui.py_title N (Str.replace "_" " " speaker))
                              (s :: ss)
                 | _, _ => ["Jenny"]
                 end in
  let lists h w' :=
    exists details,
      Coqui.list_voices E N w
      = (Return {| Coqui.voices := ids h; Coqui.voice_details := details;
                   Coqui.v_is_multi_speaker := Coqui.is_multi_speaker N h |},
         w')
      /\ List.map Coqui.id details = ids h
      /\ List.map Coqui.name details = names h
      /\ Coqui.openai_compatible_list_voices E N w
         = (Return (List.map (fun v => (Coqui.id v, Coqui.name v,
                                         Coqui.description v)) details), w') in
  (forall h, Coqui.model w = Some h -> lists h w)
  /\ (forall h h', Coqui.model w = None ->
      Coqui.TTS E (Coqui.loads w) (Coqui.COQUI_MODEL E) = inl h ->
      coqui_loaded E h h' ->
      exists w', lists h' w'
                 /\ Coqui.model w' = Some h'
                 /\ Coqui.loads w' = S (Coqui.loads w))
  /\ (forall msg, Coqui.model w = None ->
      Coqui.TTS E (Coqui.loads w) (Coqui.COQUI_MODEL E) = inr msg ->
      (Coqui.list_voices E N w).1 = Raise (Exception msg)
      /\ (Coqui.openai_compatible_list_voices E N w).1 = Raise (Exception msg)
      /\ Coqui.model (Coqui.list_voices E N w).2 = None
      /\ Coqui.loads (Coqui.list_voices E N w).2 = S (Coqui.loads w)).
Proof.
  cbv zeta. split; [|split].
  - intros h M.
    apply (coqui_list_voices_run E N w w h (coqui_get_model_loaded E w h M)).
  - intros h h' M L T.
    destruct (coqui_get_model_loads E w h h' M L T) as (w' & G & M' & L' & _).
    exists w'. split; [|split; assumption].
    apply (coqui_list_voices_run E N w w' h' G).
  - intros msg M L.
    assert (G : exists w1, Coqui.get_model E w = (Raise (Exception msg), w1)
                           /\ Coqui.model w1 = None
                           /\ Coqui.loads w1 = S (Coqui.loads w)).
    { coqui_unfold. rewrite M. cbn.
      change (length (List.filter Coqui.is_load (Coqui.trace w)))
        with (Coqui.loads w).
      rewrite L. cbn. eexists. split; [reflexivity|]. cbn. split; [exact M|].
      unfold Coqui.loads. cbn. rewrite List.filter_app, length_app. cbn. lia. }
    destruct G as (w1 & G & M1 & L1).
    unfold Coqui.openai_compatible_list_voices, Coqui.list_voices.
    rewrite !bind_run, G. cbn [fst snd]. repeat split; assumption.
Qed.

Lemma coqui_list_voices_witness :
  (Coqui.list_voices coqui_host coqui_vctk Coqui.boot).1
  = Return {| Coqui.voices := ["p225"; "p226"];
              Coqui.voice_details :=
                [{| Coqui.id := "p225"; Coqui.name := "P225";
                    Coqui.description := "Speaker: p225" |};
                 {| Coqui.id := "p226"; Coqui.name := "P226";
                    Coqui.description := "Speaker: p226" |}];
              Coqui.v_is_multi_speaker := true |}
  /\ exists w',
      (exists details,
         Coqui.list_voices coqui_host coqui_vctk Coqui.boot
         = (Return {| Coqui.voices := ["p225"; "p226"];
                      Coqui.voice_details := details;
                      Coqui.v_is_multi_speaker := true |}, w')
         /\ List.map Coqui.id details = ["p225"; "p226"]
         /\ List.map Coqui.name details = ["P225"; "P226"]
         /\ Coqui.openai_compatible_list_voices coqui_host coqui_vctk Coqui.boot
            = (Return (List.map (fun v => (Coqui.id v, Coqui.name v,
                                            Coqui.description v)) details), w'))
      /\ Coqui.model w' = Some (mkHandle 0 48000)
      /\ Coqui.loads w' = 1.
Proof.
  split; [vm_compute; reflexivity|].
  exact (proj1 (proj2 (coqui_list_voices coqui_host coqui_vctk Coqui.boot))
           (mkHandle 0 22050) (mkHandle 0 48000) eq_refl eq_refl eq_refl).
Defined.

(** X24. After a move to CUDA that raised, the model serves requests from
    where it was built, and the global sample rate is the one from before
    the load: every later synthesis writes its WAV at that rate (22050 for
    a fresh process), whatever the output rate of the model. *)
Theorem coqui_stale_sample_rate (E : Coqui.Env) (N : Coqui.Engine)
    (request : gmap string json) (w : Coqui.world) (h : handle) (msg : string)
    (resp : StreamingResponse) :
  Coqui.model w = None ->
  Coqui.TTS E (Coqui.loads w) (Coqui.COQUI_MODEL E) = inl h ->
  Coqui.chosen_device E = "cuda" ->
  Coqui.to E h "cuda" = inr msg ->
  let w1 := (Coqui.get_model E w).2 in
  (Coqui.synthesize E N request w1).1 = Return resp ->
  Coqui.loads (Coqui.synthesize E N request w1).2 = Coqui.loads w1
  /\ exists samples,
       Coqui.wavfile_write N (Coqui.sample_rate w) samples = inl (body resp).
Proof.
  intros M L D T. cbv zeta.
  destruct (coqui_failed_move E w h msg M L D T) as (w1 & -> & M1 & S1 & L1).
  cbn [snd]. rewrite coqui_synthesize_run. unfold coqui_run.
  destruct (rejects _ _); [discriminate|].
  rewrite (coqui_get_model_loaded E w1 h M1). cbv zeta.
  unfold coqui_rendered.
  destruct (Coqui.tts N h _ _ _) as [wav|]; [|discriminate].
  destruct (coqui_pcm N wav) as [samples|]; [|discriminate].
  destruct (Coqui.wavfile_write N (Coqui.sample_rate w1) samples) as [bytes|] eqn:W;
    [|discriminate].
  cbn [fst snd]. intros [= <-]. split; [reflexivity|].
  exists samples. rewrite <- S1. exact W.
Qed.

Lemma coqui_stale_sample_rate_witness :
  let w1 := (Coqui.get_model coqui_full_gpu Coqui.boot).2 in
  let resp := {| body := "RIFF 22050"; media_type := "audio/wav";
                 headers := [("Content-Disposition",
                              "inline; filename=speech.wav")] |} in
  Coqui.output_sample_rate coqui_full_gpu (mkHandle 0 48000) = Some 48000%Z
  /\ Coqui.loads (Coqui.synthesize coqui_full_gpu coqui_engine
                    {[ "input" := JStr "hello" ]} w1).2 = Coqui.loads w1
  /\ exists samples,
      Coqui.wavfile_write coqui_engine (Coqui.sample_rate Coqui.boot) samples
      = inl (body resp).
Proof.
  split; [reflexivity|].
  refine (coqui_stale_sample_rate coqui_full_gpu coqui_engine
            {[ "input" := JStr "hello" ]} Coqui.boot (mkHandle 0 48000)
            "CUDA out of memory" _ eq_refl eq_refl eq_refl eq_refl _).
  vm_compute. reflexivity.
Defined.

(** ** The claims about the synthesis handlers and the voice store *)

Ltac c2_cases :=
  repeat split; intros;
  repeat match goal with
         | H : String.eqb _ _ = _ |- _ => progress cbv in H
         end;
  first [reflexivity | congruence].

(** C2, as the code has it.  For a request that reaches the encoder (a
    valid text, a voice that can be looked up, a model and an engine that
    answer) and a WAV encoder that works: the formats [mp3], [aac] and every
    format the handler does not know never fail the request, [mp3] is
    answered as [audio/mpeg] when its encoder works and as [audio/wav] when
    it raises, [aac] and the unknown formats are encoded as WAV straight
    away.  The formats [opus] and [flac] are encoded once, as OGG and FLAC:
    an encoder that raises makes the request a 500, with no second try. *)
Theorem C2_wav_fallback_for_mp3_only (E : Env) (request : gmap string json)
    (w : world) (h : handle) (s : string) (wav : tensor) (riff : string) :
  model w = Some h ->
  text_of OpenAI request = JStr s -> s <> "" -> String.length s <= 4096 ->
  can_resolve E (voice_of request) (fs w) = true ->
  generate E h (call_of E OpenAI request (fs w)) = inl wav ->
  ta_save E "wav" wav (sr h) = inl riff ->
  let r := (openai_compatible_synthesize E request w).1 in
  let f := format_of request in
  let ok body mt :=
    Return {| body := body; media_type := mt; headers := [] |} in
  let once fmt mt :=
    match ta_save E fmt wav (sr h) with
    | inl b => ok b mt
    | inr msg => Raise (HTTPException 500 msg)
    end in
  (eq_str f "opus" = false -> eq_str f "flac" = false -> status r = 200)
  /\ (eq_str f "mp3" = true ->
      r = match ta_save E "mp3" wav (sr h) with
          | inl b => ok b "audio/mpeg"
          | inr _ => ok riff "audio/wav"
          end)
  /\ (eq_str f "mp3" = false -> eq_str f "opus" = false ->
      eq_str f "flac" = false -> r = ok riff "audio/wav")
  /\ (eq_str f "opus" = true -> r = once "ogg" "audio/ogg")
  /\ (eq_str f "flac" = true -> r = once "flac" "audio/flac").
Proof.
  intros M Hs Ne L _ G W. cbv zeta.
  assert (R : rejects (no_text OpenAI) (text_of OpenAI request) = None).
  { rewrite Hs, rejects_str by exact Ne.
    destruct (Z.ltb_spec 4096 (Z.of_nat (String.length s))); [lia|reflexivity]. }
  destruct (handler_served E OpenAI request w w h R (get_model_loaded E w h M))
    as (O & _). cbn [handler] in O. rewrite O.
  unfold answer, openai_answer, generated. rewrite G.
  unfold encoding, encode_plan.
  destruct (format_of request) as [| | |fmt| |]; cbn [eq_str fst snd];
    try (rewrite W; repeat split; intros; first [reflexivity|congruence]).
  destruct (String.eqb fmt "mp3") eqn:Fm; cbn [fst snd].
  { apply String.eqb_eq in Fm. subst fmt.
    destruct (ta_save E "mp3" wav (sr h)); [|rewrite W]; c2_cases. }
  destruct (String.eqb fmt "opus") eqn:Fo; cbn [fst snd].
  { apply String.eqb_eq in Fo. subst fmt.
    destruct (ta_save E "ogg" wav (sr h)); c2_cases. }
  destruct (String.eqb fmt "aac") eqn:Fa; cbn [fst snd].
  { apply String.eqb_eq in Fa. subst fmt. rewrite W. c2_cases. }
  destruct (String.eqb fmt "flac") eqn:Ff; cbn [fst snd].
  { apply String.eqb_eq in Ff. subst fmt.
    destruct (ta_save E "flac" wav (sr h)); c2_cases. }
  rewrite W. c2_cases.
Qed.

Lemma C2_wav_fallback_for_mp3_only_witness :
  let w := set_model (Some (mkHandle 0 24000)) (boot []) in
  let r := (openai_compatible_synthesize wav_only_host
              {[ "input" := JStr "hi" ]} w).1 in
  r = Return {| body := "RIFF"; media_type := "audio/wav"; headers := [] |}
  /\ status r = 200.
Proof.
  pose proof (C2_wav_fallback_for_mp3_only wav_only_host
                ({[ "input" := JStr "hi" ]} : gmap string json)
                (set_model (Some (mkHandle 0 24000)) (boot []))
                (mkHandle 0 24000) "hi" [[1 # 2]] "RIFF" eq_refl eq_refl
                ltac:(discriminate) ltac:(cbn; lia) eq_refl eq_refl eq_refl)
    as (S & M & _).
  split; [apply M; reflexivity|apply S; reflexivity].
Defined.

(** C2, as stated, fails: on a host whose torchaudio writes WAV only, a
    request for [flac], and one for [opus], is answered with a 500 although
    the WAV encoder works; the same request for [mp3] or [aac] is answered
    with a WAV. *)
Lemma C2_flac_failure_is_500 :
  let w := set_model (Some (mkHandle 0 24000)) (boot []) in
  let ask fmt :=
    (openai_compatible_synthesize wav_only_host
       {[ "input" := JStr "hi"; "response_format" := JStr fmt ]} w).1 in
  ask "flac" = Raise (HTTPException 500 "Unsupported format: flac")
  /\ status (ask "flac") = 500
  /\ ask "opus" = Raise (HTTPException 500 "Unsupported format: ogg")
  /\ ask "mp3"
     = Return {| body := "RIFF"; media_type := "audio/wav"; headers := [] |}
  /\ ask "aac"
     = Return {| body := "RIFF"; media_type := "audio/wav"; headers := [] |}
  /\ ta_save wav_only_host "wav" [[1 # 2]] 24000 = inl "RIFF".
Proof. vm_compute. repeat split. Qed.

(** C4. On both surfaces a synthesis request whose text is missing or
    empty, or a string of more than 4096 characters, is answered with 400
    and leaves the world as it was: the model is not loaded, no voice is
    looked up, the engine is not called.  A text of exactly 4096 characters
    passes validation on both surfaces: the answer is not a 400 and the
    handler goes on to the model; a text of 4097 characters is turned
    away. *)
Theorem C4_text_validation (E : Env) (sf : surface)
    (request : gmap string json) (w : world) :
  (truthy (text_of sf request) = false
   \/ (exists s, text_of sf request = JStr s /\ 4096 < String.length s) ->
   status (handler E sf request w).1 = 400
   /\ (handler E sf request w).2 = w)
  /\ (forall s, text_of sf request = JStr s -> String.length s = 4096 ->
      status (handler E sf request w).1 <> 400
      /\ (model w = None -> loads (handler E sf request w).2 = S (loads w)))
  /\ (forall s, text_of sf request = JStr s -> String.length s = 4097 ->
      status (handler E sf request w).1 = 400
      /\ (handler E sf request w).2 = w).
Proof.
  pose proof (handler_view E sf request w) as V.
  assert (Long : forall s, text_of sf request = JStr s ->
                           4096 < String.length s ->
                           status (handler E sf request w).1 = 400
                           /\ (handler E sf request w).2 = w).
  { intros s Hs L. rewrite Hs in V.
    rewrite rejects_str in V by (intros ->; cbn in L; lia).
    destruct (Z.ltb_spec 4096 (Z.of_nat (String.length s))); [|lia].
    rewrite V. split; reflexivity. }
  split; [|split].
  - intros [T|(s & Hs & L)]; [|exact (Long s Hs L)].
    rewrite (rejects_falsy _ _ T) in V. rewrite V. split; reflexivity.
  - intros s Hs L.
    assert (Ne : s <> "") by (intros ->; cbn in L; discriminate).
    assert (R : rejects (no_text sf) (text_of sf request) = None).
    { rewrite Hs, rejects_str by exact Ne.
      destruct (Z.ltb_spec 4096 (Z.of_nat (String.length s))); [lia|reflexivity]. }
    rewrite R in V. destruct V as [O A]. split.
    + rewrite O. destruct (status_answer E sf request (synthesis E sf request w).1)
        as [-> | ->]; discriminate.
    + intros M. destruct (get_model E w) as [[h|e] w1] eqn:G.
      * destruct (handler_served E sf request w w1 h R G)
          as (_ & _ & _ & _ & _ & _ & Lo). rewrite M in Lo. exact Lo.
      * destruct (handler_unserved E sf request w w1 e R G) as [_ [_ _ _ Ae]].
        rewrite <- (loads_engine _ _ Ae).
        pose proof (get_model_retries E w M) as Rt. rewrite G in Rt. exact Rt.
  - intros s Hs L. apply (Long s Hs). lia.
Qed.

Lemma C4_text_validation_witness :
  (status (handler host Native {[ "input" := JStr (Str.replicate "a" 4097) ]}
             (boot [])).1 = 400
   /\ (handler host Native {[ "input" := JStr (Str.replicate "a" 4097) ]}
         (boot [])).2 = boot [])
  /\ (status (handler host OpenAI {[ "input" := JStr (Str.replicate "a" 4096) ]}
                (boot [])).1 <> 400
      /\ (model (boot []) = None ->
          loads (handler host OpenAI
                   {[ "input" := JStr (Str.replicate "a" 4096) ]}
                   (boot [])).2 = S (loads (boot []))))
  /\ (status (handler host OpenAI {[ "voice" := JStr "amy" ]} (boot [])).1 = 400
      /\ (handler host OpenAI {[ "voice" := JStr "amy" ]} (boot [])).2 = boot []).
Proof.
  split; [|split].
  - refine (proj2 (proj2 (C4_text_validation host Native
                            {[ "input" := JStr (Str.replicate "a" 4097) ]}
                            (boot []))) (Str.replicate "a" 4097) _ _);
      vm_compute; reflexivity.
  - refine (proj1 (proj2 (C4_text_validation host OpenAI
                            {[ "input" := JStr (Str.replicate "a" 4096) ]}
                            (boot []))) (Str.replicate "a" 4096) _ _);
      vm_compute; reflexivity.
  - refine (proj1 (C4_text_validation host OpenAI
                     {[ "voice" := JStr "amy" ]} (boot [])) (or_introl _)).
    reflexivity.
Defined.

(** C5, as the code has it.  For one text and one voice in one state the
    two surfaces turn away the same texts, leave the same model and the
    same store, resolve the voice with the same file-system calls, load the
    model as often and call the engine as often, with the same text and the
    same reference.  The tuning agrees only by coincidence: the native
    handler passes [exaggeration] and [cfg_weight] of the request (0.5
    where the request has none), the OpenAI-compatible handler passes
    neither, so the effective calls are the same when what the native
    request asks for is what the engine defaults to. *)
Theorem C5_surfaces_agree_up_to_tuning (E : Env)
    (native openai : gmap string json) (w : world) :
  text_of Native native = text_of OpenAI openai ->
  voice_of native = voice_of openai ->
  let rn := handler E Native native w in
  let ro := handler E OpenAI openai w in
  (status rn.1 = 400 <-> status ro.1 = 400)
  /\ model rn.2 = model ro.2 /\ fs rn.2 = fs ro.2
  /\ fs_ops (trace rn.2) = fs_ops (trace ro.2)
  /\ loads rn.2 = loads ro.2
  /\ List.map untuned (gen_calls (trace rn.2))
     = List.map untuned (gen_calls (trace ro.2))
  /\ (forall dflt_exaggeration dflt_cfg_weight,
      dict_get_or native "exaggeration" (JNum (1 # 2)) = dflt_exaggeration ->
      dict_get_or native "cfg_weight" (JNum (1 # 2)) = dflt_cfg_weight ->
      List.map (effective dflt_exaggeration dflt_cfg_weight)
               (gen_calls (trace rn.2))
      = List.map (effective dflt_exaggeration dflt_cfg_weight)
                 (gen_calls (trace ro.2))).
Proof.
  intros T V. cbv zeta.
  pose proof (handler_view E Native native w) as Vn.
  pose proof (handler_view E OpenAI openai w) as Vo.
  pose proof (rejects_detail (no_text Native) (no_text OpenAI)
                (text_of OpenAI openai)) as RD.
  rewrite T in Vn.
  destruct (rejects (no_text Native) (text_of OpenAI openai)) as [en|] eqn:Rn.
  { destruct (rejects (no_text OpenAI) (text_of OpenAI openai)) as [eo|] eqn:Ro;
      [|destruct RD as [_ RD]; specialize (RD eq_refl); discriminate].
    rewrite Vn, Vo. cbn [fst snd].
    split; [|repeat split; auto].
    unfold rejects in Rn, Ro.
    destruct (truthy (text_of OpenAI openai)); cbn [negb] in *.
    - destruct (text_of OpenAI openai);
        try (injection Rn as <-; injection Ro as <-; reflexivity).
      all: match type of Rn with
           | context [(4096 <? ?n)%Z] => destruct (4096 <? n)%Z
           end; try discriminate;
        injection Rn as <-; injection Ro as <-; reflexivity.
    - injection Rn as <-; injection Ro as <-. reflexivity. }
  assert (Ro : rejects (no_text OpenAI) (text_of OpenAI openai) = None)
    by (apply RD; reflexivity).
  rewrite Ro in Vo. clear RD.
  assert (Rn' : rejects (no_text Native) (text_of Native native) = None)
    by (rewrite T; exact Rn).
  destruct Vn as [On _], Vo as [Oo _].
  destruct (get_model E w) as [[h|e] w1] eqn:G.
  - destruct (handler_served E Native native w w1 h Rn' G)
      as (_ & _ & Cn & Fn & Mn & Sn & Ln).
    destruct (handler_served E OpenAI openai w w1 h Ro G)
      as (_ & _ & Co & Fo & Mo & So & Lo).
    split.
    { rewrite On, Oo.
      destruct (status_answer E Native native (synthesis E Native native w).1)
        as [-> | ->],
        (status_answer E OpenAI openai (synthesis E OpenAI openai w).1)
        as [-> | ->]; split; discriminate. }
    rewrite Mn, Mo, Sn, So, Fn, Fo, Ln, Lo, Cn, Co, V.
    repeat split; try reflexivity.
    + rewrite !List.map_app. f_equal. unfold call_of. rewrite T, ?V.
      reflexivity.
    + intros de dc He Hc. rewrite !List.map_app. f_equal.
      unfold call_of. rewrite T, ?V. unfold effective, gen_args, tuning_of,
        native_tuning. cbn. rewrite He, Hc. reflexivity.
  - destruct (handler_unserved E Native native w w1 e Rn' G)
      as [On' [Amn Afn Aon Aen]].
    destruct (handler_unserved E OpenAI openai w w1 e Ro G)
      as [Oo' [Amo Afo Aoo Aeo]].
    assert (Gc : gen_calls (trace (handler E Native native w).2)
                 = gen_calls (trace (handler E OpenAI openai w).2)).
    { rewrite <- (gen_calls_engine (trace (handler E Native native w).2)),
        <- (gen_calls_engine (trace (handler E OpenAI openai w).2)),
        <- Aen, <- Aeo. reflexivity. }
    rewrite On', Oo', Gc.
    split; [split; discriminate|].
    repeat split; try congruence.
    rewrite <- (loads_engine _ _ Aen), <- (loads_engine _ _ Aeo). reflexivity.
Qed.

Lemma C5_surfaces_agree_up_to_tuning_witness :
  let native := {[ "text" := JStr "hi"; "voice" := JStr "amy" ]} in
  let openai := {[ "input" := JStr "hi"; "voice" := JStr "amy" ]} in
  let w := boot [(["srv"; "voices"; "amy.wav"], silence)] in
  gen_calls (trace (handler host Native native w).2)
  = [{| g_text := JStr "hi";
        g_audio_prompt_path := Some "/srv/voices/amy.wav";
        g_exaggeration := Some (JNum (1 # 2));
        g_cfg_weight := Some (JNum (1 # 2)) |}]
  /\ fs_ops (trace (handler host Native native w).2)
     = fs_ops (trace (handler host OpenAI openai w).2)
  /\ List.map (effective (JNum (1 # 2)) (JNum (1 # 2)))
              (gen_calls (trace (handler host Native native w).2))
     = List.map (effective (JNum (1 # 2)) (JNum (1 # 2)))
                (gen_calls (trace (handler host OpenAI openai w).2)).
Proof.
  cbv zeta.
  assert (T : text_of Native
                ({[ "text" := JStr "hi"; "voice" := JStr "amy" ]}
                 : gmap string json)
              = text_of OpenAI
                  ({[ "input" := JStr "hi"; "voice" := JStr "amy" ]}
                   : gmap string json)) by (vm_compute; reflexivity).
  assert (V : voice_of ({[ "text" := JStr "hi"; "voice" := JStr "amy" ]}
                        : gmap string json)
              = voice_of ({[ "input" := JStr "hi"; "voice" := JStr "amy" ]}
                          : gmap string json)) by (vm_compute; reflexivity).
  destruct (C5_surfaces_agree_up_to_tuning host _ _
              (boot [(["srv"; "voices"; "amy.wav"], silence)]) T V)
    as (_ & _ & _ & O & _ & _ & Ef).
  split; [vm_compute; reflexivity|]. split; [exact O|].
  apply Ef; vm_compute; reflexivity.
Defined.

(** C5, as stated, fails: the same body, with an [exaggeration] of 0.9, sent
    to the two surfaces reaches the engine with 0.9 from the native one and
    with no tuning from the OpenAI-compatible one, so that whatever the
    engine defaults to, the effective tunings differ for this body or for
    the one that asks for 0.1. *)
Lemma C5_tuning_is_not_shared :
  let body x : gmap string json :=
    {[ "input" := JStr "hi"; "exaggeration" := JNum x ]} in
  let calls sf x := gen_calls (trace (handler host sf (body x) (boot [])).2) in
  calls Native (9 # 10)
  = [{| g_text := JStr "hi"; g_audio_prompt_path := None;
        g_exaggeration := Some (JNum (9 # 10));
        g_cfg_weight := Some (JNum (1 # 2)) |}]
  /\ calls OpenAI (9 # 10)
     = [{| g_text := JStr "hi"; g_audio_prompt_path := None;
           g_exaggeration := None; g_cfg_weight := None |}]
  /\ ~ (exists dflt_exaggeration dflt_cfg_weight,
          List.map (effective dflt_exaggeration dflt_cfg_weight)
                   (calls Native (9 # 10))
          = List.map (effective dflt_exaggeration dflt_cfg_weight)
                     (calls OpenAI (9 # 10))
          /\ List.map (effective dflt_exaggeration dflt_cfg_weight)
                      (calls Native (1 # 10))
             = List.map (effective dflt_exaggeration dflt_cfg_weight)
                        (calls OpenAI (1 # 10))).
Proof.
  cbv zeta. split; [vm_compute; reflexivity|]. split; [vm_compute; reflexivity|].
  intros (de & dc & A & B).
  assert (Ca : gen_calls (trace (handler host Native
                 {[ "input" := JStr "hi"; "exaggeration" := JNum (9 # 10) ]}
                 (boot [])).2)
               = [{| g_text := JStr "hi"; g_audio_prompt_path := None;
                     g_exaggeration := Some (JNum (9 # 10));
                     g_cfg_weight := Some (JNum (1 # 2)) |}])
    by (vm_compute; reflexivity).
  assert (Cb : gen_calls (trace (handler host Native
                 {[ "input" := JStr "hi"; "exaggeration" := JNum (1 # 10) ]}
                 (boot [])).2)
               = [{| g_text := JStr "hi"; g_audio_prompt_path := None;
                     g_exaggeration := Some (JNum (1 # 10));
                     g_cfg_weight := Some (JNum (1 # 2)) |}])
    by (vm_compute; reflexivity).
  assert (Oa : gen_calls (trace (handler host OpenAI
                 {[ "input" := JStr "hi"; "exaggeration" := JNum (9 # 10) ]}
                 (boot [])).2)
               = [{| g_text := JStr "hi"; g_audio_prompt_path := None;
                     g_exaggeration := None; g_cfg_weight := None |}])
    by (vm_compute; reflexivity).
  assert (Ob : gen_calls (trace (handler host OpenAI
                 {[ "input" := JStr "hi"; "exaggeration" := JNum (1 # 10) ]}
                 (boot [])).2)
               = [{| g_text := JStr "hi"; g_audio_prompt_path := None;
                     g_exaggeration := None; g_cfg_weight := None |}])
    by (vm_compute; reflexivity).
  rewrite Ca, Oa in A. rewrite Cb, Ob in B. cbn in A, B.
  injection A as A _. injection B as B _. congruence.
Qed.






(** C10. Deletion and voice resolution put the id into the path as it is:
    the files they look for are [<voice directory>/<id>.wav] and then
    [<voice directory>/<id>.mp3] with nothing done to the id.  For an id
    [../<name>] these are files in the parent of the voice directory:
    [delete_voice] removes [<name>.wav] there, and the synthesis handlers
    hand [<voice directory>/../<name>.wav] to the engine as the reference.
    Only the upload sanitizes: the file it writes is directly in the voice
    directory, under a name without a separator. *)
Theorem C10_ids_are_not_sanitized (E : Env) (n : string) (w : world) :
  Str.mem "/" n = false ->
  let dir := locate (cwd E) (voices_dir E) in
  let outside ext := removelast dir ++ [n +:+ ext] in
  fs_exists (fs w) (outside ".wav") = true ->
  (candidate E ("../" +:+ n) ".wav" = outside ".wav"
   /\ candidate E ("../" +:+ n) ".mp3" = outside ".mp3"
   /\ (dir <> [] -> forall m ext, outside ext <> dir ++ [m]))
  /\ (let r := delete_voice E ("../" +:+ n) w in
      r.1 = Return (deleted ("../" +:+ n))
      /\ fs_exists (fs r.2) (outside ".wav") = false)
  /\ (forall sf request h s,
      model w = Some h ->
      text_of sf request = JStr s -> s <> "" -> String.length s <= 4096 ->
      voice_of request = JStr ("../" +:+ n) ->
      exists c,
        gen_calls (trace (handler E sf request w).2)
        = gen_calls (trace w) ++ [c]
        /\ g_audio_prompt_path c
           = Some (str (mkPath (anchored (voices_dir E))
                          (parts (voices_dir E) ++ [".."; n +:+ ".wav"]))))
  /\ (forall audio name j,
      (upload_voice E audio name w).1 = Return j ->
      Str.mem "/" (safe_name name) = false
      /\ exists f,
           fs (upload_voice E audio name w).2
           = fs_write (fs w) (dir ++ [safe_name name +:+ ".wav"]) f).
Proof.
  intros Hn. cbv zeta. intros X.
  destruct (candidate_parent E n ".wav" Hn eq_refl) as [Cw Sw]; [cbn; lia|].
  destruct (candidate_parent E n ".mp3" Hn eq_refl) as [Cm _]; [cbn; lia|].
  split; [|split; [|split]].
  - split; [exact Cw|]. split; [exact Cm|].
    intros NE m ext e. apply (f_equal (@length string)) in e.
    rewrite !length_app in e. cbn in e.
    pose proof (f_equal (@length string) (app_removelast_last "" NE)) as L.
    rewrite length_app in L. cbn in L. lia.
  - pose proof (delete_voice_cases E ("../" +:+ n) w eq_refl) as D.
    cbv zeta in D. rewrite Cw, X in D.
    destruct D as [R F]. split; [exact R|]. rewrite F.
    apply fs_exists_remove.
  - intros sf request h s M Hs Ne L V.
    assert (R : rejects (no_text sf) (text_of sf request) = None).
    { rewrite Hs, rejects_str by exact Ne.
      destruct (Z.ltb_spec 4096 (Z.of_nat (String.length s))); [lia|reflexivity]. }
    destruct (handler_served E sf request w w h R (get_model_loaded E w h M))
      as (_ & _ & C & _).
    eexists. split; [exact C|].
    unfold call_of, gen_args, prompt_of. rewrite V. cbn [eq_str py_format].
    replace (String.eqb ("../" +:+ n) "default") with false by reflexivity.
    rewrite Cw, X, Sw.
    cbn [g_audio_prompt_path truthy_opt]. rewrite str_dotdot. reflexivity.
  - intros audio name j H.
    destruct (upload_voice_stores E audio name w j H) as (_ & _ & loaded & _ & F).
    split; [apply safe_name_plain|]. eexists. exact F.
Qed.

Lemma C10_ids_are_not_sanitized_witness :
  let w := set_model (Some (mkHandle 0 24000))
             (boot [(["srv"; "secrets.wav"], silence);
                    (["srv"; "voices"; "amy.wav"], silence)]) in
  candidate host "../secrets" ".wav" = ["srv"; "secrets.wav"]
  /\ fs (delete_voice host "../secrets" w).2
     = [(["srv"; "voices"; "amy.wav"], silence)]
  /\ (delete_voice host "../secrets" w).1 = Return (deleted "../secrets")
  /\ gen_calls (trace (handler host Native
                         {[ "text" := JStr "hi"; "voice" := JStr "../secrets" ]}
                         w).2)
     = [{| g_text := JStr "hi";
           g_audio_prompt_path := Some "/srv/voices/../secrets.wav";
           g_exaggeration := Some (JNum (1 # 2));
           g_cfg_weight := Some (JNum (1 # 2)) |}].
Proof.
  cbv zeta.
  destruct (C10_ids_are_not_sanitized host "secrets"
              (set_model (Some (mkHandle 0 24000))
                 (boot [(["srv"; "secrets.wav"], silence);
                        (["srv"; "voices"; "amy.wav"], silence)]))
              eq_refl eq_refl) as ((C & _) & (R & _) & _).
  split; [exact C|]. split; [vm_compute; reflexivity|]. split; [exact R|].
  vm_compute. reflexivity.
Defined.
